(** * cometspy: the class [comets] of [comets.py]

    A shallow embedding of the part of [cometspy/comets.py] that reads the
    logs of a COMETS run ([comets.run], from "READ OUTPUT" on), splits the
    flux log by model ([build_readable_flux_object]) and rebuilds dense
    images of one cycle ([get_metabolite_image], [get_biomass_image],
    [get_flux_image]).  The launch side of the class follows it: the class
    path, [__init__] and the first half of [run], with the engine and the
    writers of the layout and the parameters taken as given.

    pandas and numpy are libraries, not code of the repository: they are
    modelled here as far as the calls of [comets.py] use them.  A data frame
    is a list of column labels and a list of labelled rows; a Python
    exception is a value of [exn]; a function that can raise returns a
    [result].  Numbers are exact rationals: no operation below does
    arithmetic other than [x - 1] and [int( )]. *)

From Stdlib Require Import ZArith QArith String Ascii List Lia.
From Stdlib Require HexString.
From stdpp Require Import base list gmap strings.

Open Scope string_scope.
Open Scope list_scope.

(** ** Values *)

(** A Python float as the logs hold it: a number or [nan]. *)
Inductive float :=
| Finite (q : Q)
| NaN.

(** A cell of a data frame: pandas reads a column as numbers, or keeps it
    as strings when one of its fields is no number. *)
Inductive value :=
| Float (f : float)
| Str (s : string).

Coercion Float : float >-> value.

(** A column label: [names=range(n)] gives integers, the other tables
    have names. *)
Inductive label :=
| LInt (n : Z)
| LStr (s : string).

#[global] Instance label_eq_dec : EqDecision label.
Proof. solve_decision. Defined.

(** ** Exceptions and results *)

Inductive exn :=
| CorruptLine                        (* class CorruptLine(Exception) *)
| OutOfGrid                          (* class OutOfGrid(Exception) *)
| UnallocatedMetabolite              (* class UnallocatedMetabolite(Exception) *)
| ValueError (msg : string)
| NameError (msg : string)
| KeyError (key : label)
| IndexError
| TypeError
| AttributeError (name : string)
| FileNotFoundError (path : string)
| NotModelled (what : string).
(* [NotModelled]: the run leaves the part of pandas modelled here (a label
   that names several columns, a log row wider than its names). *)

Inductive result (A : Type) :=
| Ok (a : A)
| Raise (e : exn).

Arguments Ok {A} a.
Arguments Raise {A} e.

Definition bind {A B} (c : result A) (k : A -> result B) : result B :=
  match c with
  | Ok a => k a
  | Raise e => Raise e
  end.

Notation "'let/r' x := c1 'in' c2" := (bind c1 (fun x => c2))
  (at level 10, x name, c1 at level 100, c2 at level 200,
   format "'[v' 'let/r'  x  :=  c1  'in' '/' c2 ']'").
Notation "'let/r' ' pat := c1 'in' c2" :=
  (bind c1 (fun x => match x with pat => c2 end))
  (at level 10, pat pattern, c1 at level 100, c2 at level 200,
   format "'[v' 'let/r'  ' pat  :=  c1  'in' '/' c2 ']'").
Notation "c1 ;; c2" := (bind c1 (fun _ => c2))
  (at level 100, c2 at level 200, right associativity).

(** [if cond: raise e] *)
Definition raise_if (cond : bool) (e : exn) : result unit :=
  if cond then Raise e else Ok tt.

(** A loop whose body can raise. *)
Fixpoint foldM {A S} (body : S -> A -> result S) (s : S) (l : list A) : result S :=
  match l with
  | [] => Ok s
  | a :: l' => let/r s' := body s a in foldM body s' l'
  end.

(** ** Python numbers *)

(** [v == q] for a number [q]: a string or [nan] equals no number. *)
Definition eq_num (v : value) (q : Q) : bool :=
  match v with
  | Float (Finite p) => Qeq_bool p q
  | _ => false
  end.

(** [v == s] for a string [s]. *)
Definition eq_str (v : value) (s : string) : bool :=
  match v with
  | Str t => String.eqb t s
  | _ => false
  end.

(** [v - 1]: a string minus a number is a [TypeError]. *)
Definition minus_one (v : value) : result float :=
  match v with
  | Float (Finite q) => Ok (Finite (q - 1))
  | Float NaN => Ok NaN
  | Str _ => Raise TypeError
  end.

(** [int(f)] truncates towards zero; [int(nan)] is a [ValueError]. *)
Definition int (f : float) : result Z :=
  match f with
  | Finite q => Ok (Z.quot (Qnum q) (Z.pos (Qden q)))
  | NaN => Raise (ValueError "cannot convert float NaN to integer")
  end.

(** ** Data frames *)

Record DataFrame := {
  columns : list label;
  rows : list (Z * list value)        (* index label, cells in column order *)
}.

(** The positions of the columns that a label names. *)
Fixpoint positions_from (i : nat) (l : label) (cols : list label) : list nat :=
  match cols with
  | [] => []
  | c :: cols' =>
      if decide (c = l) then i :: positions_from (S i) l cols'
      else positions_from (S i) l cols'
  end.

Definition positions := positions_from 0.

(** [cells[label]] in a row whose labels are [cols]. *)
Definition getitem (cols : list label) (l : label) (cells : list value) : result value :=
  match positions l cols with
  | [] => Raise (KeyError l)
  | [p] => Ok (nth p cells (Float NaN))
  | _ => Raise (NotModelled "label of several columns")
  end.

(** [df[label]]: the column as a list, row by row. *)
Definition df_getitem (l : label) (df : DataFrame) : result (list value) :=
  match positions l (columns df) with
  | [] => Raise (KeyError l)
  | [p] => Ok (map (fun r => nth p (snd r) (Float NaN)) (rows df))
  | _ => Raise (NotModelled "label of several columns")
  end.

(** The elements at the [true] positions of a mask. *)
Fixpoint select {A} (mask : list bool) (l : list A) : list A :=
  match mask, l with
  | b :: mask', a :: l' => if b then a :: select mask' l' else select mask' l'
  | _, _ => []
  end.

(** [df.loc[mask]]: the rows at the [true] positions, labels kept. *)
Definition df_loc (mask : list bool) (df : DataFrame) : DataFrame :=
  {| columns := columns df; rows := select mask (rows df) |}.

(** [l[a:b]] for [0 <= a] and [0 <= b]: a Python slice clamps. *)
Definition slice {A} (a b : nat) (l : list A) : list A := drop a (take b l).

(** [l[i]] *)
Definition index_at {A} (i : nat) (l : list A) : result A :=
  match l !! i with
  | Some a => Ok a
  | None => Raise IndexError
  end.

(** [df.drop(labels, axis=1)]: a label that names no column is a
    [KeyError]; every column named by one of the labels goes. *)
Definition df_drop (labels : list label) (df : DataFrame) : result DataFrame :=
  match List.find (fun l => negb (bool_decide (l ∈ columns df))) labels with
  | Some l => Raise (KeyError l)
  | None =>
      let keep := map (fun c => negb (bool_decide (c ∈ labels))) (columns df) in
      Ok {| columns := select keep (columns df);
            rows := map (fun r => (fst r, select keep (snd r))) (rows df) |}
  end.

(** [df.columns = names] *)
Definition df_set_columns (names : list label) (df : DataFrame) : result DataFrame :=
  if decide (length names = length (columns df))
  then Ok {| columns := names; rows := rows df |}
  else Raise (ValueError "Length mismatch").

(** ** Python dicts: insertion order kept, a known key is overwritten in place *)

Definition dict (V : Type) := list (string * V).

Fixpoint dict_set {V} (k : string) (v : V) (d : dict V) : dict V :=
  match d with
  | [] => [(k, v)]
  | (k', v') :: d' =>
      if String.eqb k' k then (k', v) :: d' else (k', v') :: dict_set k v d'
  end.

Fixpoint dict_get {V} (k : string) (d : dict V) : option V :=
  match d with
  | [] => None
  | (k', v') :: d' => if String.eqb k' k then Some v' else dict_get k d'
  end.

(** ** Models and layout (read only) *)

(** Modelled from the spec: the model class is not part of this module; a
    model is "identified by a string id and an ordered sequence of reaction
    names (REACTION_NAMES)".  [comets.py] reads [m.id] and the column
    [m.reactions.REACTION_NAMES] of the reaction table, so that
    [len(m.reactions)] is the length of that column. *)
Module Model.
Record model := {
  id : string;
  REACTION_NAMES : list string
}.
End Model.

Abbreviation model := Model.model.
Abbreviation REACTION_NAMES := Model.REACTION_NAMES.

(** Modelled from the spec: the layout class is not part of this module;
    it supplies the "ordered list of models", the "grid shape: a pair of
    integers (rows, columns)" and the metabolites of its media table. *)
Record Layout := {
  models : list model;
  grid : Z * Z;                       (* layout.grid[0], layout.grid[1] *)
  media_metabolite : list string      (* list(layout.media.metabolite) *)
}.

(** ** [build_readable_flux_object] *)

(** The body of the loop for the model at 1-based position [model_num]. *)
Definition flux_table (fluxes : DataFrame) (model_num : Z) (m : model)
  : result DataFrame :=
  let model_rxn_names := REACTION_NAMES m in
  let model_rxn_len := length model_rxn_names in
  let/r col3 := df_getitem (LInt 3) fluxes in
  let sub_df := df_loc (map (fun v => eq_num v (inject_Z model_num)) col3) fluxes in
  let/r sub_df := df_drop (slice (model_rxn_len + 4) (length (columns sub_df))
                                (columns sub_df)) sub_df in
  let/r l3 := index_at 3 (columns sub_df) in
  let/r sub_df := df_drop [l3] sub_df in
  df_set_columns (map LStr (["cycle"; "x"; "y"] ++ model_rxn_names)) sub_df.

(** The method reads [self.fluxes] and [self.layout.models], here its two
    arguments, and sets [self.fluxes_by_species], here its result. *)
Definition build_readable_flux_object (fluxes : DataFrame) (ms : list model)
  : result (dict DataFrame) :=
  foldM (fun fluxes_by_species i =>
           let model_num := (i + 1)%nat in
           let/r m := index_at (model_num - 1) ms in
           let/r sub_df := flux_table fluxes (Z.of_nat model_num) m in
           Ok (dict_set (Model.id m) sub_df fluxes_by_species))
        [] (seq 0 (length ms)).

(** ** numpy: sorted distinct values, dense arrays *)

Definition is_str (v : value) : bool :=
  match v with Str _ => true | Float _ => false end.

(** The order [np.unique] sorts by: numbers by size with [nan] last,
    strings alphabetically.  A string is never compared with a number
    ([np_unique] raises before). *)
Definition value_compare (v w : value) : comparison :=
  match v, w with
  | Float (Finite p), Float (Finite q) => (p ?= q)%Q
  | Float (Finite _), Float NaN => Lt
  | Float NaN, Float (Finite _) => Gt
  | Float NaN, Float NaN => Eq
  | Str s, Str t => String.compare s t
  | Float _, Str _ => Lt
  | Str _, Float _ => Gt
  end.

Fixpoint insert_unique (v : value) (sorted : list value) : list value :=
  match sorted with
  | [] => [v]
  | w :: sorted' =>
      match value_compare v w with
      | Lt => v :: w :: sorted'
      | Eq => w :: sorted'
      | Gt => w :: insert_unique v sorted'
      end
  end.

(** [np.unique(column)]: sorting a column that mixes strings and numbers
    is a [TypeError]. *)
Definition np_unique (col : list value) : result (list value) :=
  if existsb is_str col && existsb (fun v => negb (is_str v)) col
  then Raise TypeError
  else Ok (foldr insert_unique [] col).

(** A 2-D array of floats with its shape. *)
Record ndarray := {
  shape : nat * nat;
  data : list (list float)
}.

(** [np.zeros((n0, n1))] *)
Definition np_zeros (dims : Z * Z) : result ndarray :=
  if (fst dims <? 0)%Z || (snd dims <? 0)%Z
  then Raise (ValueError "negative dimensions are not allowed")
  else Ok {| shape := (Z.to_nat (fst dims), Z.to_nat (snd dims));
             data := replicate (Z.to_nat (fst dims))
                               (replicate (Z.to_nat (snd dims)) (Finite 0)) |}.

(** An index along an axis of length [n]: [-n <= i < 0] counts from the
    end, anything outside [-n <= i < n] is an [IndexError]. *)
Definition np_index (n : nat) (i : Z) : result nat :=
  if (0 <=? i)%Z && (i <? Z.of_nat n)%Z then Ok (Z.to_nat i)
  else if (- Z.of_nat n <=? i)%Z && (i <? 0)%Z then Ok (Z.to_nat (i + Z.of_nat n))
  else Raise IndexError.

(** ** The [comets] object, as far as the output side uses it *)

(** Modelled from the spec: the params class is not part of this module;
    [all_params] holds "a set of boolean flags indicating which logs were
    requested, and the file path assigned to each requested log". *)
Record Params := {
  writeTotalBiomassLog : bool;
  writeFluxLog : bool;
  writeMediaLog : bool;
  writeBiomassLog : bool;
  writeSpecificMediaLog : bool;
  evolution : bool;
  TotalBiomassLogName : string;
  FluxLogName : string;
  MediaLogName : string;
  SpecificMediaLogName : string
}.

(** An attribute that [run] sets is [None] until it is set. *)
Record comets := {
  working_dir : string;
  hex_id : string;                           (* hex(id(self)) *)
  layout : Layout;
  parameters : Params;
  total_biomass : option DataFrame;
  fluxes : option DataFrame;
  fluxes_by_species : option (dict DataFrame);
  media : option DataFrame;
  biomass : option DataFrame;
  genotypes : option DataFrame;
  specific_media : option DataFrame
}.

(** [self.name] *)
Definition attr {A} (name : string) (a : option A) : result A :=
  match a with
  | Some v => Ok v
  | None => Raise (AttributeError name)
  end.

(** [cycle not in list(np.unique(df['cycle']))] *)
Definition cycle_not_recorded (df : DataFrame) (cycle : Q) : result bool :=
  let/r col := df_getitem (LStr "cycle") df in
  let/r u := np_unique col in
  Ok (negb (existsb (fun v => eq_num v cycle) u)).

(** ** Images of one cycle *)

Section Images.

(** [float(s)] of Python for a string [s], [None] when it raises: numpy
    calls it when a string is stored into an array of floats. *)
Variable py_float : string -> option float.

Definition as_float (v : value) : result float :=
  match v with
  | Float f => Ok f
  | Str s =>
      match py_float s with
      | Some f => Ok f
      | None => Raise (ValueError "could not convert string to float")
      end
  end.

(** [im[i, j] = v] *)
Definition np_setitem (im : ndarray) (i j : Z) (v : value) : result ndarray :=
  let/r r := np_index (fst (shape im)) i in
  let/r c := np_index (snd (shape im)) j in
  let/r f := as_float v in
  Ok {| shape := shape im;
        data := alter (fun line => <[c := f]> line) r (data im) |}.

(** [im[r, c]] for an index inside the array. *)
Definition cell (im : ndarray) (r c : nat) : option float :=
  data im !! r ≫= (fun line => line !! c).

(** The statement [im[int(row['x']-1), int(row['y']-1)] = row[key]] for a
    row of [iterrows()]: the right-hand side is evaluated first. *)
Definition assign_cell (cols : list label) (key : label) (im : ndarray)
    (row : Z * list value) : result ndarray :=
  let/r v := getitem cols key (snd row) in
  let/r x := getitem cols (LStr "x") (snd row) in
  let/r x1 := minus_one x in
  let/r i := int x1 in
  let/r y := getitem cols (LStr "y") (snd row) in
  let/r y1 := minus_one y in
  let/r j := int y1 in
  np_setitem im i j v.

Definition get_metabolite_image (self : comets) (met : string) (cycle : Q)
  : result ndarray :=
  raise_if (negb (writeMediaLog (parameters self)))
           (ValueError "media log was not recorded during simulation") ;;
  raise_if (negb (bool_decide (met ∈ media_metabolite (layout self))))
           (NameError ("met " ++ met ++ " is not in layout.media.metabolite")) ;;
  let/r media := attr "media" (media self) in
  let/r absent := cycle_not_recorded media cycle in
  raise_if absent
           (ValueError "media was not saved at the desired cycle. try another.") ;;
  let/r im := np_zeros (grid (layout self)) in
  let/r cycles := df_getitem (LStr "cycle") media in
  let/r mets := df_getitem (LStr "metabolite") media in
  let aux := df_loc (zip_with andb (map (fun v => eq_num v cycle) cycles)
                                   (map (fun v => eq_str v met) mets)) media in
  foldM (assign_cell (columns aux) (LStr "conc_mmol")) im (rows aux).

Definition get_biomass_image (self : comets) (model_id : string) (cycle : Q)
  : result ndarray :=
  raise_if (negb (writeBiomassLog (parameters self)))
           (ValueError "biomass log was not recorded during simulation") ;;
  raise_if (negb (bool_decide (model_id ∈ map Model.id (models (layout self)))))
           (NameError ("model " ++ model_id ++ " is not one of the model ids")) ;;
  let/r biomass := attr "biomass" (biomass self) in
  let/r absent := cycle_not_recorded biomass cycle in
  raise_if absent
           (ValueError "biomass was not saved at the desired cycle. try another.") ;;
  let/r im := np_zeros (grid (layout self)) in
  let/r cycles := df_getitem (LStr "cycle") biomass in
  let aux := df_loc (map (fun v => eq_num v cycle) cycles) biomass in
  foldM (assign_cell (columns aux) (LStr model_id)) im (rows aux).

Definition get_flux_image (self : comets) (model_id reaction_id : string)
    (cycle : Q) : result ndarray :=
  raise_if (negb (writeFluxLog (parameters self)))
           (ValueError "flux log was not recorded during simulation") ;;
  raise_if (negb (bool_decide (model_id ∈ map Model.id (models (layout self)))))
           (NameError ("model " ++ model_id ++ " is not one of the model ids")) ;;
  let/r im := np_zeros (grid (layout self)) in
  let/r by_species := attr "fluxes_by_species" (fluxes_by_species self) in
  let/r temp_fluxes :=
    match dict_get model_id by_species with
    | Some df => Ok df
    | None => Raise (KeyError (LStr model_id))
    end in
  let/r absent := cycle_not_recorded temp_fluxes cycle in
  raise_if absent
           (ValueError "flux was not saved at the desired cycle. try another.") ;;
  raise_if (negb (bool_decide (LStr reaction_id ∈ columns temp_fluxes)))
           (NameError ("reaction_id " ++ reaction_id ++
                       " is not a reaction in the desired model")) ;;
  let/r cycles := df_getitem (LStr "cycle") temp_fluxes in
  let aux := df_loc (map (fun v => eq_num v cycle) cycles) temp_fluxes in
  foldM (assign_cell (columns aux) (LStr reaction_id)) im (rows aux).

End Images.

(** ** Reading the logs: [comets.run] from "READ OUTPUT" on *)

(** The files of the working directory: a path names the lines of a file. *)
Abbreviation files := (gmap string (list string)).

(** [open(filename, 'r')], [f.readlines()], [f.close()] *)
Definition readlines_file (fs : files) (filename : string) : result (list string) :=
  match fs !! filename with
  | Some f_lines => Ok f_lines
  | None => Raise (FileNotFoundError filename)
  end.

(** [os.remove(path)] *)
Definition os_remove (fs : files) (path : string) : result files :=
  match fs !! path with
  | Some _ => Ok (delete path fs)
  | None => Raise (FileNotFoundError path)
  end.

(** [range(n)] as column labels *)
Definition range (n : nat) : list label := map (fun i => LInt (Z.of_nat i)) (seq 0 n).

(** [max(l)] of Python *)
Definition py_max (l : list nat) : result nat :=
  match l with
  | [] => Raise (ValueError "max() arg is an empty sequence")
  | _ => Ok (max_list l)
  end.

(** Modelled from the spec: [layout.get_model_ids()] is a method of the
    layout class, which is not part of this module; the total-biomass
    columns are "cycle followed by the ordered model-id sequence in
    registration order". *)
Definition get_model_ids (l : Layout) : list string := map Model.id (models l).

Section Reading.

(** Text processing of Python and pandas, taken as given:
    [re.split(r'\t+', x.strip())], [float(s)] ([None] when it raises),
    the fields of the lines of a whitespace-delimited file without a header
    as pandas types them, and pandas' read of a file with a header line. *)
Variable strip_split_tabs : string -> list string.
Variable py_float : string -> option float.
Variable csv_fields : list string -> list (list value).
Variable csv_with_header : list string -> result DataFrame.

(** [pd.DataFrame(data, columns=names)] for rows of tokens: short rows are
    filled up to the longest, which must be as long as [names]. *)
Definition pd_DataFrame (data : list (list string)) (names : list label)
  : result DataFrame :=
  let width := max_list (map length data) in
  if bool_decide (data = []) || bool_decide (width = length names)
  then Ok {| columns := names;
             rows := imap (fun i r =>
                       (Z.of_nat i,
                        map Str r ++ replicate (width - length r) (Float NaN)))
                     data |}
  else Raise (ValueError "columns passed, passed data had other columns").

(** [df.astype('float')] *)
Definition astype_float (df : DataFrame) : result DataFrame :=
  let/r rows' :=
    foldM (fun acc r =>
             let/r cells := foldM (fun cs v =>
                                     let/r f := as_float py_float v in
                                     Ok (cs ++ [Float f]))
                                  [] (snd r) in
             Ok (acc ++ [(fst r, cells)]))
          [] (rows df) in
  Ok {| columns := columns df; rows := rows' |}.

(** [pd.read_csv(path, delim_whitespace=True, header=None, names=names)]:
    a row with fewer fields than names is filled with [nan].  What pandas
    does with a row of more fields than names is not modelled. *)
Definition read_csv_names (fs : files) (path : string) (names : list label)
  : result DataFrame :=
  let/r lines := readlines_file fs path in
  let fields := csv_fields lines in
  if existsb (fun r => Nat.ltb (length names) (length r)) fields
  then Raise (NotModelled "row wider than names")
  else Ok {| columns := names;
             rows := imap (fun i r =>
                       (Z.of_nat i,
                        r ++ replicate (length names - length r) (Float NaN)))
                     fields |}.

(** [pd.read_csv(path, delimiter=r'\s+')] *)
Definition read_csv_header (fs : files) (path : string) : result DataFrame :=
  let/r lines := readlines_file fs path in
  csv_with_header lines.

(** [if delete_files: os.remove(path)] *)
Definition remove_if (delete_files : bool) (fs : files) (path : string)
  : result files :=
  if delete_files then os_remove fs path else Ok fs.

(** The six reads of [run], each returning the attribute it sets (the old
    one when the log was not asked for) and the files left. *)

Definition read_total_biomass (self : comets) (fs : files) (delete_files : bool)
  : result (option DataFrame * files) :=
  let all_params := parameters self in
  if writeTotalBiomassLog all_params then
    let/r tbmf := readlines_file fs (TotalBiomassLogName all_params) in
    let/r df := pd_DataFrame (map strip_split_tabs tbmf)
                  (map LStr (["cycle"] ++ get_model_ids (layout self))) in
    let/r df := astype_float df in
    let/r fs := remove_if delete_files fs (TotalBiomassLogName all_params) in
    Ok (Some df, fs)
  else Ok (total_biomass self, fs).

Definition read_flux (self : comets) (fs : files) (delete_files : bool)
  : result (option DataFrame * option (dict DataFrame) * files) :=
  let all_params := parameters self in
  if writeFluxLog all_params then
    let/r longest := py_max (map (fun m => length (REACTION_NAMES m))
                                 (models (layout self))) in
    let max_rows := 4 + longest in
    let/r df := read_csv_names fs (FluxLogName all_params) (range max_rows) in
    let/r fs := remove_if delete_files fs (FluxLogName all_params) in
    let/r by_species := build_readable_flux_object df (models (layout self)) in
    Ok (Some df, Some by_species, fs)
  else Ok (fluxes self, fluxes_by_species self, fs).

Definition read_media (self : comets) (fs : files) (delete_files : bool)
  : result (option DataFrame * files) :=
  let all_params := parameters self in
  if writeMediaLog all_params then
    let/r df := read_csv_names fs (MediaLogName all_params)
                  (map LStr ["metabolite"; "cycle"; "x"; "y"; "conc_mmol"]) in
    let/r fs := remove_if delete_files fs (MediaLogName all_params) in
    Ok (Some df, fs)
  else Ok (media self, fs).

Definition read_biomass (self : comets) (fs : files) (delete_files : bool)
  : result (option DataFrame * files) :=
  if writeBiomassLog (parameters self) then
    let biomass_out_file := ("biomass_log_" ++ hex_id self)%string in
    let/r df := read_csv_names fs biomass_out_file
                  (map LStr ["cycle"; "x"; "y"; "species"; "biomass"]) in
    let/r fs := remove_if delete_files fs biomass_out_file in
    Ok (Some df, fs)
  else Ok (biomass self, fs).

Definition read_genotypes (self : comets) (fs : files) (delete_files : bool)
  : result (option DataFrame * files) :=
  if evolution (parameters self) then
    let genotypes_out_file := ("GENOTYPES_biomass_log_" ++ hex_id self)%string in
    let/r df := read_csv_names fs genotypes_out_file
                  (map LStr ["Ancestor"; "Mutation"; "Species"]) in
    let/r fs := remove_if delete_files fs genotypes_out_file in
    Ok (Some df, fs)
  else Ok (genotypes self, fs).

Definition read_specific_media (self : comets) (fs : files) (delete_files : bool)
  : result (option DataFrame * files) :=
  let all_params := parameters self in
  if writeSpecificMediaLog all_params then
    let spec_med_file := SpecificMediaLogName all_params in
    let/r df := read_csv_header fs spec_med_file in
    let/r fs := remove_if delete_files fs spec_med_file in
    Ok (Some df, fs)
  else Ok (specific_media self, fs).

(** [run] after the engine has returned: nothing is read when the output
    of the engine holds the word Error; an exception of one read leaves
    [run] at once. *)
Definition run_read_output (self : comets) (error_in_output : bool)
    (fs : files) (delete_files : bool) : result (comets * files) :=
  if error_in_output then Ok (self, fs)
  else
    let/r '(total_biomass', fs) := read_total_biomass self fs delete_files in
    let/r '(fluxes', by_species', fs) := read_flux self fs delete_files in
    let/r '(media', fs) := read_media self fs delete_files in
    let/r '(biomass', fs) := read_biomass self fs delete_files in
    let/r '(genotypes', fs) := read_genotypes self fs delete_files in
    let/r '(specific_media', fs) := read_specific_media self fs delete_files in
    let/r fs := remove_if delete_files fs (working_dir self ++ ".current_global")%string in
    let/r fs := remove_if delete_files fs (working_dir self ++ ".current_package")%string in
    let/r fs := remove_if delete_files fs (working_dir self ++ ".current_script")%string in
    let/r fs := remove_if delete_files fs ".current_layout" in
    let/r fs := remove_if delete_files fs "COMETS_manifest.txt" in
    Ok ({| working_dir := working_dir self;
           hex_id := hex_id self;
           layout := layout self;
           parameters := parameters self;
           total_biomass := total_biomass';
           fluxes := fluxes';
           fluxes_by_species := by_species';
           media := media';
           biomass := biomass';
           genotypes := genotypes';
           specific_media := specific_media' |}, fs).

End Reading.

(** * Notions of the statements *)

(** The raw flux row [r] is a row of the model at 1-based position [num]. *)
Definition model_index_is (num : Z) (r : Z * list value) : bool :=
  eq_num (nth 3 (snd r) (Float NaN)) (inject_Z num).

(** A raw flux row without its model index and without what follows its
    first [n] values. *)
Definition flux_row (n : nat) (r : Z * list value) : Z * list value :=
  (fst r, take 3 (snd r) ++ take n (drop 4 (snd r))).

(** The table of the model [m] at position [num], read off the raw table. *)
Definition model_table (raw : DataFrame) (num : Z) (m : model) : DataFrame :=
  {| columns := map LStr (["cycle"; "x"; "y"] ++ REACTION_NAMES m);
     rows := map (flux_row (length (REACTION_NAMES m)))
                 (List.filter (model_index_is num) (rows raw)) |}.

(** The reaction counts [len(m.reactions)] of the models. *)
Definition reaction_counts (ms : list model) : list nat :=
  map (fun m => length (REACTION_NAMES m)) ms.

(** The tables of the models from position [i + 1] on, in their order. *)
Fixpoint tables_from (raw : DataFrame) (i : nat) (ms : list model)
  : dict DataFrame :=
  match ms with
  | [] => []
  | m :: ms' =>
      (Model.id m, model_table raw (Z.of_nat (i + 1)) m) :: tables_from raw (S i) ms'
  end.

(** Storing bindings one after the other, as the loop does. *)
Definition store {V} (d : dict V) (kvs : list (string * V)) : dict V :=
  fold_left (fun d kv => dict_set (fst kv) (snd kv) d) kvs d.

(** The column at position [p] holds numbers or [nan], no string. *)
Definition numeric_column (p : nat) (tbl : DataFrame) : Prop :=
  Forall (fun row => is_str (nth p (snd row) (Float NaN)) = false) (rows tbl).

(** Some row has the cycle [cycle] at position [p]. *)
Definition cycle_recorded (p : nat) (cycle : Q) (tbl : DataFrame) : bool :=
  existsb (fun row => eq_num (nth p (snd row) (Float NaN)) cycle) (rows tbl).

(** [np.zeros] of a shape, as data. *)
Definition zeros (n0 n1 : nat) : ndarray :=
  {| shape := (n0, n1); data := replicate n0 (replicate n1 (Finite 0)) |}.

(** The data of an array fill its shape. *)
Definition well_shaped (im : ndarray) : Prop :=
  length (data im) = fst (shape im)
  /\ Forall (fun line => length line = snd (shape im)) (data im).

(** The row has the 1-based coordinates [(x, y)] at the positions [px]
    and [py]. *)
Definition at_xy (px py : nat) (x y : Z) (row : Z * list value) : bool :=
  eq_num (nth px (snd row) (Float NaN)) (inject_Z x)
  && eq_num (nth py (snd row) (Float NaN)) (inject_Z y).

(** Every row is a record inside a grid of [n0] rows and [n1] columns:
    integer coordinates with [1 <= x <= n0] and [1 <= y <= n1], and a float
    at the position [pk] of its value. *)
Definition records_in_grid (px py pk : nat) (n0 n1 : nat)
    (rs : list (Z * list value)) : Prop :=
  Forall (fun row =>
            exists (x y : Z) (f : float),
              at_xy px py x y row = true
              /\ nth pk (snd row) (Float NaN) = Float f
              /\ (1 <= x <= Z.of_nat n0)%Z /\ (1 <= y <= Z.of_nat n1)%Z) rs.

(** The image [im] of the records [rs]: the last record at [(x, y)] gives
    the cell [(x - 1, y - 1)], and a cell that no record names is zero. *)
Definition image_of (px py pk : nat) (rs : list (Z * list value))
    (im : ndarray) : Prop :=
  (forall row x y f,
      last (List.filter (at_xy px py x y) rs) = Some row ->
      nth pk (snd row) (Float NaN) = Float f ->
      cell im (Z.to_nat (x - 1)) (Z.to_nat (y - 1)) = Some f)
  /\ (forall r c,
         (r < fst (shape im))%nat -> (c < snd (shape im))%nat ->
         List.filter (at_xy px py (Z.of_nat r + 1) (Z.of_nat c + 1)) rs = [] ->
         cell im r c = Some (Finite 0)).

(** The columns that [run] gives the media log and the biomass log. *)
Definition media_columns : list label :=
  map LStr ["metabolite"; "cycle"; "x"; "y"; "conc_mmol"].

Definition biomass_columns : list label :=
  map LStr ["cycle"; "x"; "y"; "species"; "biomass"].

(** The records of a media table for one cycle and one metabolite. *)
Definition media_records (cycle : Q) (met : string) (tbl : DataFrame)
  : list (Z * list value) :=
  List.filter (fun row => eq_num (nth 1 (snd row) (Float NaN)) cycle
                          && eq_str (nth 0 (snd row) (Float NaN)) met)
              (rows tbl).

(** The records of one cycle in a table whose cycle is its first column. *)
Definition cycle_records (cycle : Q) (tbl : DataFrame) : list (Z * list value) :=
  List.filter (fun row => eq_num (nth 0 (snd row) (Float NaN)) cycle) (rows tbl).

(** The paths of the logs that [run] reads, in the order of the reads. *)
Definition requested_logs (self : comets) : list string :=
  let all_params := parameters self in
  (if writeTotalBiomassLog all_params then [TotalBiomassLogName all_params] else [])
  ++ (if writeFluxLog all_params then [FluxLogName all_params] else [])
  ++ (if writeMediaLog all_params then [MediaLogName all_params] else [])
  ++ (if writeBiomassLog all_params
      then [("biomass_log_" ++ hex_id self)%string] else [])
  ++ (if evolution all_params
      then [("GENOTYPES_biomass_log_" ++ hex_id self)%string] else [])
  ++ (if writeSpecificMediaLog all_params
      then [SpecificMediaLogName all_params] else []).

(** A read that returns has found the file of its log, if the log was asked
    for, and has created no file. *)
Definition read_sound {A} (asked : bool) (path : string) (fs : files)
    (r : result (A * files)) : Prop :=
  forall a fs', r = Ok (a, fs') ->
    (asked = true -> is_Some (fs !! path))
    /\ (forall p, fs !! p = None -> fs' !! p = None).

(** * A small run, for the examples *)

(** Two models with three and five reactions and one without reactions, on
    a grid of three rows and six columns. *)
Definition model_A : model :=
  {| Model.id := "A"; Model.REACTION_NAMES := ["a0"; "a1"; "a2"] |}.
Definition model_B : model :=
  {| Model.id := "B"; Model.REACTION_NAMES := ["b0"; "b1"; "b2"; "b3"; "b4"] |}.
Definition model_N : model :=
  {| Model.id := "N"; Model.REACTION_NAMES := [] |}.

Definition num (z : Z) : value := Float (Finite (inject_Z z)).

Definition ex_layout (ms : list model) : Layout :=
  {| models := ms; grid := (3, 6)%Z; media_metabolite := ["glucose"; "acetate"] |}.

Definition ex_params (on : bool) : Params :=
  {| writeTotalBiomassLog := on; writeFluxLog := on; writeMediaLog := on;
     writeBiomassLog := on; writeSpecificMediaLog := on; evolution := on;
     TotalBiomassLogName := "total_biomass_log_0x7f";
     FluxLogName := "flux_log_0x7f";
     MediaLogName := "media_log_0x7f";
     SpecificMediaLogName := "specific_media_log" |}.

(** The flux log: a row of model 1, whose values 13 and 14 are padding,
    and a row of model 2 in another cell. *)
Definition ex_flux_lines : list string :=
  ["1 1 1 1 10 11 12 13 14"; "3 2 5 2 20 21 22 23 24"].

Definition ex_csv_fields (lines : list string) : list (list value) :=
  map (fun line =>
         if String.eqb line "1 1 1 1 10 11 12 13 14"
         then map num [1; 1; 1; 1; 10; 11; 12; 13; 14]%Z
         else if String.eqb line "3 2 5 2 20 21 22 23 24"
         then map num [3; 2; 5; 2; 20; 21; 22; 23; 24]%Z
         else []) lines.

Definition ex_files : files := {[ "flux_log_0x7f" := ex_flux_lines ]}.

Definition ex_raw_flux : DataFrame :=
  {| columns := range 9;
     rows := [(0%Z, map num [1; 1; 1; 1; 10; 11; 12; 13; 14]%Z);
              (1%Z, map num [3; 2; 5; 2; 20; 21; 22; 23; 24]%Z)] |}.

(** The media log of the scenario: glucose at cycle 3 in the cell
    [(x, y) = (2, 5)] with 7.5, and a record of cycle 1 at [x = 0]. *)
Definition ex_media : DataFrame :=
  {| columns := media_columns;
     rows := [(0%Z, [Str "glucose"; num 3; num 2; num 5; Float (Finite (15 # 2))]);
              (1%Z, [Str "glucose"; num 1; num 0; num 4; Float (Finite (1 # 2))])] |}.

Definition ex_biomass : DataFrame :=
  {| columns := biomass_columns;
     rows := [(0%Z, [num 3; num 2; num 5; Str "A"; Float (Finite (1 # 4))])] |}.

Definition ex_flux_A : DataFrame :=
  {| columns := map LStr ["cycle"; "x"; "y"; "a0"; "a1"; "a2"];
     rows := [(0%Z, [num 3; num 2; num 5; num 10; Float (Finite (15 # 2)); num 12])] |}.

Definition ex_comets (on : bool) : comets :=
  {| working_dir := "/tmp/";
     hex_id := "0x7f";
     layout := ex_layout [model_A; model_B];
     parameters := ex_params on;
     total_biomass := None;
     fluxes := Some ex_raw_flux;
     fluxes_by_species := Some [("A", ex_flux_A)];
     media := Some ex_media;
     biomass := Some ex_biomass;
     genotypes := None;
     specific_media := None |}.

(** [float(s)] of a world where no string is a number. *)
Definition ex_float (s : string) : option float := None.

(** * Notions of the further statements *)

(** The files that [run] has written before the engine starts and removes
    at its end. *)
Definition workspace_files (self : comets) : list string :=
  [(working_dir self ++ ".current_global")%string;
   (working_dir self ++ ".current_package")%string;
   (working_dir self ++ ".current_script")%string;
   ".current_layout";
   "COMETS_manifest.txt"].

(** A read that returns has found the file of its log, if the log was asked
    for, and has removed that file and no other, if asked to delete. *)
Definition read_exact {A} (asked delete_files : bool) (path : string) (fs : files)
    (r : result (A * files)) : Prop :=
  forall a fs', r = Ok (a, fs') ->
    foldM os_remove fs (if asked && delete_files then [path] else []) = Ok fs'.

(** An attribute after a read: set when the log was asked for, as before
    when not. *)
Definition attribute_after {A} (asked : bool) (old new : option A) : Prop :=
  if asked then is_Some new else new = old.

(** * The launch side of [comets.py] *)

(** ** The class path *)

(** The attributes that the launch side adds to the object; the three of
    the engine are [None] until [run] sets them. *)
Record launch := {
  GUROBI_HOME : string;
  COMETS_HOME : string;
  VERSION : string;
  classpath_pieces : dict string;
  JAVA_CLASSPATH : string;
  cmd : option string;
  run_output : option string;
  run_errors : option string
}.

(** [self.classpath_pieces = d] and [self.JAVA_CLASSPATH = classpath] *)
Definition with_classpath_pieces (d : dict string) (self : launch) : launch :=
  {| GUROBI_HOME := GUROBI_HOME self;
     COMETS_HOME := COMETS_HOME self;
     VERSION := VERSION self;
     classpath_pieces := d;
     JAVA_CLASSPATH := JAVA_CLASSPATH self;
     cmd := cmd self;
     run_output := run_output self;
     run_errors := run_errors self |}.

Definition with_JAVA_CLASSPATH (classpath : string) (self : launch) : launch :=
  {| GUROBI_HOME := GUROBI_HOME self;
     COMETS_HOME := COMETS_HOME self;
     VERSION := VERSION self;
     classpath_pieces := classpath_pieces self;
     JAVA_CLASSPATH := classpath;
     cmd := cmd self;
     run_output := run_output self;
     run_errors := run_errors self |}.

Definition build_default_classpath_pieces (self : launch) : launch :=
  let d : dict string := [] in
  let d := dict_set "gurobi" (GUROBI_HOME self ++ "/gurobi.jar")%string d in
  let d := dict_set "junit" (COMETS_HOME self ++ "/lib/junit/junit-4.12.jar")%string d in
  let d := dict_set "hamcrest"
             (COMETS_HOME self ++ "/lib/junit/hamcrest-core-1.3.jar")%string d in
  let d := dict_set "jogl_all"
             (COMETS_HOME self ++ "/lib/jogl/jogamp-all-"
              ++ "platforms/jar/jogl-all.jar")%string d in
  let d := dict_set "gluegen_rt"
             (COMETS_HOME self ++ "/lib/jogl/jogamp-all-"
              ++ "platforms/jar/gluegen-rt.jar")%string d in
  let d := dict_set "gluegen"
             (COMETS_HOME self ++ "/lib/jogl/jogamp-all-"
              ++ "platforms/jar/gluegen.jar")%string d in
  let d := dict_set "gluegen_rt_natives"
             (COMETS_HOME self ++ "/lib/jogl/jogamp-" ++ "all-platforms/jar/"
              ++ "gluegen-rt-natives-" ++ "linux-amd64.jar")%string d in
  let d := dict_set "jogl_all_natives"
             (COMETS_HOME self ++ "/lib/jogl/" ++ "jogamp-all-platforms/"
              ++ "jar/jogl-all-natives-" ++ "linux-amd64.jar")%string d in
  let d := dict_set "jmatio" (COMETS_HOME self ++ "/lib/JMatIO/lib/jamtio.jar")%string d in
  let d := dict_set "jmat"
             (COMETS_HOME self ++ "/lib/JMatIO/JMatIO-041212/" ++ "lib/jmatio.jar")%string d in
  let d := dict_set "concurrent"
             (COMETS_HOME self ++ "/lib/colt/lib/concurrent.jar")%string d in
  let d := dict_set "colt" (COMETS_HOME self ++ "/lib/colt/lib/colt.jar")%string d in
  let d := dict_set "lang3"
             (COMETS_HOME self ++ "/lib/commons-lang3-3.7/"
              ++ "commons-lang3-3.7.jar")%string d in
  let d := dict_set "math3"
             (COMETS_HOME self ++ "/lib/commons-math3-3.6.1/"
              ++ "commons-math3-3.6.1.jar")%string d in
  let d := dict_set "bin" (COMETS_HOME self ++ "/bin/" ++ VERSION self ++ ".jar")%string d in
  with_classpath_pieces d self.

(** [':'.join(list(self.classpath_pieces.values()))] *)
Definition build_and_set_classpath (self : launch) : launch :=
  let paths := map snd (classpath_pieces self) in
  let classpath := String.concat ":" paths in
  with_JAVA_CLASSPATH classpath self.

(** [os.path.isfile(path)] *)
Definition os_path_isfile (fs : files) (path : string) : bool :=
  bool_decide (is_Some (fs !! path)).

Definition get_broken_classpath_pieces (self : launch) (fs : files) : dict string :=
  fold_left (fun broken_pieces kv =>
               if negb (os_path_isfile fs (snd kv))
               then dict_set (fst kv) (snd kv) broken_pieces
               else broken_pieces)
            (classpath_pieces self) [].

(** The characters [\t] and [\n] of the strings of Python. *)
Definition tab : string := String "009"%char "".
Definition nl : string := String "010"%char "".

(** [test_classpath_pieces] prints; the model returns the arguments of its
    calls of [print], in their order. *)
Definition test_classpath_pieces (self : launch) (fs : files) : list string :=
  let broken_pieces := get_broken_classpath_pieces self fs in
  if bool_decide (length broken_pieces = 0%nat) then []
  else
    ["Warning: java class libraries cannot be found";
     "These are the expected locations for dependencies:";
     ("Dependency " ++ tab ++ tab ++ tab ++ " expected path")%string;
     ("__________ " ++ tab ++ tab ++ tab ++ " _____________")%string]
    ++ map (fun kv => (fst kv ++ tab ++ tab ++ tab ++ snd kv)%string) broken_pieces
    ++ [(nl ++ "  You have two options to fix this problem:")%string;
        "1.  set each class path correctly by doing:";
        "    comets.set_classpath(libraryname, path)";
        ("    e.g.   comets.set_classpath('hamcrest', "
         ++ "'/home/chaco001/comets/junit/hamcrest-core-1.3." ++ "jar')" ++ nl)%string;
        ("    note that versions dont always have to "
         ++ "exactly match, but you're on your own if they " ++ "don't" ++ nl)%string;
        ("2.  fully define the classpath yourself by "
         ++ "overwriting comets.JAVA_CLASSPATH")%string;
        ("       look at the current comets.JAVA_CLASSPATH "
         ++ "to see how this should look.")%string].

Definition set_classpath (self : launch) (libraryname path : string) : launch :=
  let self := with_classpath_pieces
                (dict_set libraryname path (classpath_pieces self)) self in
  build_and_set_classpath self.

(** ** [comets.__init__] *)

(** [hex(n)] of Python for the identity of an object, which is no negative
    number. *)
Definition hex (n : N) : string := HexString.of_N n.

(** [os.environ[name]] *)
Definition os_environ (environ : gmap string string) (name : string) : result string :=
  match environ !! name with
  | Some v => Ok v
  | None => Raise (KeyError (LStr name))
  end.

(** [comets(layout, parameters, working_dir)] in the directory [cwd] with
    the environment [environ], for the object of identity [self_id]; it
    returns the two sides of the object and what it has printed.  The
    parameters are an object of the caller, whose keys [__init__]
    overwrites: the model returns them in the object.  The two keys
    [useLogNameTimeStamp] and [BiomassLogName], which it sets too, are read
    by no function of the module. *)
Definition __init__ (cwd : string) (environ : gmap string string) (fs : files)
    (self_id : N) (layout : Layout) (parameters : Params) (working_dir : string)
  : result (comets * launch * list string) :=
  let working_dir := (cwd ++ "/" ++ working_dir)%string in
  let/r gurobi_home := os_environ environ "GUROBI_HOME" in
  let/r comets_home := os_environ environ "COMETS_HOME" in
  let java := {| GUROBI_HOME := gurobi_home;
                 COMETS_HOME := comets_home;
                 VERSION := "comets_evo";
                 classpath_pieces := [];
                 JAVA_CLASSPATH := "";
                 cmd := None;
                 run_output := None;
                 run_errors := None |} in
  let java := build_default_classpath_pieces java in
  let java := build_and_set_classpath java in
  let printed := test_classpath_pieces java fs in
  let all_params :=
    {| writeTotalBiomassLog := writeTotalBiomassLog parameters;
       writeFluxLog := writeFluxLog parameters;
       writeMediaLog := writeMediaLog parameters;
       writeBiomassLog := writeBiomassLog parameters;
       writeSpecificMediaLog := writeSpecificMediaLog parameters;
       evolution := evolution parameters;
       TotalBiomassLogName := "total_biomass_log_" ++ hex self_id;
       FluxLogName := "flux_log_" ++ hex self_id;
       MediaLogName := "media_log_" ++ hex self_id;
       SpecificMediaLogName := SpecificMediaLogName parameters |} in
  Ok ({| working_dir := working_dir;
         hex_id := hex self_id;
         layout := layout;
         parameters := all_params;
         total_biomass := None;
         fluxes := None;
         fluxes_by_species := None;
         media := None;
         biomass := None;
         genotypes := None;
         specific_media := None |}, java, printed).

(** ** [comets.run] *)

(** [needle in s] for strings *)
Definition py_in (needle s : string) : bool :=
  match String.index 0 needle s with
  | Some _ => true
  | None => false
  end.

(** [with open(path, 'a') as f] and the writes of whole lines. *)
Definition open_a_write (fs : files) (path : string) (lines : list string) : files :=
  <[path := default [] (fs !! path) ++ lines]> fs.

Section Run.

Variable strip_split_tabs : string -> list string.
Variable py_float : string -> option float.
Variable csv_fields : list string -> list (list value).
Variable csv_with_header : list string -> result DataFrame.

(** What [run] calls outside the module, taken as given: the two methods
    that write the files of the layout and of the parameters, and the
    process of the engine, [sp.Popen(cmd, shell=True, stdout=sp.PIPE,
    stderr=sp.STDOUT)] with [p.communicate()], which leaves its two outputs,
    the first decoded, and the files. *)
Variable write_necessary_files : Layout -> string -> files -> result files.
Variable write_params : Params -> string -> string -> files -> result files.
Variable popen_communicate : string -> files -> string * option string * files.

(** [run] returns the two sides of the object, the files and what it has
    printed. *)
Definition run (self : comets) (java : launch) (fs : files) (delete_files : bool)
  : result (comets * launch * files * list string) :=
  let printed := [(nl ++ "Running COMETS simulation ...")%string] in
  let all_params := parameters self in
  let all_params :=
    if evolution all_params
    then {| writeTotalBiomassLog := false;
            writeFluxLog := writeFluxLog all_params;
            writeMediaLog := writeMediaLog all_params;
            writeBiomassLog := true;
            writeSpecificMediaLog := writeSpecificMediaLog all_params;
            evolution := evolution all_params;
            TotalBiomassLogName := TotalBiomassLogName all_params;
            FluxLogName := FluxLogName all_params;
            MediaLogName := MediaLogName all_params;
            SpecificMediaLogName := SpecificMediaLogName all_params |}
    else all_params in
  let self := {| working_dir := working_dir self;
                 hex_id := hex_id self;
                 layout := layout self;
                 parameters := all_params;
                 total_biomass := total_biomass self;
                 fluxes := fluxes self;
                 fluxes_by_species := fluxes_by_species self;
                 media := media self;
                 biomass := biomass self;
                 genotypes := genotypes self;
                 specific_media := specific_media self |} in
  let c_global := (working_dir self ++ ".current_global")%string in
  let c_package := (working_dir self ++ ".current_package")%string in
  let c_script := (working_dir self ++ ".current_script")%string in
  let/r fs := write_necessary_files (layout self) (working_dir self) fs in
  let/r fs := write_params (parameters self) c_global c_package fs in
  let/r fs := if os_path_isfile fs c_script then os_remove fs c_script else Ok fs in
  let fs := open_a_write fs c_script
              [("load_comets_parameters " ++ c_global ++ nl)%string;
               ("load_package_parameters " ++ c_package ++ nl)%string;
               ("load_layout " ++ working_dir self ++ ".current_layout")%string] in
  let cmd := ("java -classpath " ++ JAVA_CLASSPATH java
              ++ " edu.bu.segrelab.comets.Comets -loader"
              ++ " edu.bu.segrelab.comets.fba.FBACometsLoader"
              ++ " -script " ++ c_script)%string in
  let '(run_output, run_errors, fs) := popen_communicate cmd fs in
  let run_errors := match run_errors with
                    | Some errors => errors
                    | None => "STDERR empty."
                    end in
  let java := {| GUROBI_HOME := GUROBI_HOME java;
                 COMETS_HOME := COMETS_HOME java;
                 VERSION := VERSION java;
                 classpath_pieces := classpath_pieces java;
                 JAVA_CLASSPATH := JAVA_CLASSPATH java;
                 cmd := Some cmd;
                 run_output := Some run_output;
                 run_errors := Some run_errors |} in
  if py_in "Error" run_output then Ok (self, java, fs, printed ++ [run_output])
  else
    let/r '(self, fs) :=
      run_read_output strip_split_tabs py_float csv_fields csv_with_header
        self false fs delete_files in
    Ok (self, java, fs, printed ++ ["Done!"]).

End Run.

(** ** Notions of the statements on the launch side *)

(** The names of the libraries of the default class path, in their order. *)
Definition default_libraries : list string :=
  ["gurobi"; "junit"; "hamcrest"; "jogl_all"; "gluegen_rt"; "gluegen";
   "gluegen_rt_natives"; "jogl_all_natives"; "jmatio"; "jmat"; "concurrent";
   "colt"; "lang3"; "math3"; "bin"].

(** The launch side as [__init__] leaves it from [start], and after calls
    of [set_classpath]. *)
Inductive configured (start : launch) : launch -> Prop :=
| configured_default :
    configured start (build_and_set_classpath (build_default_classpath_pieces start))
| configured_set_classpath (self : launch) (libraryname path : string) :
    configured start self ->
    configured start (set_classpath self libraryname path).

(** No character of the string is a slash. *)
Fixpoint slash_free (s : string) : bool :=
  match s with
  | EmptyString => true
  | String c s' => negb (Ascii.eqb c "/") && slash_free s'
  end.

(** The paths of all the logs that [run] can read, in the order of the
    reads. *)
Definition log_paths (self : comets) : list string :=
  [TotalBiomassLogName (parameters self);
   FluxLogName (parameters self);
   MediaLogName (parameters self);
   ("biomass_log_" ++ hex_id self)%string;
   ("GENOTYPES_biomass_log_" ++ hex_id self)%string].

(** * Small runs, for the further statements *)

(** A second model with the id of [model_A]. *)
Definition model_A2 : model :=
  {| Model.id := "A"; Model.REACTION_NAMES := ["c0"] |}.

(** A media log with a record below the last row of the grid. *)
Definition ex_media_outside : DataFrame :=
  {| columns := media_columns;
     rows := [(0%Z, [Str "glucose"; num 3; num 2; num 5; Float (Finite (15 # 2))]);
              (1%Z, [Str "glucose"; num 3; num 4; num 1; Float (Finite (1 # 2))])] |}.

(** An object before a run, with the layout and the parameters given. *)
Definition ex_new_comets (lay : Layout) (all_params : Params) : comets :=
  {| working_dir := "/tmp/";
     hex_id := "0x7f";
     layout := lay;
     parameters := all_params;
     total_biomass := None;
     fluxes := None;
     fluxes_by_species := None;
     media := None;
     biomass := None;
     genotypes := None;
     specific_media := None |}.

Definition ex_comets_outside : comets :=
  {| working_dir := "/tmp/";
     hex_id := "0x7f";
     layout := ex_layout [model_A; model_B];
     parameters := ex_params true;
     total_biomass := None;
     fluxes := None;
     fluxes_by_species := None;
     media := Some ex_media_outside;
     biomass := None;
     genotypes := None;
     specific_media := None |}.

(** Parameters that request one log, or none. *)
Definition ex_one_log (total flux evo : bool) : Params :=
  {| writeTotalBiomassLog := total; writeFluxLog := flux; writeMediaLog := false;
     writeBiomassLog := false; writeSpecificMediaLog := false; evolution := evo;
     TotalBiomassLogName := "total_biomass_log_0x7f";
     FluxLogName := "flux_log_0x7f";
     MediaLogName := "media_log_0x7f";
     SpecificMediaLogName := "specific_media_log" |}.

(** The files of a run that has written the flux log, and the notes of
    the user. *)
Definition ex_run_files : files :=
  list_to_map [("flux_log_0x7f", ex_flux_lines);
               ("/tmp/.current_global", ["global"]);
               ("/tmp/.current_package", ["package"]);
               ("/tmp/.current_script", ["script"]);
               (".current_layout", ["layout"]);
               ("COMETS_manifest.txt", ["manifest"]);
               ("notes.txt", ["keep"])].

(** A total biomass log of two cycles for two models, and one with a
    token that is no number; the text functions on their lines. *)
Definition ex_total_line (cycle a b : string) : string :=
  (cycle ++ tab ++ a ++ tab ++ b ++ nl)%string.

Definition ex_total_lines : list string :=
  [ex_total_line "0" "0.5" "0.25"; ex_total_line "1" "1" "0.5"].

Definition ex_total_lines_bad : list string :=
  [ex_total_line "0" "0.5" "0.25"; ex_total_line "1" "oops" "0.5"].

Definition ex_strip_split_tabs (x : string) : list string :=
  if String.eqb x (ex_total_line "0" "0.5" "0.25") then ["0"; "0.5"; "0.25"]
  else if String.eqb x (ex_total_line "1" "1" "0.5") then ["1"; "1"; "0.5"]
  else if String.eqb x (ex_total_line "1" "oops" "0.5") then ["1"; "oops"; "0.5"]
  else [x].

Definition ex_py_float (s : string) : option float :=
  if String.eqb s "0" then Some (Finite 0)
  else if String.eqb s "1" then Some (Finite 1)
  else if String.eqb s "0.5" then Some (Finite (1 # 2))
  else if String.eqb s "0.25" then Some (Finite (1 # 4))
  else None.

(** A machine with the jar of Gurobi and no COMETS. *)
Definition ex_environ : gmap string string :=
  list_to_map [("GUROBI_HOME", "/opt/gurobi"); ("COMETS_HOME", "/opt/comets")].

Definition ex_jars : files := list_to_map [("/opt/gurobi/gurobi.jar", [])].

Definition ex_start : launch :=
  {| GUROBI_HOME := "/opt/gurobi";
     COMETS_HOME := "/opt/comets";
     VERSION := "comets_evo";
     classpath_pieces := [];
     JAVA_CLASSPATH := "";
     cmd := None;
     run_output := None;
     run_errors := None |}.

Definition ex_java : launch :=
  build_and_set_classpath (build_default_classpath_pieces ex_start).

(** Writers of the files of the layout and of the parameters, an engine
    that writes the two logs of an evolution and one that fails. *)
Definition ex_write_necessary_files (lay : Layout) (dir : string) (fs : files)
  : result files :=
  Ok (<[(dir ++ ".current_layout")%string := ["layout"]]> fs).

Definition ex_write_params (all_params : Params) (c_global c_package : string)
    (fs : files) : result files :=
  Ok (<[c_package := ["package"]]> (<[c_global := ["global"]]> fs)).

Definition ex_engine (command : string) (fs : files)
  : string * option string * files :=
  ("cycle 1", None,
   <["biomass_log_0x7f" := []]> (<["GENOTYPES_biomass_log_0x7f" := []]> fs)).

Definition ex_engine_failed (command : string) (fs : files)
  : string * option string * files :=
  ("Error: Could not find or load main class", None, fs).

Definition ex_total_files (lines : list string) : files :=
  {[ "total_biomass_log_0x7f" := lines ]}.

(** The reads of a run that has written the flux log, the object made on
    that machine, and the runs with the two engines. *)
Definition ex_reads (delete_files : bool) : result (comets * files) :=
  run_read_output (fun _ => []) ex_float ex_csv_fields (fun _ => Raise CorruptLine)
    (ex_new_comets (ex_layout [model_A; model_B]) (ex_one_log false true false))
    false ex_run_files delete_files.

Definition ex_init : result (comets * launch * list string) :=
  __init__ "/home/me" ex_environ ex_jars 127 (ex_layout [model_A; model_B])
    (ex_params true) "run1/".

Definition ex_run_of_evolution : result (comets * launch * files * list string) :=
  run (fun _ => []) ex_float ex_csv_fields (fun _ => Raise CorruptLine)
    ex_write_necessary_files ex_write_params ex_engine
    (ex_new_comets (ex_layout [model_A; model_B]) (ex_one_log true false true))
    ex_java ∅ false.

Definition ex_run_failed : result (comets * launch * files * list string) :=
  run (fun _ => []) ex_float ex_csv_fields (fun _ => Raise CorruptLine)
    ex_write_necessary_files ex_write_params ex_engine_failed
    (ex_comets true) ex_java ex_run_files true.

(** * Properties *)

(** ** Results *)

Lemma bind_Ok {A B} (c : result A) (k : A -> result B) (b : B) :
  bind c k = Ok b -> exists a, c = Ok a /\ k a = Ok b.
Proof. destruct c as [a|e]; simpl; [eauto | discriminate]. Qed.

Lemma foldM_app {A S} (body : S -> A -> result S) (s : S) (l1 l2 : list A) :
  foldM body s (l1 ++ l2) = bind (foldM body s l1) (fun s' => foldM body s' l2).
Proof.
  revert s. induction l1 as [|a l1 IH]; intros s; simpl; [done|].
  destruct (body s a); simpl; auto.
Qed.

(** ** Masks *)

Lemma select_nil_r {A} (mask : list bool) : select mask (@nil A) = [].
Proof. by destruct mask. Qed.

Lemma select_map_filter {A B} (f : B -> bool) (g : A -> B) (l : list A) :
  select (map f (map g l)) l = List.filter (fun a => f (g a)) l.
Proof.
  induction l as [|a l IH]; simpl; [done|].
  destruct (f (g a)); by rewrite IH.
Qed.

Lemma select_all_true {A B} (f : B -> bool) (cols : list B) (xs : list A) :
  (forall c, c ∈ cols -> f c = true) ->
  select (map f cols) xs = take (length cols) xs.
Proof.
  revert xs. induction cols as [|c cols IH]; intros xs Hf; simpl.
  - by destruct xs.
  - destruct xs as [|x xs]; [done|].
    rewrite Hf by (left). simpl. f_equal. apply IH.
    intros c' Hc'. apply Hf. by right.
Qed.

Lemma select_all_false {A B} (f : B -> bool) (cols : list B) (xs : list A) :
  (forall c, c ∈ cols -> f c = false) ->
  select (map f cols) xs = [].
Proof.
  revert xs. induction cols as [|c cols IH]; intros xs Hf; simpl; [done|].
  destruct xs as [|x xs]; [done|].
  rewrite Hf by (left). apply IH. intros c' Hc'. apply Hf. by right.
Qed.

(** Dropping the labels of a suffix of distinct columns keeps the prefix. *)
Lemma select_keep_prefix {A} (pre suf : list label) (xs : list A) :
  NoDup (pre ++ suf) ->
  select (map (fun c => negb (bool_decide (c ∈ suf))) (pre ++ suf)) xs
  = take (length pre) xs.
Proof.
  revert xs. induction pre as [|c pre IH]; intros xs Hnd; simpl.
  - rewrite take_0. apply select_all_false.
    intros c Hc. by rewrite bool_decide_eq_true_2.
  - destruct xs as [|x xs]; [done|].
    simpl in Hnd. apply NoDup_cons in Hnd as [Hc Hnd].
    rewrite bool_decide_eq_false_2 by (intros ?; apply Hc, elem_of_app; auto).
    simpl. f_equal. by apply IH.
Qed.

(** Dropping one label of distinct columns removes its position. *)
Lemma select_keep_but_one {A} (cols : list label) (i : nat) (l : label) (xs : list A) :
  NoDup cols -> cols !! i = Some l ->
  select (map (fun c => negb (bool_decide (c ∈ [l]))) cols) xs
  = take i xs ++ take (length cols - S i) (drop (S i) xs).
Proof.
  revert i xs. induction cols as [|c cols IH]; intros i xs Hnd Hi; [done|].
  apply NoDup_cons in Hnd as [Hc Hnd].
  destruct i as [|i]; simpl in Hi.
  - injection Hi as ->. simpl.
    rewrite bool_decide_eq_true_2 by (by left). simpl.
    destruct xs as [|x xs]; [by rewrite drop_nil, take_nil|].
    simpl. rewrite drop_0, Nat.sub_0_r. apply select_all_true.
    intros c' Hc'. rewrite bool_decide_eq_false_2; [done|].
    intros Hin. apply list_elem_of_singleton in Hin. by subst.
  - simpl. destruct xs as [|x xs]; [by rewrite drop_nil, !take_nil|].
    rewrite bool_decide_eq_false_2.
    + simpl. f_equal. by apply IH.
    + intros Hin. apply list_elem_of_singleton in Hin. subst c.
      apply Hc. by eapply list_elem_of_lookup_2.
Qed.

Lemma find_all_false {A} (f : A -> bool) (l : list A) :
  (forall a, a ∈ l -> f a = false) -> List.find f l = None.
Proof.
  induction l as [|a l IH]; intros Hf; simpl; [done|].
  rewrite Hf by (left). apply IH. intros b Hb. apply Hf. by right.
Qed.

(** ** Labels *)

Lemma positions_from_absent (i : nat) (l : label) (cols : list label) :
  l ∉ cols -> positions_from i l cols = [].
Proof.
  revert i. induction cols as [|c cols IH]; intros i Hl; simpl; [done|].
  apply not_elem_of_cons in Hl as [Hne Hl].
  destruct (decide (c = l)); [congruence|]. by apply IH.
Qed.

Lemma positions_from_NoDup (i p : nat) (l : label) (cols : list label) :
  NoDup cols -> cols !! p = Some l -> positions_from i l cols = [(i + p)%nat].
Proof.
  revert i p. induction cols as [|c cols IH]; intros i p Hnd Hp; [done|].
  apply NoDup_cons in Hnd as [Hc Hnd]. simpl.
  destruct p as [|p]; simpl in Hp.
  - injection Hp as ->. destruct (decide (l = l)); [|done].
    rewrite positions_from_absent by done. by rewrite Nat.add_0_r.
  - destruct (decide (c = l)) as [->|Hne].
    + exfalso. apply Hc. by eapply list_elem_of_lookup_2.
    + rewrite (IH (S i) p) by done. f_equal. lia.
Qed.

Lemma positions_NoDup (p : nat) (l : label) (cols : list label) :
  NoDup cols -> cols !! p = Some l -> positions l cols = [p].
Proof. intros. unfold positions. by erewrite positions_from_NoDup. Qed.

Lemma range_length (n : nat) : length (range n) = n.
Proof. unfold range. by rewrite length_map, length_seq. Qed.

Lemma range_lookup (n i : nat) : (i < n)%nat -> range n !! i = Some (LInt (Z.of_nat i)).
Proof.
  intros Hi. unfold range. rewrite list_lookup_fmap.
  by rewrite lookup_seq_lt.
Qed.

Lemma range_NoDup (n : nat) : NoDup (range n).
Proof.
  unfold range. apply NoDup_fmap_2; [|apply NoDup_seq].
  intros i j Hij. injection Hij. lia.
Qed.

(** ** The table of one model *)

Lemma df_drop_suffix (cols : list label) (rs : list (Z * list value)) (a : nat) :
  NoDup cols -> (a <= length cols)%nat ->
  df_drop (slice a (length cols) cols) {| columns := cols; rows := rs |}
  = Ok {| columns := take a cols;
          rows := map (fun r => (fst r, take a (snd r))) rs |}.
Proof.
  intros Hnd Ha.
  pose (pre := take a cols). pose (suf := drop a cols).
  assert (Hsplit : cols = pre ++ suf) by (symmetry; apply take_drop).
  assert (Hlen : length pre = a) by (unfold pre; rewrite length_take; lia).
  clearbody pre suf. subst cols a.
  unfold df_drop, slice. simpl.
  rewrite firstn_all, drop_app_length, take_app_length.
  rewrite find_all_false.
  2: { intros l Hl. rewrite bool_decide_eq_true_2; [done|].
       apply elem_of_app. by right. }
  f_equal. f_equal.
  - rewrite (select_keep_prefix _ _ _ Hnd). apply take_app_length.
  - apply map_ext. intros r. by rewrite (select_keep_prefix _ _ _ Hnd).
Qed.

Lemma df_drop_one (cols : list label) (rs : list (Z * list value)) (i : nat) (l : label) :
  NoDup cols -> cols !! i = Some l ->
  df_drop [l] {| columns := cols; rows := rs |}
  = Ok {| columns := take i cols ++ drop (S i) cols;
          rows := map (fun r => (fst r, take i (snd r)
                                   ++ take (length cols - S i) (drop (S i) (snd r)))) rs |}.
Proof.
  intros Hnd Hi. unfold df_drop. simpl.
  rewrite bool_decide_eq_true_2 by (by eapply list_elem_of_lookup_2). simpl.
  f_equal. f_equal.
  - rewrite (select_keep_but_one _ _ _ _ Hnd Hi).
    f_equal. apply take_ge. rewrite length_drop. lia.
  - apply map_ext. intros r. by rewrite (select_keep_but_one _ _ _ _ Hnd Hi).
Qed.

(** On a raw table with the columns [range(n)], wide enough for the model,
    the loop body builds [model_table]. *)
Lemma flux_table_spec (raw : DataFrame) (n : nat) (num : Z) (m : model) :
  columns raw = range n ->
  (length (REACTION_NAMES m) + 4 <= n)%nat ->
  flux_table raw num m = Ok (model_table raw num m).
Proof.
  intros Hcols Hn. unfold flux_table.
  set (k := length (REACTION_NAMES m)).
  assert (Hnd : NoDup (range n)) by apply range_NoDup.
  unfold df_getitem. rewrite Hcols.
  rewrite (positions_NoDup 3 (LInt 3) (range n) Hnd) by (apply (range_lookup n 3); lia).
  cbn [bind]. unfold df_loc. cbn [columns rows]. rewrite Hcols.
  rewrite df_drop_suffix by (rewrite ?range_length; done || lia).
  cbn [bind].
  assert (Hk : length (take (k + 4) (range n)) = (k + 4)%nat)
    by (rewrite length_take, range_length; lia).
  assert (H3 : take (k + 4) (range n) !! 3%nat = Some (LInt 3)).
  { rewrite lookup_take_lt by lia. apply (range_lookup n 3). lia. }
  unfold index_at. cbn [columns]. rewrite H3. cbn [bind].
  rewrite (df_drop_one _ _ 3 (LInt 3)) by (done || (eapply sublist_NoDup; [done | apply sublist_take])).
  cbn [bind]. unfold df_set_columns. cbn [columns].
  rewrite decide_True.
  2: { rewrite length_map, !length_app, length_take, length_drop, Hk. cbn [length]. fold k. lia. }
  unfold model_table. f_equal. f_equal. cbn [rows].
  rewrite select_map_filter, map_map. fold k.
  apply map_ext_in. intros r _. unfold flux_row. simpl. f_equal.
  rewrite Hk. replace (k + 4 - 4)%nat with k by lia.
  rewrite take_take, Nat.min_l by lia. f_equal.
  replace (k + 4)%nat with (4 + k)%nat by lia.
  rewrite <- (take_drop_commute _ k 4).
  by rewrite take_take, Nat.min_id.
Qed.

(** ** Dicts *)

Lemma dict_set_fresh {V} (k : string) (v : V) (d : dict V) :
  k ∉ map fst d -> dict_set k v d = d ++ [(k, v)].
Proof.
  induction d as [|[k' v'] d IH]; intros Hk; simpl; [done|].
  simpl in Hk. apply not_elem_of_cons in Hk as [Hne Hk].
  destruct (String.eqb_spec k' k); [congruence|]. by rewrite IH.
Qed.

Lemma dict_get_set {V} (k k' : string) (v : V) (d : dict V) :
  dict_get k (dict_set k' v d)
  = if String.eqb k' k then Some v else dict_get k d.
Proof.
  induction d as [|[k0 v0] d IH]; simpl.
  - done.
  - destruct (String.eqb_spec k0 k') as [->|Hne]; simpl.
    + by destruct (String.eqb k' k).
    + rewrite IH. destruct (String.eqb_spec k0 k) as [->|Hne0]; [|done].
      by destruct (String.eqb_spec k' k).
Qed.

Lemma store_app {V} (d : dict V) (kvs1 kvs2 : list (string * V)) :
  store d (kvs1 ++ kvs2) = store (store d kvs1) kvs2.
Proof. apply fold_left_app. Qed.

(** Distinct fresh keys are appended in their order. *)
Lemma store_fresh {V} (d : dict V) (kvs : list (string * V)) :
  NoDup (map fst d ++ map fst kvs) -> store d kvs = d ++ kvs.
Proof.
  revert d. induction kvs as [|[k v] kvs IH]; intros d Hnd; simpl.
  - by rewrite app_nil_r.
  - unfold store in *. simpl. rewrite dict_set_fresh.
    + rewrite IH; [by rewrite <- app_assoc|].
      rewrite map_app. simpl. by rewrite <- app_assoc.
    + apply NoDup_app in Hnd as (_ & Hd & _). intros Hin.
      apply (Hd _ Hin). simpl. by left.
Qed.

Lemma dict_get_store_other {V} (k : string) (d : dict V) (kvs : list (string * V)) :
  k ∉ map fst kvs -> dict_get k (store d kvs) = dict_get k d.
Proof.
  revert d. induction kvs as [|[k' v'] kvs IH]; intros d Hk; [done|].
  simpl in Hk. apply not_elem_of_cons in Hk as [Hne Hk].
  unfold store in *. simpl. rewrite IH by done. rewrite dict_get_set.
  by destruct (String.eqb_spec k' k); [congruence|].
Qed.

(** The binding that is stored last under a key is the one found. *)
Lemma dict_get_store_last {V} (k : string) (v : V) (d : dict V)
    (kvs : list (string * V)) (i : nat) :
  kvs !! i = Some (k, v) ->
  k ∉ map fst (drop (S i) kvs) ->
  dict_get k (store d kvs) = Some v.
Proof.
  intros Hi Hlast.
  rewrite <- (take_drop_middle kvs i (k, v) Hi).
  rewrite store_app. unfold store at 1. simpl.
  fold (store (dict_set k v (store d (take i kvs))) (drop (S i) kvs)).
  rewrite dict_get_store_other by done.
  by rewrite dict_get_set, String.eqb_refl.
Qed.

(** ** The loop over the models *)

Lemma tables_from_keys (raw : DataFrame) (i : nat) (ms : list model) :
  map fst (tables_from raw i ms) = map Model.id ms.
Proof. revert i. induction ms as [|m ms IH]; intros i; simpl; [done|]. by rewrite IH. Qed.

Lemma tables_from_lookup (raw : DataFrame) (i j : nat) (ms : list model) (m : model) :
  ms !! j = Some m ->
  tables_from raw i ms !! j = Some (Model.id m, model_table raw (Z.of_nat (i + j + 1)) m).
Proof.
  revert i j. induction ms as [|m' ms IH]; intros i j Hj; [done|].
  destruct j as [|j]; cbn [tables_from] in *.
  - injection Hj as ->. by rewrite Nat.add_0_r.
  - change (tables_from raw (S i) ms !! j
            = Some (Model.id m, model_table raw (Z.of_nat (i + S j + 1)) m)).
    rewrite (IH (S i) j Hj). do 4 f_equal. lia.
Qed.

(** The loop, started at position [length pre] with the dict [d]. *)
Lemma build_loop_spec (raw : DataFrame) (n : nat) (pre rest : list model)
    (d : dict DataFrame) :
  columns raw = range n ->
  Forall (fun m => (length (REACTION_NAMES m) + 4 <= n)%nat) rest ->
  foldM (fun fluxes_by_species i =>
           let model_num := (i + 1)%nat in
           let/r m := index_at (model_num - 1) (pre ++ rest) in
           let/r sub_df := flux_table raw (Z.of_nat model_num) m in
           Ok (dict_set (Model.id m) sub_df fluxes_by_species))
        d (seq (length pre) (length rest))
  = Ok (store d (tables_from raw (length pre) rest)).
Proof.
  intros Hcols. revert pre d.
  induction rest as [|m rest IH]; intros pre d Hwide; simpl; [done|].
  apply Forall_cons in Hwide as [Hm Hwide].
  replace (length pre + 1 - 1)%nat with (length pre) by lia.
  unfold index_at at 1. rewrite list_lookup_middle by done. cbn [bind].
  rewrite (flux_table_spec raw n) by done. cbn [bind].
  specialize (IH (pre ++ [m])
                 (dict_set (Model.id m)
                           (model_table raw (Z.of_nat (length pre + 1)) m) d)).
  rewrite length_app in IH. cbn [length] in IH. rewrite !Nat.add_1_r in IH.
  replace ((pre ++ [m]) ++ rest) with (pre ++ m :: rest) in IH
    by (by rewrite <- app_assoc).
  rewrite Nat.add_1_r. by apply IH.
Qed.

Lemma py_max_Ok (l : list nat) (n : nat) : py_max l = Ok n -> n = max_list l.
Proof. destruct l; simpl; [discriminate|]. by injection 1. Qed.

(** On the columns that [run] reads the loop returns, whatever the ids of
    the models are. *)
Lemma build_total (raw : DataFrame) (ms : list model) (longest : nat) :
  py_max (reaction_counts ms) = Ok longest ->
  columns raw = range (4 + longest) ->
  build_readable_flux_object raw ms = Ok (store [] (tables_from raw 0 ms)).
Proof.
  intros Hmax Hcols. unfold build_readable_flux_object.
  apply (build_loop_spec raw (4 + longest) [] ms []); [done|].
  apply py_max_Ok in Hmax as ->.
  apply Forall_forall. intros m Hm.
  assert (length (REACTION_NAMES m) <= max_list (reaction_counts ms))%nat.
  { apply max_list_elem_of_le.
    by apply (list_elem_of_fmap_2 (fun m => length (REACTION_NAMES m))). }
  lia.
Qed.

(** The table of a model is found under its id when no later model has
    the same id. *)
Lemma build_get (raw : DataFrame) (ms : list model) (i : nat) (m : model) :
  ms !! i = Some m ->
  Model.id m ∉ map Model.id (drop (S i) ms) ->
  dict_get (Model.id m) (store [] (tables_from raw 0 ms))
  = Some (model_table raw (Z.of_nat (i + 1)) m).
Proof.
  intros Hi Hlast.
  apply (dict_get_store_last _ _ _ _ i).
  - exact (tables_from_lookup raw 0 i ms m Hi).
  - by rewrite <- skipn_map, tables_from_keys, skipn_map.
Qed.

(** With distinct model ids the dict holds the tables of the models in
    their order. *)
Lemma build_distinct (raw : DataFrame) (ms : list model) :
  NoDup (map Model.id ms) ->
  store [] (tables_from raw 0 ms) = tables_from raw 0 ms.
Proof.
  intros Hnd. rewrite store_fresh; [done|]. simpl. by rewrite tables_from_keys.
Qed.

Lemma NoDup_no_later {A} (l : list A) (i : nat) (a : A) :
  NoDup l -> l !! i = Some a -> a ∉ drop (S i) l.
Proof.
  intros Hnd Hi. rewrite <- (take_drop_middle l i a Hi) in Hnd.
  apply NoDup_app in Hnd as (_ & _ & Hnd). by apply NoDup_cons in Hnd as [Hnotin _].
Qed.

Lemma NoDup_no_later_map (ms : list model) (i : nat) (m : model) :
  NoDup (map Model.id ms) -> ms !! i = Some m ->
  Model.id m ∉ map Model.id (drop (S i) ms).
Proof.
  intros Hnd Hi. rewrite <- skipn_map. apply NoDup_no_later; [done|].
  change (map Model.id ms) with (Model.id <$> ms). by rewrite list_lookup_fmap, Hi.
Qed.

(** ** Flux demultiplexing *)

(** C1. Flux demultiplexing is partition-complete.  For a raw flux table
    with the columns [range(4 + longest reaction list)] that [run] reads,
    [build_readable_flux_object] returns a dict in which the table under
    the id of the model at 1-based position [i + 1] holds exactly the raw
    rows whose column 3 equals [i + 1] (each without its model index and
    padding), and has as many value columns after cycle, x, y as the model
    has reactions.  The id of the model must not be the id of a later
    model, as is the case for every model when the ids are distinct. *)
Theorem flux_demultiplexing_partition_complete
    (raw : DataFrame) (ms : list model) (longest i : nat) (m : model) :
  py_max (reaction_counts ms) = Ok longest ->
  columns raw = range (4 + longest) ->
  ms !! i = Some m ->
  Model.id m ∉ map Model.id (drop (S i) ms) ->
  exists by_species tbl,
    build_readable_flux_object raw ms = Ok by_species
    /\ dict_get (Model.id m) by_species = Some tbl
    /\ rows tbl = map (flux_row (length (REACTION_NAMES m)))
                      (List.filter (model_index_is (Z.of_nat (i + 1))) (rows raw))
    /\ length (columns tbl) = (3 + length (REACTION_NAMES m))%nat.
Proof.
  intros Hmax Hcols Hi Hlast.
  exists (store [] (tables_from raw 0 ms)), (model_table raw (Z.of_nat (i + 1)) m).
  split; [by eapply build_total|].
  split; [by apply build_get|].
  split; [done|].
  simpl. by rewrite length_map.
Qed.

(** C7. A model without reactions does not make the demultiplexing fail:
    the loop returns, and the table it builds for the model, which is the
    one found under the id of the model unless a later model has the same
    id, has the columns cycle, x, y and no other. *)
Theorem flux_table_of_model_without_reactions
    (raw : DataFrame) (ms : list model) (longest i : nat) (m : model) :
  py_max (reaction_counts ms) = Ok longest ->
  columns raw = range (4 + longest) ->
  ms !! i = Some m ->
  REACTION_NAMES m = [] ->
  exists by_species tbl,
    build_readable_flux_object raw ms = Ok by_species
    /\ flux_table raw (Z.of_nat (i + 1)) m = Ok tbl
    /\ columns tbl = [LStr "cycle"; LStr "x"; LStr "y"]
    /\ (Model.id m ∉ map Model.id (drop (S i) ms) ->
        dict_get (Model.id m) by_species = Some tbl).
Proof.
  intros Hmax Hcols Hi Hnone.
  exists (store [] (tables_from raw 0 ms)), (model_table raw (Z.of_nat (i + 1)) m).
  split; [by eapply build_total|].
  split.
  { apply (flux_table_spec raw (4 + longest)); [done|]. rewrite Hnone. simpl. lia. }
  split; [simpl; by rewrite Hnone|].
  by apply build_get.
Qed.

(** C10. With distinct model ids, [fluxes_by_species] has one entry per
    model of the layout, keyed by the model ids in the order of the model
    list; a model without raw rows has an entry whose table has no row. *)
Theorem fluxes_by_species_one_entry_per_model
    (raw : DataFrame) (ms : list model) (longest : nat) :
  py_max (reaction_counts ms) = Ok longest ->
  columns raw = range (4 + longest) ->
  NoDup (map Model.id ms) ->
  exists by_species,
    build_readable_flux_object raw ms = Ok by_species
    /\ map fst by_species = map Model.id ms
    /\ length by_species = length ms
    /\ forall i m,
         ms !! i = Some m ->
         List.filter (model_index_is (Z.of_nat (i + 1))) (rows raw) = [] ->
         exists tbl, dict_get (Model.id m) by_species = Some tbl /\ rows tbl = [].
Proof.
  intros Hmax Hcols Hnd.
  exists (store [] (tables_from raw 0 ms)).
  split; [by eapply build_total|].
  rewrite (build_distinct raw ms Hnd) at 1 2.
  split; [apply tables_from_keys|].
  split.
  { rewrite <- (length_map fst), tables_from_keys. apply length_map. }
  intros i m Hi Hnone.
  exists (model_table raw (Z.of_nat (i + 1)) m).
  split; [apply build_get; [done|by apply NoDup_no_later_map]|].
  simpl. by rewrite Hnone.
Qed.

Lemma existsb_all_false {A} (f : A -> bool) (l : list A) :
  Forall (fun a => f a = false) l -> existsb f l = false.
Proof. induction 1 as [|a l Ha _ IH]; simpl; [done|]. by rewrite Ha. Qed.

Lemma existsb_of_map {A B} (f : B -> bool) (g : A -> B) (l : list A) :
  existsb f (map g l) = existsb (fun a => f (g a)) l.
Proof. induction l as [|a l IH]; simpl; [done|]. by rewrite IH. Qed.

Lemma read_csv_names_Ok (csv_fields : list string -> list (list value))
    (fs : files) (path : string) (names : list label) (lines : list string) :
  fs !! path = Some lines ->
  Forall (fun r => (length r <= length names)%nat) (csv_fields lines) ->
  exists raw, read_csv_names csv_fields fs path names = Ok raw
              /\ columns raw = names.
Proof.
  intros Hfile Hwidth. unfold read_csv_names, readlines_file.
  rewrite Hfile. cbn [bind].
  rewrite existsb_all_false; [eauto|].
  eapply Forall_impl; [exact Hwidth|]. intros r Hr. by apply Nat.ltb_ge.
Qed.

Lemma remove_if_Ok (delete_files : bool) (fs : files) (path : string) :
  is_Some (fs !! path) -> exists fs', remove_if delete_files fs path = Ok fs'.
Proof.
  intros [lines Hfile]. unfold remove_if, os_remove.
  destruct delete_files; rewrite ?Hfile; eauto.
Qed.

(** C2. [run] reads the flux log with the [4 + longest reaction list]
    columns [range(max_rows)]; for every model the table built for it (the
    one found under its id, unless a later model has the same id) has the
    columns cycle, x, y and then the reaction names of the model in their
    order, and each of its rows is a raw row of the model without the
    model-index column and without what follows the values of the model's
    reactions. *)
Theorem flux_tables_named_in_reaction_order
    (csv_fields : list string -> list (list value))
    (self : comets) (fs : files) (delete_files : bool)
    (lines : list string) (longest : nat) :
  writeFluxLog (parameters self) = true ->
  py_max (reaction_counts (models (layout self))) = Ok longest ->
  fs !! FluxLogName (parameters self) = Some lines ->
  Forall (fun r => (length r <= 4 + longest)%nat) (csv_fields lines) ->
  exists raw by_species fs',
    read_flux csv_fields self fs delete_files = Ok (Some raw, Some by_species, fs')
    /\ columns raw = range (4 + longest)
    /\ length (columns raw) = (4 + longest)%nat
    /\ forall i m,
         models (layout self) !! i = Some m ->
         exists tbl,
           flux_table raw (Z.of_nat (i + 1)) m = Ok tbl
           /\ (Model.id m ∉ map Model.id (drop (S i) (models (layout self))) ->
               dict_get (Model.id m) by_species = Some tbl)
           /\ columns tbl = map LStr (["cycle"; "x"; "y"] ++ REACTION_NAMES m)
           /\ rows tbl = map (flux_row (length (REACTION_NAMES m)))
                             (List.filter (model_index_is (Z.of_nat (i + 1)))
                                          (rows raw)).
Proof.
  intros Hflag Hmax Hfile Hwidth.
  destruct (read_csv_names_Ok csv_fields fs _ (range (4 + longest)) lines Hfile)
    as (raw & Hread & Hcols); [by rewrite range_length|].
  destruct (remove_if_Ok delete_files fs (FluxLogName (parameters self)))
    as (fs' & Hrm); [by eexists|].
  exists raw, (store [] (tables_from raw 0 (models (layout self)))), fs'.
  split; [|split; [done|split; [by rewrite Hcols, range_length|]]].
  - unfold read_flux. rewrite Hflag.
    unfold reaction_counts in Hmax. rewrite Hmax. cbn [bind].
    rewrite Hread. cbn [bind]. rewrite Hrm. cbn [bind].
    by rewrite (build_total raw _ longest Hmax Hcols).
  - intros i m Hi. exists (model_table raw (Z.of_nat (i + 1)) m).
    split; [|split; [by apply build_get|done]].
    apply (flux_table_spec raw (4 + longest)); [done|].
    apply py_max_Ok in Hmax as ->.
    assert (length (REACTION_NAMES m)
            <= max_list (reaction_counts (models (layout self))))%nat; [|lia].
    apply max_list_elem_of_le.
    apply (list_elem_of_fmap_2 (fun m => length (REACTION_NAMES m))).
    by eapply list_elem_of_lookup_2.
Qed.

(** ** Recorded cycles *)

Lemma value_compare_Eq_eq_num (v w : value) (q : Q) :
  value_compare v w = Eq -> eq_num v q = eq_num w q.
Proof.
  destruct v as [[p|]|s], w as [[p'|]|s']; simpl; try done.
  intros Hcmp. apply Qeq_alt in Hcmp.
  destruct (Qeq_bool p q) eqn:Hp, (Qeq_bool p' q) eqn:Hp'; try done.
  - apply Qeq_bool_iff in Hp. apply Qeq_bool_neq in Hp'.
    exfalso. apply Hp'. by rewrite <- Hcmp.
  - apply Qeq_bool_iff in Hp'. apply Qeq_bool_neq in Hp.
    exfalso. apply Hp. by rewrite Hcmp.
Qed.

Lemma insert_unique_existsb (q : Q) (v : value) (sorted : list value) :
  existsb (fun w => eq_num w q) (insert_unique v sorted)
  = eq_num v q || existsb (fun w => eq_num w q) sorted.
Proof.
  induction sorted as [|w sorted IH]; simpl; [done|].
  destruct (value_compare v w) eqn:Hcmp; simpl.
  - rewrite (value_compare_Eq_eq_num v w q Hcmp).
    by destruct (eq_num w q).
  - done.
  - rewrite IH. by destruct (eq_num v q), (eq_num w q).
Qed.

Lemma np_unique_existsb (q : Q) (col u : list value) :
  np_unique col = Ok u ->
  existsb (fun w => eq_num w q) u = existsb (fun w => eq_num w q) col.
Proof.
  unfold np_unique. destruct (_ && _); [done|]. injection 1 as <-.
  induction col as [|v col IH]; simpl; [done|].
  by rewrite insert_unique_existsb, IH.
Qed.

(** The test of the three image functions, on a table whose cycle column
    stands at position [p] and holds no string. *)
Lemma cycle_not_recorded_spec (tbl : DataFrame) (p : nat) (cycle : Q) :
  positions (LStr "cycle") (columns tbl) = [p] ->
  numeric_column p tbl ->
  cycle_not_recorded tbl cycle = Ok (negb (cycle_recorded p cycle tbl)).
Proof.
  intros Hpos Hnum. unfold cycle_not_recorded, df_getitem. rewrite Hpos.
  cbn [bind].
  destruct (np_unique _) as [u|e] eqn:Hu.
  - cbn [bind]. rewrite (np_unique_existsb cycle _ u Hu).
    unfold cycle_recorded. by rewrite existsb_of_map.
  - exfalso. unfold np_unique in Hu.
    rewrite existsb_all_false in Hu; [done|].
    apply Forall_map. exact Hnum.
Qed.

(** ** Arrays *)

Lemma zeros_well_shaped (n0 n1 : nat) : well_shaped (zeros n0 n1).
Proof.
  split; simpl.
  - apply length_replicate.
  - apply Forall_replicate, length_replicate.
Qed.

Lemma zeros_cell (n0 n1 r c : nat) :
  (r < n0)%nat -> (c < n1)%nat -> cell (zeros n0 n1) r c = Some (Finite 0).
Proof.
  intros Hr Hc. unfold cell, zeros. simpl.
  rewrite lookup_replicate_2 by done. simpl.
  by rewrite lookup_replicate_2.
Qed.

Lemma np_zeros_nat (n0 n1 : nat) :
  np_zeros (Z.of_nat n0, Z.of_nat n1) = Ok (zeros n0 n1).
Proof.
  unfold np_zeros, zeros. simpl.
  destruct (Z.ltb_spec (Z.of_nat n0) 0); [lia|].
  destruct (Z.ltb_spec (Z.of_nat n1) 0); [lia|].
  simpl. by rewrite !Nat2Z.id.
Qed.

Lemma np_index_in_range (n : nat) (x : Z) :
  (1 <= x <= Z.of_nat n)%Z ->
  np_index n (x - 1) = Ok (Z.to_nat (x - 1)) /\ (Z.to_nat (x - 1) < n)%nat.
Proof.
  intros Hx. unfold np_index.
  destruct (Z.leb_spec 0 (x - 1)); [|lia].
  destruct (Z.ltb_spec (x - 1) (Z.of_nat n)); [|lia].
  split; [done|lia].
Qed.

(** [-1] is the last index of an axis that is not empty. *)
Lemma np_index_minus_one (n : nat) :
  (0 < n)%nat -> np_index n (-1) = Ok (n - 1)%nat.
Proof.
  intros Hn. unfold np_index. simpl.
  destruct (Z.ltb_spec (-1) (Z.of_nat n)); simpl.
  - destruct (Z.leb_spec (- Z.of_nat n) (-1)); [|lia]. simpl. f_equal. lia.
  - lia.
Qed.

(** [int(v - 1)] for a cell that equals the integer [x]. *)
Lemma int_minus_one (v : value) (x : Z) :
  eq_num v (inject_Z x) = true ->
  exists x1, minus_one v = Ok x1 /\ int x1 = Ok (x - 1)%Z.
Proof.
  destruct v as [[q|]|s]; simpl; try done.
  intros Hq. apply Qeq_bool_iff in Hq. eexists. split; [done|].
  simpl. f_equal. unfold Qeq in Hq. simpl in Hq.
  destruct q as [a d]. simpl in *.
  rewrite Pos.mul_1_r.
  match goal with
  | |- (?n `quot` _)%Z = _ => replace n with ((x - 1) * Z.pos d)%Z by lia
  end.
  apply Z.quot_mul. lia.
Qed.

Lemma cell_set (im : ndarray) (r c r' c' : nat) (f : float) :
  well_shaped im ->
  (r < fst (shape im))%nat -> (c < snd (shape im))%nat ->
  cell {| shape := shape im;
          data := alter (fun line => <[c := f]> line) r (data im) |} r' c'
  = if decide (r' = r /\ c' = c) then Some f else cell im r' c'.
Proof.
  intros [Hlen Hlines] Hr Hc. unfold cell. simpl.
  destruct (decide (r' = r)) as [->|Hne].
  - rewrite list_lookup_alter_eq.
    destruct (data im !! r) as [line|] eqn:Hline.
    + simpl. assert (length line = snd (shape im)) as Hl.
      { eapply (proj1 (Forall_lookup _ _) Hlines); eauto. }
      destruct (decide (c' = c)) as [->|Hne].
      * rewrite decide_True by done. apply list_lookup_insert_eq. lia.
      * rewrite decide_False by tauto. by apply list_lookup_insert_ne.
    + apply lookup_ge_None in Hline. lia.
  - rewrite list_lookup_alter_ne by done. rewrite decide_False by tauto. done.
Qed.

Lemma well_shaped_set (im : ndarray) (r c : nat) (f : float) :
  well_shaped im ->
  well_shaped {| shape := shape im;
                 data := alter (fun line => <[c := f]> line) r (data im) |}.
Proof.
  intros [Hlen Hlines]. split; simpl.
  - by rewrite length_alter.
  - apply Forall_alter; [done|]. intros line _ Hl. by rewrite length_insert.
Qed.

(** ** The loop over the records of one cycle *)

Lemma eq_num_inject_Z_inj (v : value) (x x' : Z) :
  eq_num v (inject_Z x) = true -> eq_num v (inject_Z x') = true -> x = x'.
Proof.
  destruct v as [[q|]|s]; simpl; try done.
  intros Hx Hx'. apply Qeq_bool_iff in Hx, Hx'.
  rewrite Hx in Hx'. unfold Qeq in Hx'. simpl in Hx'. lia.
Qed.

Lemma at_xy_inj (px py : nat) (x y x' y' : Z) (row : Z * list value) :
  at_xy px py x y row = true -> at_xy px py x' y' row = true ->
  x = x' /\ y = y'.
Proof.
  unfold at_xy. intros [Hx Hy]%andb_prop [Hx' Hy']%andb_prop.
  split; by eapply eq_num_inject_Z_inj.
Qed.

Section Fill.

Variable py_float : string -> option float.
Variable cols : list label.
Variable key : label.
Variables px py pk : nat.
Hypothesis Hpx : positions (LStr "x") cols = [px].
Hypothesis Hpy : positions (LStr "y") cols = [py].
Hypothesis Hpk : positions key cols = [pk].

(** One record with integer coordinates and a float: the statement writes
    the float where numpy takes the indices [x - 1] and [y - 1] to. *)
Lemma assign_cell_at (im : ndarray) (row : Z * list value) (x y : Z) (f : float)
    (r c : nat) :
  at_xy px py x y row = true ->
  nth pk (snd row) (Float NaN) = Float f ->
  np_index (fst (shape im)) (x - 1) = Ok r ->
  np_index (snd (shape im)) (y - 1) = Ok c ->
  assign_cell py_float cols key im row
  = Ok {| shape := shape im;
          data := alter (fun line => <[c := f]> line) r (data im) |}.
Proof.
  intros [Hx Hy]%andb_prop Hf Hr Hc.
  unfold assign_cell, getitem. rewrite Hpk, Hpx, Hpy, Hf. cbn [bind].
  destruct (int_minus_one _ x Hx) as (x1 & Hx1 & Hi).
  destruct (int_minus_one _ y Hy) as (y1 & Hy1 & Hj).
  rewrite Hx1. cbn [bind]. rewrite Hi. cbn [bind].
  rewrite Hy1. cbn [bind]. rewrite Hj. cbn [bind].
  unfold np_setitem. rewrite Hr. cbn [bind]. by rewrite Hc.
Qed.

(** One record inside the grid: the statement writes its value at
    [(x - 1, y - 1)]. *)
Lemma assign_cell_record (im : ndarray) (row : Z * list value) (x y : Z) (f : float) :
  at_xy px py x y row = true ->
  nth pk (snd row) (Float NaN) = Float f ->
  (1 <= x <= Z.of_nat (fst (shape im)))%Z ->
  (1 <= y <= Z.of_nat (snd (shape im)))%Z ->
  assign_cell py_float cols key im row
  = Ok {| shape := shape im;
          data := alter (fun line => <[Z.to_nat (y - 1) := f]> line)
                        (Z.to_nat (x - 1)) (data im) |}.
Proof.
  intros Hat Hf Hxr Hyr.
  apply (assign_cell_at im row x y f); try done.
  - by apply np_index_in_range.
  - by apply np_index_in_range.
Qed.

(** The loop over records inside the grid returns; the last record at a
    cell gives its value, a cell without record keeps what it had. *)
Lemma fill_records (rs : list (Z * list value)) (im : ndarray) (n0 n1 : nat) :
  shape im = (n0, n1) ->
  well_shaped im ->
  records_in_grid px py pk n0 n1 rs ->
  exists im',
    foldM (assign_cell py_float cols key) im rs = Ok im'
    /\ shape im' = (n0, n1)
    /\ well_shaped im'
    /\ forall r c, (r < n0)%nat -> (c < n1)%nat ->
         (forall row f,
             last (List.filter (at_xy px py (Z.of_nat r + 1) (Z.of_nat c + 1)) rs)
             = Some row ->
             nth pk (snd row) (Float NaN) = Float f ->
             cell im' r c = Some f)
         /\ (List.filter (at_xy px py (Z.of_nat r + 1) (Z.of_nat c + 1)) rs = [] ->
             cell im' r c = cell im r c).
Proof.
  intros Hshape Hwf. induction rs as [|row rs IH] using rev_ind; intros Hrs.
  - exists im. simpl. split; [done|]. split; [done|]. split; [done|].
    intros r c _ _. split; [done|done].
  - apply Forall_app in Hrs as [Hrs Hrow].
    apply Forall_singleton in Hrow as (x & y & f & Hat & Hf & Hx & Hy).
    destruct (IH Hrs) as (im1 & Hrun & Hshape1 & Hwf1 & Hcells).
    eexists. rewrite foldM_app, Hrun. cbn [bind foldM].
    rewrite (assign_cell_record im1 row x y f Hat Hf)
      by (rewrite Hshape1; simpl; lia).
    cbn [bind]. split; [done|].
    split; [done|]. split; [by apply well_shaped_set|].
    intros r c Hr Hc. rewrite List.filter_app. simpl.
    rewrite cell_set by (done || rewrite Hshape1; simpl; lia).
    destruct (at_xy px py (Z.of_nat r + 1) (Z.of_nat c + 1) row) eqn:Hhere.
    + destruct (at_xy_inj _ _ _ _ _ _ _ Hat Hhere) as [-> ->].
      rewrite decide_True by (split; lia).
      split; [|by intros ?%app_eq_nil%proj2].
      intros row' f'. rewrite last_snoc. injection 1 as <-.
      rewrite Hf. by injection 1 as <-.
    + rewrite app_nil_r.
      rewrite decide_False.
      * apply Hcells; done.
      * intros [-> ->]. rewrite !Z2Nat.id in Hhere by lia.
        replace (x - 1 + 1)%Z with x in Hhere by lia.
        replace (y - 1 + 1)%Z with y in Hhere by lia. congruence.
Qed.

(** From zeros, the loop returns the image of the records. *)
Lemma fill_zeros (rs : list (Z * list value)) (n0 n1 : nat) :
  records_in_grid px py pk n0 n1 rs ->
  exists im,
    foldM (assign_cell py_float cols key) (zeros n0 n1) rs = Ok im
    /\ shape im = (n0, n1)
    /\ well_shaped im
    /\ image_of px py pk rs im.
Proof.
  intros Hrs.
  destruct (fill_records rs (zeros n0 n1) n0 n1 eq_refl (zeros_well_shaped _ _) Hrs)
    as (im & Hrun & Hshape & Hwf & Hcells).
  exists im. split; [done|]. split; [done|]. split; [done|].
  split.
  - intros row x y f Hlast Hf.
    assert (Hin : row ∈ List.filter (at_xy px py x y) rs)
      by (by apply last_Some_elem_of).
    apply list_elem_of_In, filter_In in Hin as [Hin Hat].
    apply list_elem_of_In in Hin.
    apply (proj1 (Forall_forall _ _) Hrs) in Hin
      as (x' & y' & f' & Hat' & _ & Hx & Hy).
    destruct (at_xy_inj _ _ _ _ _ _ _ Hat Hat') as [-> ->].
    destruct (Hcells (Z.to_nat (x' - 1)) (Z.to_nat (y' - 1))) as [Hlastcell _];
      [lia|lia|].
    apply (Hlastcell row f); [|done].
    rewrite !Z2Nat.id by lia.
    replace (x' - 1 + 1)%Z with x' by lia.
    by replace (y' - 1 + 1)%Z with y' by lia.
  - intros r c Hr Hc Hnone. rewrite Hshape in Hr, Hc. simpl in Hr, Hc.
    destruct (Hcells r c Hr Hc) as [_ Hkeep].
    rewrite Hkeep by done. by apply zeros_cell.
Qed.

End Fill.

(** ** The three image functions, after their checks *)

Lemma select_zip_filter {A} (f g : A -> bool) (l : list A) :
  select (zip_with andb (map f l) (map g l)) l
  = List.filter (fun a => f a && g a) l.
Proof.
  induction l as [|a l IH]; simpl; [done|].
  destruct (f a && g a); by rewrite IH.
Qed.

Section ImageFacts.

Variable py_float : string -> option float.

(** [get_metabolite_image] on a recorded media table, a known metabolite
    and a recorded cycle is the loop over the records of that cycle and
    metabolite, started from zeros. *)
Lemma get_metabolite_image_loop (self : comets) (met : string) (cycle : Q)
    (tbl : DataFrame) (n0 n1 : nat) :
  writeMediaLog (parameters self) = true ->
  met ∈ media_metabolite (layout self) ->
  media self = Some tbl ->
  columns tbl = media_columns ->
  grid (layout self) = (Z.of_nat n0, Z.of_nat n1) ->
  numeric_column 1 tbl ->
  cycle_recorded 1 cycle tbl = true ->
  get_metabolite_image py_float self met cycle
  = foldM (assign_cell py_float media_columns (LStr "conc_mmol"))
          (zeros n0 n1) (media_records cycle met tbl).
Proof.
  intros Hflag Hmet Htbl Hcols Hgrid Hnum Hrec.
  unfold get_metabolite_image.
  rewrite Hflag, (bool_decide_eq_true_2 _ Hmet), Htbl. cbn [negb raise_if bind attr].
  rewrite (cycle_not_recorded_spec tbl 1 cycle) by (by rewrite ?Hcols).
  rewrite Hrec. cbn [negb raise_if bind].
  rewrite Hgrid, np_zeros_nat. cbn [bind].
  unfold df_getitem. rewrite Hcols.
  change (positions (LStr "cycle") media_columns) with [1%nat].
  change (positions (LStr "metabolite") media_columns) with [0%nat].
  cbn [bind]. unfold df_loc. cbn [columns rows]. rewrite Hcols, !map_map.
  by rewrite (select_zip_filter
                (fun r => eq_num (nth 1 (snd r) (Float NaN)) cycle)
                (fun r => eq_str (nth 0 (snd r) (Float NaN)) met)).
Qed.

Lemma get_biomass_image_loop (self : comets) (model_id : string) (cycle : Q)
    (tbl : DataFrame) (n0 n1 : nat) :
  writeBiomassLog (parameters self) = true ->
  model_id ∈ map Model.id (models (layout self)) ->
  biomass self = Some tbl ->
  columns tbl = biomass_columns ->
  grid (layout self) = (Z.of_nat n0, Z.of_nat n1) ->
  numeric_column 0 tbl ->
  cycle_recorded 0 cycle tbl = true ->
  get_biomass_image py_float self model_id cycle
  = foldM (assign_cell py_float biomass_columns (LStr model_id))
          (zeros n0 n1) (cycle_records cycle tbl).
Proof.
  intros Hflag Hid Htbl Hcols Hgrid Hnum Hrec.
  unfold get_biomass_image.
  rewrite Hflag, (bool_decide_eq_true_2 _ Hid), Htbl. cbn [negb raise_if bind attr].
  rewrite (cycle_not_recorded_spec tbl 0 cycle) by (by rewrite ?Hcols).
  rewrite Hrec. cbn [negb raise_if bind].
  rewrite Hgrid, np_zeros_nat. cbn [bind].
  unfold df_getitem. rewrite Hcols.
  change (positions (LStr "cycle") biomass_columns) with [0%nat].
  cbn [bind]. unfold df_loc. cbn [columns rows]. rewrite Hcols.
  by rewrite select_map_filter.
Qed.

Lemma get_flux_image_loop (self : comets) (model_id reaction_id : string)
    (cycle : Q) (by_species : dict DataFrame) (tbl : DataFrame) (n0 n1 : nat) :
  writeFluxLog (parameters self) = true ->
  model_id ∈ map Model.id (models (layout self)) ->
  fluxes_by_species self = Some by_species ->
  dict_get model_id by_species = Some tbl ->
  positions (LStr "cycle") (columns tbl) = [0%nat] ->
  LStr reaction_id ∈ columns tbl ->
  grid (layout self) = (Z.of_nat n0, Z.of_nat n1) ->
  numeric_column 0 tbl ->
  cycle_recorded 0 cycle tbl = true ->
  get_flux_image py_float self model_id reaction_id cycle
  = foldM (assign_cell py_float (columns tbl) (LStr reaction_id))
          (zeros n0 n1) (cycle_records cycle tbl).
Proof.
  intros Hflag Hid Hdict Htbl Hpos Hrxn Hgrid Hnum Hrec.
  unfold get_flux_image.
  rewrite Hflag, (bool_decide_eq_true_2 _ Hid). cbn [negb raise_if bind].
  rewrite Hgrid, np_zeros_nat. cbn [bind].
  rewrite Hdict. cbn [bind attr]. rewrite Htbl. cbn [bind].
  rewrite (cycle_not_recorded_spec tbl 0 cycle) by done.
  rewrite Hrec, (bool_decide_eq_true_2 _ Hrxn). cbn [negb raise_if bind].
  unfold df_getitem. rewrite Hpos.
  cbn [bind]. unfold df_loc. cbn [columns rows].
  by rewrite select_map_filter.
Qed.

(** The statement keeps the shape of the array. *)
Lemma assign_cell_shape (cols : list label) (key : label) (im im' : ndarray)
    (row : Z * list value) :
  assign_cell py_float cols key im row = Ok im' ->
  shape im' = shape im /\ (well_shaped im -> well_shaped im').
Proof.
  unfold assign_cell, np_setitem. intros H.
  repeat (apply bind_Ok in H as (? & _ & H)).
  injection H as <-. split; [done|]. apply well_shaped_set.
Qed.

Lemma fill_shape (cols : list label) (key : label) (rs : list (Z * list value))
    (im im' : ndarray) :
  foldM (assign_cell py_float cols key) im rs = Ok im' ->
  shape im' = shape im /\ (well_shaped im -> well_shaped im').
Proof.
  revert im. induction rs as [|row rs IH]; intros im; simpl.
  - by injection 1 as <-.
  - intros (im1 & Hrow & Hrest)%bind_Ok.
    apply assign_cell_shape in Hrow as [Hs1 Hw1].
    apply IH in Hrest as [Hs Hw]. split; [congruence|auto].
Qed.

End ImageFacts.

(** ** Images *)

(** C3. Grid reconstruction is coordinate-correct.  For a media table and
    for the flux table of a model whose records of the asked cycle (and
    metabolite) lie inside the grid, [get_metabolite_image] and
    [get_flux_image] return an array of the shape of the grid in which the
    record at the 1-based [(x, y)] gives the 0-based cell [(x - 1, y - 1)]
    (the last one, when several name the same cell) and every cell that no
    record names is zero. *)
Theorem images_coordinate_correct
    (py_float : string -> option float) (self : comets) (cycle : Q) (n0 n1 : nat) :
  grid (layout self) = (Z.of_nat n0, Z.of_nat n1) ->
  (forall met tbl,
      writeMediaLog (parameters self) = true ->
      met ∈ media_metabolite (layout self) ->
      media self = Some tbl ->
      columns tbl = media_columns ->
      numeric_column 1 tbl ->
      cycle_recorded 1 cycle tbl = true ->
      records_in_grid 2 3 4 n0 n1 (media_records cycle met tbl) ->
      exists im,
        get_metabolite_image py_float self met cycle = Ok im
        /\ shape im = (n0, n1)
        /\ image_of 2 3 4 (media_records cycle met tbl) im)
  /\ (forall model_id reaction_id by_species tbl pk,
         writeFluxLog (parameters self) = true ->
         model_id ∈ map Model.id (models (layout self)) ->
         fluxes_by_species self = Some by_species ->
         dict_get model_id by_species = Some tbl ->
         NoDup (columns tbl) ->
         take 3 (columns tbl) = map LStr ["cycle"; "x"; "y"] ->
         columns tbl !! pk = Some (LStr reaction_id) ->
         numeric_column 0 tbl ->
         cycle_recorded 0 cycle tbl = true ->
         records_in_grid 1 2 pk n0 n1 (cycle_records cycle tbl) ->
         exists im,
           get_flux_image py_float self model_id reaction_id cycle = Ok im
           /\ shape im = (n0, n1)
           /\ image_of 1 2 pk (cycle_records cycle tbl) im).
Proof.
  intros Hgrid. split.
  - intros met tbl Hflag Hmet Htbl Hcols Hnum Hrec Hrs.
    rewrite (get_metabolite_image_loop py_float self met cycle tbl n0 n1) by done.
    destruct (fill_zeros py_float media_columns (LStr "conc_mmol") 2 3 4
                eq_refl eq_refl eq_refl _ n0 n1 Hrs)
      as (im & Hrun & Hshape & _ & Him).
    by exists im.
  - intros mid rid by_species tbl pk Hflag Hid Hdict Htbl Hnd Hfirst Hpk Hnum Hrec Hrs.
    assert (Hlook : forall i l, map LStr ["cycle"; "x"; "y"] !! i = Some l ->
                                positions l (columns tbl) = [i]).
    { intros i l Hi. apply positions_NoDup; [done|].
      rewrite <- Hfirst in Hi. by apply lookup_take_Some in Hi as [Hi _]. }
    rewrite (get_flux_image_loop py_float self mid rid cycle by_species tbl n0 n1);
      try done.
    + destruct (fill_zeros py_float (columns tbl) (LStr rid) 1 2 pk
                  (Hlook 1%nat _ eq_refl) (Hlook 2%nat _ eq_refl)
                  (positions_NoDup _ _ _ Hnd Hpk) _ n0 n1 Hrs)
        as (im & Hrun & Hshape & _ & Him).
      by exists im.
    + by apply (Hlook 0%nat).
    + by eapply list_elem_of_lookup_2.
Qed.

(** C4. Grid reconstruction is zero-filled.  [np.zeros] of the grid of the
    layout has zero in every cell; an array that [get_metabolite_image]
    returns has the shape of the grid; and for a known metabolite and a
    recorded cycle without a record of that metabolite, the array returned
    is the one of zeros. *)
Theorem metabolite_image_zero_filled
    (py_float : string -> option float) (self : comets) (met : string)
    (cycle : Q) (tbl : DataFrame) (n0 n1 : nat) :
  writeMediaLog (parameters self) = true ->
  met ∈ media_metabolite (layout self) ->
  media self = Some tbl ->
  columns tbl = media_columns ->
  grid (layout self) = (Z.of_nat n0, Z.of_nat n1) ->
  numeric_column 1 tbl ->
  cycle_recorded 1 cycle tbl = true ->
  np_zeros (grid (layout self)) = Ok (zeros n0 n1)
  /\ (forall r c, (r < n0)%nat -> (c < n1)%nat ->
                  cell (zeros n0 n1) r c = Some (Finite 0))
  /\ (forall im,
         get_metabolite_image py_float self met cycle = Ok im ->
         shape im = (n0, n1) /\ well_shaped im)
  /\ (media_records cycle met tbl = [] ->
      get_metabolite_image py_float self met cycle = Ok (zeros n0 n1)).
Proof.
  intros Hflag Hmet Htbl Hcols Hgrid Hnum Hrec.
  rewrite (get_metabolite_image_loop py_float self met cycle tbl n0 n1) by done.
  split; [by rewrite Hgrid, np_zeros_nat|].
  split; [apply zeros_cell|].
  split.
  - intros im Hrun. apply fill_shape in Hrun as [Hshape Hwf].
    split; [done|]. apply Hwf, zeros_well_shaped.
  - by intros ->.
Qed.

(** ** What the image functions raise *)

Lemma bind_Raise {A B} (c : result A) (k : A -> result B) (e : exn) :
  bind c k = Raise e -> c = Raise e \/ exists a, c = Ok a /\ k a = Raise e.
Proof.
  destruct c as [a|e']; simpl; intros H.
  - right. by exists a.
  - left. by injection H as ->.
Qed.

Lemma existsb_filter_cons {A} (f : A -> bool) (l : list A) :
  existsb f l = true -> exists a rest, List.filter f l = a :: rest /\ f a = true.
Proof.
  induction l as [|a l IH]; simpl; [done|].
  destruct (f a) eqn:Ha; simpl; [eauto|]. exact IH.
Qed.

Lemma existsb_filter_nil {A} (f : A -> bool) (l : list A) :
  existsb f l = false -> List.filter f l = [].
Proof.
  induction l as [|a l IH]; simpl; [done|].
  destruct (f a); simpl; [done|]. exact IH.
Qed.

Create HintDb oog.

Section NoOutOfGrid.

Variable py_float : string -> option float.

Lemma raise_if_ValueError_oog (b : bool) (msg : string) :
  raise_if b (ValueError msg) = Raise OutOfGrid -> False.
Proof. by destruct b. Qed.

Lemma raise_if_NameError_oog (b : bool) (msg : string) :
  raise_if b (NameError msg) = Raise OutOfGrid -> False.
Proof. by destruct b. Qed.

Lemma attr_oog {A} (name : string) (a : option A) :
  attr name a = Raise OutOfGrid -> False.
Proof. by destruct a. Qed.

Lemma df_getitem_oog (l : label) (df : DataFrame) :
  df_getitem l df = Raise OutOfGrid -> False.
Proof. unfold df_getitem. by destruct (positions _ _) as [|? [|? ?]]. Qed.

Lemma getitem_oog (cols : list label) (l : label) (cells : list value) :
  getitem cols l cells = Raise OutOfGrid -> False.
Proof. unfold getitem. by destruct (positions _ _) as [|? [|? ?]]. Qed.

Lemma np_unique_oog (col : list value) : np_unique col = Raise OutOfGrid -> False.
Proof. unfold np_unique. by destruct (_ && _). Qed.

Lemma np_zeros_oog (dims : Z * Z) : np_zeros dims = Raise OutOfGrid -> False.
Proof. unfold np_zeros. by destruct (_ || _). Qed.

Lemma np_index_oog (n : nat) (i : Z) : np_index n i = Raise OutOfGrid -> False.
Proof. unfold np_index. by repeat case_match. Qed.

Lemma minus_one_oog (v : value) : minus_one v = Raise OutOfGrid -> False.
Proof. by destruct v as [[?|]|?]. Qed.

Lemma int_oog (f : float) : int f = Raise OutOfGrid -> False.
Proof. by destruct f. Qed.

Lemma as_float_oog (v : value) : as_float py_float v = Raise OutOfGrid -> False.
Proof. destruct v as [?|s]; simpl; [done|]. by destruct (py_float s). Qed.

Hint Resolve raise_if_ValueError_oog raise_if_NameError_oog attr_oog
  df_getitem_oog getitem_oog np_unique_oog np_zeros_oog np_index_oog
  minus_one_oog int_oog as_float_oog : oog.

(** Splits a chain of binds that is said to raise [OutOfGrid] into the
    calls of the chain, and closes those that cannot. *)
Ltac split_chain H :=
  repeat (apply bind_Raise in H as [H | (? & _ & H)]; [solve [eauto with oog]|]);
  try solve [eauto with oog | discriminate H].

Lemma cycle_not_recorded_oog (df : DataFrame) (cycle : Q) :
  cycle_not_recorded df cycle = Raise OutOfGrid -> False.
Proof. unfold cycle_not_recorded. intros H. split_chain H. Qed.

Lemma assign_cell_oog (cols : list label) (key : label) (im : ndarray)
    (row : Z * list value) :
  assign_cell py_float cols key im row = Raise OutOfGrid -> False.
Proof. unfold assign_cell, np_setitem. intros H. split_chain H. Qed.

Lemma fill_oog (cols : list label) (key : label) (rs : list (Z * list value))
    (im : ndarray) :
  foldM (assign_cell py_float cols key) im rs = Raise OutOfGrid -> False.
Proof.
  revert im. induction rs as [|row rs IH]; intros im; simpl; [done|].
  intros [H | (im' & _ & H)]%bind_Raise; [by eapply assign_cell_oog | by eapply IH].
Qed.

Hint Resolve cycle_not_recorded_oog fill_oog : oog.

Lemma get_metabolite_image_oog (self : comets) (met : string) (cycle : Q) :
  get_metabolite_image py_float self met cycle <> Raise OutOfGrid.
Proof. unfold get_metabolite_image. intros H. split_chain H. Qed.

Lemma get_biomass_image_oog (self : comets) (model_id : string) (cycle : Q) :
  get_biomass_image py_float self model_id cycle <> Raise OutOfGrid.
Proof. unfold get_biomass_image. intros H. split_chain H. Qed.

Lemma get_flux_image_oog (self : comets) (model_id reaction_id : string) (cycle : Q) :
  get_flux_image py_float self model_id reaction_id cycle <> Raise OutOfGrid.
Proof.
  unfold get_flux_image. intros H.
  repeat (apply bind_Raise in H as [H | (? & _ & H)];
          [solve [eauto with oog | by destruct (dict_get _ _)]|]).
  eauto with oog.
Qed.

End NoOutOfGrid.

(** C8. [get_biomass_image] raises a [KeyError].  On the spatial biomass
    table as [run] reads it (columns cycle, x, y, species, biomass), for a
    model id of the layout that is none of these five names and a recorded
    cycle, the first row of the cycle is asked for a column named by the
    model id, which the table does not have: no array is returned. *)
Theorem get_biomass_image_raises_KeyError
    (py_float : string -> option float) (self : comets) (model_id : string)
    (cycle : Q) (tbl : DataFrame) (n0 n1 : nat) :
  writeBiomassLog (parameters self) = true ->
  model_id ∈ map Model.id (models (layout self)) ->
  model_id ∉ ["cycle"; "x"; "y"; "species"; "biomass"] ->
  biomass self = Some tbl ->
  columns tbl = biomass_columns ->
  grid (layout self) = (Z.of_nat n0, Z.of_nat n1) ->
  numeric_column 0 tbl ->
  cycle_recorded 0 cycle tbl = true ->
  get_biomass_image py_float self model_id cycle
  = Raise (KeyError (LStr model_id)).
Proof.
  intros Hflag Hid Hname Htbl Hcols Hgrid Hnum Hrec.
  rewrite (get_biomass_image_loop py_float self model_id cycle tbl n0 n1) by done.
  apply existsb_filter_cons in Hrec as (row & rest & Hrows & _).
  unfold cycle_records. rewrite Hrows. simpl.
  unfold assign_cell, getitem, positions.
  rewrite positions_from_absent; [done|].
  unfold biomass_columns. intros Hin. apply list_elem_of_fmap in Hin as (s & Hs & Hin).
  injection Hs as ->. done.
Qed.

(** C9. No bounds are checked.  None of the three image functions raises
    [OutOfGrid]; and the statement of their loops, for a record with
    [x = 0] (or [y = 0]) and an array with at least one row (column),
    raises nothing and writes the value into the last row (column). *)
Theorem images_check_no_bounds (py_float : string -> option float) :
  (forall self met cycle,
      get_metabolite_image py_float self met cycle <> Raise OutOfGrid)
  /\ (forall self model_id cycle,
         get_biomass_image py_float self model_id cycle <> Raise OutOfGrid)
  /\ (forall self model_id reaction_id cycle,
         get_flux_image py_float self model_id reaction_id cycle <> Raise OutOfGrid)
  /\ (forall cols key px py pk im row y f,
         positions (LStr "x") cols = [px] ->
         positions (LStr "y") cols = [py] ->
         positions key cols = [pk] ->
         well_shaped im ->
         (0 < fst (shape im))%nat ->
         at_xy px py 0 y row = true ->
         (1 <= y <= Z.of_nat (snd (shape im)))%Z ->
         nth pk (snd row) (Float NaN) = Float f ->
         exists im',
           assign_cell py_float cols key im row = Ok im'
           /\ cell im' (fst (shape im) - 1) (Z.to_nat (y - 1)) = Some f)
  /\ (forall cols key px py pk im row x f,
         positions (LStr "x") cols = [px] ->
         positions (LStr "y") cols = [py] ->
         positions key cols = [pk] ->
         well_shaped im ->
         (0 < snd (shape im))%nat ->
         at_xy px py x 0 row = true ->
         (1 <= x <= Z.of_nat (fst (shape im)))%Z ->
         nth pk (snd row) (Float NaN) = Float f ->
         exists im',
           assign_cell py_float cols key im row = Ok im'
           /\ cell im' (Z.to_nat (x - 1)) (snd (shape im) - 1) = Some f).
Proof.
  split; [apply get_metabolite_image_oog|].
  split; [apply get_biomass_image_oog|].
  split; [apply get_flux_image_oog|].
  split.
  - intros cols key px py pk im row y f Hpx Hpy Hpk Hwf Hrows Hat Hy Hf.
    destruct (np_index_in_range _ y Hy) as [Hc Hlt].
    eexists. split.
    + apply (assign_cell_at py_float cols key px py pk Hpx Hpy Hpk
               im row 0 y f (fst (shape im) - 1) (Z.to_nat (y - 1)) Hat Hf);
        [|exact Hc].
      by apply np_index_minus_one.
    + rewrite cell_set by (done || lia). by rewrite decide_True.
  - intros cols key px py pk im row x f Hpx Hpy Hpk Hwf Hcols Hat Hx Hf.
    destruct (np_index_in_range _ x Hx) as [Hr Hlt].
    eexists. split.
    + apply (assign_cell_at py_float cols key px py pk Hpx Hpy Hpk
               im row x 0 f (Z.to_nat (x - 1)) (snd (shape im) - 1) Hat Hf);
        [exact Hr|].
      by apply np_index_minus_one.
    + rewrite cell_set by (done || lia). by rewrite decide_True.
Qed.

(** C5, amended.  Unknown queries raise Python's exceptions, and the
    reaction ids are checked against the columns of the table.  With the
    log recorded, a metabolite that the layout does not have, a model id
    that is not one of the layout, and a reaction id that is no column of
    the flux table of the model raise a [NameError] that names them; a
    cycle that no row of the table has raises a [ValueError] whose message
    says that the cycle was not saved; a log that was not recorded raises a
    [ValueError] of another message.  In none of these cases is an array
    returned.  Nothing is said of the ids cycle, x and y, which are columns
    of every flux table. *)
Theorem unknown_queries_raise
    (py_float : string -> option float) (self : comets) (cycle : Q) :
  (forall met,
      (writeMediaLog (parameters self) = false ->
       get_metabolite_image py_float self met cycle
       = Raise (ValueError "media log was not recorded during simulation"))
      /\ (writeMediaLog (parameters self) = true ->
          met ∉ media_metabolite (layout self) ->
          get_metabolite_image py_float self met cycle
          = Raise (NameError ("met " ++ met ++ " is not in layout.media.metabolite")))
      /\ (forall tbl,
             writeMediaLog (parameters self) = true ->
             met ∈ media_metabolite (layout self) ->
             media self = Some tbl ->
             columns tbl = media_columns ->
             numeric_column 1 tbl ->
             cycle_recorded 1 cycle tbl = false ->
             get_metabolite_image py_float self met cycle
             = Raise (ValueError
                        "media was not saved at the desired cycle. try another.")))
  /\ (forall model_id,
         (writeBiomassLog (parameters self) = false ->
          get_biomass_image py_float self model_id cycle
          = Raise (ValueError "biomass log was not recorded during simulation"))
         /\ (writeBiomassLog (parameters self) = true ->
             model_id ∉ map Model.id (models (layout self)) ->
             get_biomass_image py_float self model_id cycle
             = Raise (NameError ("model " ++ model_id ++ " is not one of the model ids")))
         /\ (forall tbl,
                writeBiomassLog (parameters self) = true ->
                model_id ∈ map Model.id (models (layout self)) ->
                biomass self = Some tbl ->
                columns tbl = biomass_columns ->
                numeric_column 0 tbl ->
                cycle_recorded 0 cycle tbl = false ->
                get_biomass_image py_float self model_id cycle
                = Raise (ValueError
                           "biomass was not saved at the desired cycle. try another.")))
  /\ (forall model_id reaction_id,
         (writeFluxLog (parameters self) = false ->
          get_flux_image py_float self model_id reaction_id cycle
          = Raise (ValueError "flux log was not recorded during simulation"))
         /\ (writeFluxLog (parameters self) = true ->
             model_id ∉ map Model.id (models (layout self)) ->
             get_flux_image py_float self model_id reaction_id cycle
             = Raise (NameError ("model " ++ model_id ++ " is not one of the model ids")))
         /\ (forall by_species tbl n0 n1,
                writeFluxLog (parameters self) = true ->
                model_id ∈ map Model.id (models (layout self)) ->
                grid (layout self) = (Z.of_nat n0, Z.of_nat n1) ->
                fluxes_by_species self = Some by_species ->
                dict_get model_id by_species = Some tbl ->
                NoDup (columns tbl) ->
                take 3 (columns tbl) = map LStr ["cycle"; "x"; "y"] ->
                numeric_column 0 tbl ->
                (cycle_recorded 0 cycle tbl = false ->
                 get_flux_image py_float self model_id reaction_id cycle
                 = Raise (ValueError
                            "flux was not saved at the desired cycle. try another."))
                /\ (cycle_recorded 0 cycle tbl = true ->
                    LStr reaction_id ∉ columns tbl ->
                    get_flux_image py_float self model_id reaction_id cycle
                    = Raise (NameError ("reaction_id " ++ reaction_id ++
                                        " is not a reaction in the desired model"))))).
Proof.
  split; [|split].
  - intros met. split; [|split].
    + intros Hflag. unfold get_metabolite_image. by rewrite Hflag.
    + intros Hflag Hmet. unfold get_metabolite_image.
      by rewrite Hflag, (bool_decide_eq_false_2 _ Hmet).
    + intros tbl Hflag Hmet Htbl Hcols Hnum Hrec. unfold get_metabolite_image.
      rewrite Hflag, (bool_decide_eq_true_2 _ Hmet), Htbl.
      cbn [negb raise_if bind attr].
      rewrite (cycle_not_recorded_spec tbl 1 cycle) by (by rewrite ?Hcols).
      by rewrite Hrec.
  - intros mid. split; [|split].
    + intros Hflag. unfold get_biomass_image. by rewrite Hflag.
    + intros Hflag Hid. unfold get_biomass_image.
      by rewrite Hflag, (bool_decide_eq_false_2 _ Hid).
    + intros tbl Hflag Hid Htbl Hcols Hnum Hrec. unfold get_biomass_image.
      rewrite Hflag, (bool_decide_eq_true_2 _ Hid), Htbl.
      cbn [negb raise_if bind attr].
      rewrite (cycle_not_recorded_spec tbl 0 cycle) by (by rewrite ?Hcols).
      by rewrite Hrec.
  - intros mid rid. split; [|split].
    + intros Hflag. unfold get_flux_image. by rewrite Hflag.
    + intros Hflag Hid. unfold get_flux_image.
      by rewrite Hflag, (bool_decide_eq_false_2 _ Hid).
    + intros by_species tbl n0 n1 Hflag Hid Hgrid Hdict Htbl Hnd Hfirst Hnum.
      assert (Hpos : positions (LStr "cycle") (columns tbl) = [0%nat]).
      { apply positions_NoDup; [done|].
        assert (take 3 (columns tbl) !! 0%nat = Some (LStr "cycle")) as Hl
          by (by rewrite Hfirst).
        by apply lookup_take_Some in Hl as [Hl _]. }
      split.
      * intros Hrec. unfold get_flux_image.
        rewrite Hflag, (bool_decide_eq_true_2 _ Hid). cbn [negb raise_if bind].
        rewrite Hgrid, np_zeros_nat. cbn [bind].
        rewrite Hdict. cbn [bind attr]. rewrite Htbl. cbn [bind].
        rewrite (cycle_not_recorded_spec tbl 0 cycle) by done.
        by rewrite Hrec.
      * intros Hrec Hrid. unfold get_flux_image.
        rewrite Hflag, (bool_decide_eq_true_2 _ Hid). cbn [negb raise_if bind].
        rewrite Hgrid, np_zeros_nat. cbn [bind].
        rewrite Hdict. cbn [bind attr]. rewrite Htbl. cbn [bind].
        rewrite (cycle_not_recorded_spec tbl 0 cycle) by done.
        by rewrite Hrec, (bool_decide_eq_false_2 _ Hrid).
Qed.

(** ** Missing log files *)

Section MissingLogs.

Variable strip_split_tabs : string -> list string.
Variable py_float : string -> option float.
Variable csv_fields : list string -> list (list value).
Variable csv_with_header : list string -> result DataFrame.

Lemma readlines_file_missing (fs : files) (filename : string) :
  fs !! filename = None ->
  readlines_file fs filename = Raise (FileNotFoundError filename).
Proof. intros Hfile. unfold readlines_file. by rewrite Hfile. Qed.

Lemma read_csv_names_missing (fs : files) (path : string) (names : list label) :
  fs !! path = None ->
  read_csv_names csv_fields fs path names = Raise (FileNotFoundError path).
Proof. intros Hfile. unfold read_csv_names. by rewrite readlines_file_missing. Qed.

Lemma readlines_file_Ok (fs : files) (filename : string) (lines : list string) :
  readlines_file fs filename = Ok lines -> is_Some (fs !! filename).
Proof. unfold readlines_file. destruct (fs !! filename); [eauto|done]. Qed.

Lemma remove_if_absent (delete_files : bool) (fs fs' : files) (path p : string) :
  remove_if delete_files fs path = Ok fs' -> fs !! p = None -> fs' !! p = None.
Proof.
  unfold remove_if, os_remove. destruct delete_files.
  - destruct (fs !! path); [|done]. injection 1 as <-. intros Hp.
    apply lookup_delete_None. by right.
  - by injection 1 as <-.
Qed.

Lemma read_total_biomass_sound (self : comets) (fs : files) (delete_files : bool) :
  read_sound (writeTotalBiomassLog (parameters self))
             (TotalBiomassLogName (parameters self)) fs
             (read_total_biomass strip_split_tabs py_float self fs delete_files).
Proof.
  intros a fs'. unfold read_total_biomass.
  destruct (writeTotalBiomassLog _).
  - intros (lines & Hlines & H)%bind_Ok.
    apply bind_Ok in H as (df & _ & H). apply bind_Ok in H as (df' & _ & H).
    apply bind_Ok in H as (fs1 & Hrm & H). injection H as <- <-.
    split; [intros _; by eapply readlines_file_Ok|].
    intros p. by eapply remove_if_absent.
  - injection 1 as <- <-. by split.
Qed.

Lemma read_csv_step_sound (asked : bool) (old : option DataFrame) (fs : files)
    (delete_files : bool) (path : string) (names : list label) :
  read_sound asked path fs
    (if asked then
       let/r df := read_csv_names csv_fields fs path names in
       let/r fs := remove_if delete_files fs path in
       Ok (Some df, fs)
     else Ok (old, fs)).
Proof.
  intros a fs'. destruct asked.
  - intros (df & Hdf & H)%bind_Ok.
    apply bind_Ok in H as (fs1 & Hrm & H). injection H as <- <-.
    split.
    + intros _. unfold read_csv_names in Hdf.
      apply bind_Ok in Hdf as (lines & Hlines & _). by eapply readlines_file_Ok.
    + intros p. by eapply remove_if_absent.
  - injection 1 as <- <-. by split.
Qed.

Lemma read_flux_sound (self : comets) (fs : files) (delete_files : bool) :
  read_sound (writeFluxLog (parameters self)) (FluxLogName (parameters self)) fs
             (read_flux csv_fields self fs delete_files).
Proof.
  intros a fs'. unfold read_flux.
  destruct (writeFluxLog _).
  - intros (longest & _ & H)%bind_Ok.
    apply bind_Ok in H as (df & Hdf & H). apply bind_Ok in H as (fs1 & Hrm & H).
    apply bind_Ok in H as (by_species & _ & H). injection H as <- <-.
    split.
    + intros _. unfold read_csv_names in Hdf.
      apply bind_Ok in Hdf as (lines & Hlines & _). by eapply readlines_file_Ok.
    + intros p. by eapply remove_if_absent.
  - injection 1 as <- <-. by split.
Qed.

Lemma read_specific_media_sound (self : comets) (fs : files) (delete_files : bool) :
  read_sound (writeSpecificMediaLog (parameters self))
             (SpecificMediaLogName (parameters self)) fs
             (read_specific_media csv_with_header self fs delete_files).
Proof.
  intros a fs'. unfold read_specific_media.
  destruct (writeSpecificMediaLog _).
  - intros (df & Hdf & H)%bind_Ok.
    apply bind_Ok in H as (fs1 & Hrm & H). injection H as <- <-.
    split.
    + intros _. unfold read_csv_header in Hdf.
      apply bind_Ok in Hdf as (lines & Hlines & _). by eapply readlines_file_Ok.
    + intros p. by eapply remove_if_absent.
  - injection 1 as <- <-. by split.
Qed.

End MissingLogs.

(** C6. A missing log file raises.  [readlines_file] on a path without
    file raises [FileNotFoundError]; so does each of the six reads of [run]
    when its log was asked for and the file is not there, the first of them
    out of [run] itself; and [run] returns nothing as long as the file of
    one requested log is missing. *)
Theorem missing_log_file_raises
    (strip_split_tabs : string -> list string)
    (py_float : string -> option float)
    (csv_fields : list string -> list (list value))
    (csv_with_header : list string -> result DataFrame)
    (self : comets) (fs : files) (delete_files : bool) :
  (forall filename,
      fs !! filename = None ->
      readlines_file fs filename = Raise (FileNotFoundError filename))
  /\ (writeTotalBiomassLog (parameters self) = true ->
      fs !! TotalBiomassLogName (parameters self) = None ->
      read_total_biomass strip_split_tabs py_float self fs delete_files
      = Raise (FileNotFoundError (TotalBiomassLogName (parameters self)))
      /\ run_read_output strip_split_tabs py_float csv_fields csv_with_header
           self false fs delete_files
         = Raise (FileNotFoundError (TotalBiomassLogName (parameters self))))
  /\ (writeFluxLog (parameters self) = true ->
      models (layout self) <> [] ->
      fs !! FluxLogName (parameters self) = None ->
      read_flux csv_fields self fs delete_files
      = Raise (FileNotFoundError (FluxLogName (parameters self))))
  /\ (writeMediaLog (parameters self) = true ->
      fs !! MediaLogName (parameters self) = None ->
      read_media csv_fields self fs delete_files
      = Raise (FileNotFoundError (MediaLogName (parameters self))))
  /\ (writeBiomassLog (parameters self) = true ->
      fs !! ("biomass_log_" ++ hex_id self)%string = None ->
      read_biomass csv_fields self fs delete_files
      = Raise (FileNotFoundError ("biomass_log_" ++ hex_id self)))
  /\ (evolution (parameters self) = true ->
      fs !! ("GENOTYPES_biomass_log_" ++ hex_id self)%string = None ->
      read_genotypes csv_fields self fs delete_files
      = Raise (FileNotFoundError ("GENOTYPES_biomass_log_" ++ hex_id self)))
  /\ (writeSpecificMediaLog (parameters self) = true ->
      fs !! SpecificMediaLogName (parameters self) = None ->
      read_specific_media csv_with_header self fs delete_files
      = Raise (FileNotFoundError (SpecificMediaLogName (parameters self))))
  /\ (forall path,
         path ∈ requested_logs self ->
         fs !! path = None ->
         exists e,
           run_read_output strip_split_tabs py_float csv_fields csv_with_header
             self false fs delete_files = Raise e).
Proof.
  split; [apply readlines_file_missing|].
  split.
  { intros Hflag Hfile.
    assert (read_total_biomass strip_split_tabs py_float self fs delete_files
            = Raise (FileNotFoundError (TotalBiomassLogName (parameters self)))) as Hread.
    { unfold read_total_biomass. by rewrite Hflag, readlines_file_missing. }
    split; [done|]. unfold run_read_output. by rewrite Hread. }
  split.
  { intros Hflag Hms Hfile. unfold read_flux. rewrite Hflag.
    destruct (models (layout self)) as [|m ms]; [done|]. cbn [map py_max bind].
    by rewrite read_csv_names_missing. }
  split.
  { intros Hflag Hfile. unfold read_media.
    by rewrite Hflag, read_csv_names_missing. }
  split.
  { intros Hflag Hfile. unfold read_biomass.
    by rewrite Hflag, read_csv_names_missing. }
  split.
  { intros Hflag Hfile. unfold read_genotypes.
    by rewrite Hflag, read_csv_names_missing. }
  split.
  { intros Hflag Hfile. unfold read_specific_media, read_csv_header.
    by rewrite Hflag, readlines_file_missing. }
  intros path Hpath Hfile.
  destruct (run_read_output _ _ _ _ self false fs delete_files) as [[self' fs']|e] eqn:Hrun;
    [exfalso|by exists e].
  unfold run_read_output in Hrun.
  apply bind_Ok in Hrun as ([tb fs1] & H1 & Hrun).
  apply bind_Ok in Hrun as ([[fl bs] fs2] & H2 & Hrun).
  apply bind_Ok in Hrun as ([md fs3] & H3 & Hrun).
  apply bind_Ok in Hrun as ([bm fs4] & H4 & Hrun).
  apply bind_Ok in Hrun as ([gt fs5] & H5 & Hrun).
  apply bind_Ok in Hrun as ([sm fs6] & H6 & _).
  apply read_total_biomass_sound in H1 as [Hfound1 Hkeep1].
  apply (read_flux_sound csv_fields self fs1 delete_files (fl, bs) fs2) in H2
    as [Hfound2 Hkeep2].
  apply (read_csv_step_sound csv_fields) in H3 as [Hfound3 Hkeep3].
  apply (read_csv_step_sound csv_fields) in H4 as [Hfound4 Hkeep4].
  apply (read_csv_step_sound csv_fields) in H5 as [Hfound5 Hkeep5].
  apply read_specific_media_sound in H6 as [Hfound6 _].
  assert (forall A (o : option A), is_Some o -> o = None -> False) as Hno
    by (by intros A o [a ->]).
  unfold requested_logs in Hpath.
  repeat (apply elem_of_app in Hpath as [Hpath|Hpath]);
    (destruct (_ (parameters self)) eqn:Hflag in Hpath;
     [apply list_elem_of_singleton in Hpath as -> | by apply elem_of_nil in Hpath]).
  - eapply Hno; [by apply Hfound1|done].
  - eapply Hno; [by apply Hfound2|auto].
  - eapply Hno; [by apply Hfound3|auto].
  - eapply Hno; [by apply Hfound4|auto].
  - eapply Hno; [by apply Hfound5|auto].
  - eapply Hno; [by apply Hfound6|auto 10].
Qed.

(** * The statements on the small run *)

Ltac by_decide := apply (bool_decide_unpack _); vm_compute; exact I.

(** Models of 3 and 5 reactions: the table of A is found under its id,
    with the rows of model 1 and three value columns. *)
Lemma flux_demultiplexing_partition_complete_witness :
  exists by_species tbl,
    build_readable_flux_object ex_raw_flux [model_A; model_B] = Ok by_species
    /\ dict_get "A" by_species = Some tbl
    /\ rows tbl = map (flux_row 3)
                      (List.filter (model_index_is 1) (rows ex_raw_flux))
    /\ length (columns tbl) = 6%nat.
Proof.
  apply (flux_demultiplexing_partition_complete
           ex_raw_flux [model_A; model_B] 5 0 model_A).
  - reflexivity.
  - reflexivity.
  - reflexivity.
  - by_decide.
Defined.

(** The scenario of the flux log: [max_rows] is 9, and the row of model 1
    keeps its first three values. *)
Lemma flux_tables_named_in_reaction_order_witness :
  exists raw by_species fs',
    read_flux ex_csv_fields (ex_comets true) ex_files false
    = Ok (Some raw, Some by_species, fs')
    /\ columns raw = range 9
    /\ length (columns raw) = 9%nat
    /\ forall i m,
         [model_A; model_B] !! i = Some m ->
         exists tbl,
           flux_table raw (Z.of_nat (i + 1)) m = Ok tbl
           /\ (Model.id m ∉ map Model.id (drop (S i) [model_A; model_B]) ->
               dict_get (Model.id m) by_species = Some tbl)
           /\ columns tbl = map LStr (["cycle"; "x"; "y"] ++ REACTION_NAMES m)
           /\ rows tbl = map (flux_row (length (REACTION_NAMES m)))
                             (List.filter (model_index_is (Z.of_nat (i + 1)))
                                          (rows raw)).
Proof.
  apply (flux_tables_named_in_reaction_order
           ex_csv_fields (ex_comets true) ex_files false ex_flux_lines 5).
  - reflexivity.
  - reflexivity.
  - vm_compute. reflexivity.
  - simpl. repeat (apply Forall_cons; split; [simpl; lia|]). constructor.
Defined.

Example flux_scenario :
  read_flux ex_csv_fields (ex_comets true) ex_files false
  = Ok (Some ex_raw_flux,
        Some [("A", {| columns := map LStr ["cycle"; "x"; "y"; "a0"; "a1"; "a2"];
                       rows := [(0%Z, map num [1; 1; 1; 10; 11; 12]%Z)] |});
              ("B", {| columns := map LStr ["cycle"; "x"; "y";
                                            "b0"; "b1"; "b2"; "b3"; "b4"];
                       rows := [(1%Z, map num [3; 2; 5; 20; 21; 22; 23; 24]%Z)] |})],
        ex_files).
Proof. vm_compute. reflexivity. Qed.

(** A layout with a model without reactions: its table has three columns. *)
Lemma flux_table_of_model_without_reactions_witness :
  exists by_species tbl,
    build_readable_flux_object ex_raw_flux [model_A; model_B; model_N] = Ok by_species
    /\ flux_table ex_raw_flux 3 model_N = Ok tbl
    /\ columns tbl = [LStr "cycle"; LStr "x"; LStr "y"]
    /\ dict_get "N" by_species = Some tbl.
Proof.
  destruct (flux_table_of_model_without_reactions
              ex_raw_flux [model_A; model_B; model_N] 5 2 model_N)
    as (by_species & tbl & Hrun & Htbl & Hcols & Hget).
  - reflexivity.
  - reflexivity.
  - reflexivity.
  - reflexivity.
  - exists by_species, tbl. split; [exact Hrun|]. split; [exact Htbl|].
    split; [exact Hcols|]. apply Hget. by_decide.
Defined.

(** Three models, the third without a raw row: three entries in the order
    of the models. *)
Lemma fluxes_by_species_one_entry_per_model_witness :
  exists by_species,
    build_readable_flux_object ex_raw_flux [model_A; model_B; model_N] = Ok by_species
    /\ map fst by_species = ["A"; "B"; "N"]
    /\ length by_species = 3%nat
    /\ forall i m,
         [model_A; model_B; model_N] !! i = Some m ->
         List.filter (model_index_is (Z.of_nat (i + 1))) (rows ex_raw_flux) = [] ->
         exists tbl, dict_get (Model.id m) by_species = Some tbl /\ rows tbl = [].
Proof.
  apply (fluxes_by_species_one_entry_per_model
           ex_raw_flux [model_A; model_B; model_N] 5).
  - reflexivity.
  - reflexivity.
  - by_decide.
Defined.

(** The record (cycle 3, x 2, y 5, value 7.5) of the media log and of the
    flux table of A fills the cell (1, 4); another cell is zero. *)
Lemma images_coordinate_correct_witness :
  (exists im,
      get_metabolite_image ex_float (ex_comets true) "glucose" 3 = Ok im
      /\ shape im = (3, 6)%nat
      /\ cell im 1 4 = Some (Finite (15 # 2))
      /\ cell im 0 0 = Some (Finite 0))
  /\ (exists im,
         get_flux_image ex_float (ex_comets true) "A" "a1" 3 = Ok im
         /\ shape im = (3, 6)%nat
         /\ cell im 1 4 = Some (Finite (15 # 2))
         /\ cell im 2 5 = Some (Finite 0)).
Proof.
  destruct (images_coordinate_correct ex_float (ex_comets true) 3 3 6 eq_refl)
    as [Hmedia Hflux].
  split.
  - destruct (Hmedia "glucose" ex_media) as (im & Hrun & Hshape & Hlast & Hzero).
    + reflexivity.
    + by_decide.
    + reflexivity.
    + reflexivity.
    + repeat constructor.
    + reflexivity.
    + apply Forall_cons. split; [|constructor].
      exists 2%Z, 5%Z, (Finite (15 # 2)).
      split; [reflexivity|]. split; [reflexivity|]. lia.
    + exists im. split; [exact Hrun|]. split; [exact Hshape|]. split.
      * apply (Hlast (0%Z, [Str "glucose"; num 3; num 2; num 5;
                            Float (Finite (15 # 2))]) 2%Z 5%Z); reflexivity.
      * apply Hzero; rewrite ?Hshape; simpl; [lia|lia|reflexivity].
  - destruct (Hflux "A" "a1" [("A", ex_flux_A)] ex_flux_A 4%nat)
      as (im & Hrun & Hshape & Hlast & Hzero).
    + reflexivity.
    + by_decide.
    + reflexivity.
    + reflexivity.
    + by_decide.
    + reflexivity.
    + reflexivity.
    + repeat constructor.
    + reflexivity.
    + apply Forall_cons. split; [|constructor].
      exists 2%Z, 5%Z, (Finite (15 # 2)).
      split; [reflexivity|]. split; [reflexivity|]. lia.
    + exists im. split; [exact Hrun|]. split; [exact Hshape|]. split.
      * apply (Hlast (0%Z, [num 3; num 2; num 5; num 10;
                            Float (Finite (15 # 2)); num 12]) 2%Z 5%Z); reflexivity.
      * apply Hzero; rewrite ?Hshape; simpl; [lia|lia|reflexivity].
Defined.

(** Acetate is a metabolite of the layout without a record at cycle 3:
    the image is the one of zeros. *)
Lemma metabolite_image_zero_filled_witness :
  get_metabolite_image ex_float (ex_comets true) "acetate" 3 = Ok (zeros 3 6)
  /\ np_zeros (3, 6)%Z = Ok (zeros 3 6)
  /\ forall r c, (r < 3)%nat -> (c < 6)%nat -> cell (zeros 3 6) r c = Some (Finite 0).
Proof.
  destruct (metabolite_image_zero_filled ex_float (ex_comets true) "acetate" 3
              ex_media 3 6) as (Hzeros & Hcells & _ & Hnone).
  - reflexivity.
  - by_decide.
  - reflexivity.
  - reflexivity.
  - reflexivity.
  - repeat constructor.
  - reflexivity.
  - split; [apply Hnone; reflexivity|]. split; [exact Hzeros|exact Hcells].
Defined.

(** The biomass image of model A at the recorded cycle 3. *)
Lemma get_biomass_image_raises_KeyError_witness :
  get_biomass_image ex_float (ex_comets true) "A" 3 = Raise (KeyError (LStr "A")).
Proof.
  apply (get_biomass_image_raises_KeyError ex_float (ex_comets true) "A" 3
           ex_biomass 3 6).
  - reflexivity.
  - by_decide.
  - by_decide.
  - reflexivity.
  - reflexivity.
  - reflexivity.
  - repeat constructor.
  - reflexivity.
Defined.

(** The media record of cycle 1 has [x = 0]: the statement of the loop
    writes it into the last row; a record with [y = 0] goes into the last
    column. *)
Lemma images_check_no_bounds_witness :
  get_metabolite_image ex_float (ex_comets true) "glucose" 1 <> Raise OutOfGrid
  /\ get_biomass_image ex_float (ex_comets true) "A" 3 <> Raise OutOfGrid
  /\ get_flux_image ex_float (ex_comets true) "A" "a1" 3 <> Raise OutOfGrid
  /\ (exists im',
         assign_cell ex_float media_columns (LStr "conc_mmol") (zeros 3 6)
           (1%Z, [Str "glucose"; num 1; num 0; num 4; Float (Finite (1 # 2))])
         = Ok im'
         /\ cell im' 2 3 = Some (Finite (1 # 2)))
  /\ (exists im',
         assign_cell ex_float media_columns (LStr "conc_mmol") (zeros 3 6)
           (2%Z, [Str "glucose"; num 1; num 2; num 0; Float (Finite (1 # 2))])
         = Ok im'
         /\ cell im' 1 5 = Some (Finite (1 # 2))).
Proof.
  destruct (images_check_no_bounds ex_float) as (Hmet & Hbio & Hflux & Hx0 & Hy0).
  split; [apply Hmet|]. split; [apply Hbio|]. split; [apply Hflux|].
  split.
  - apply (Hx0 media_columns (LStr "conc_mmol") 2%nat 3%nat 4%nat (zeros 3 6)
             (1%Z, [Str "glucose"; num 1; num 0; num 4; Float (Finite (1 # 2))])
             4%Z (Finite (1 # 2))); try reflexivity.
    + apply zeros_well_shaped.
    + simpl. lia.
    + simpl. lia.
  - apply (Hy0 media_columns (LStr "conc_mmol") 2%nat 3%nat 4%nat (zeros 3 6)
             (2%Z, [Str "glucose"; num 1; num 2; num 0; Float (Finite (1 # 2))])
             2%Z (Finite (1 # 2))); try reflexivity.
    + apply zeros_well_shaped.
    + simpl. lia.
    + simpl. lia.
Defined.

Example metabolite_image_of_record_at_x_0 :
  get_metabolite_image ex_float (ex_comets true) "glucose" 1
  = Ok {| shape := (3, 6)%nat;
          data := [replicate 6 (Finite 0);
                   replicate 6 (Finite 0);
                   [Finite 0; Finite 0; Finite 0; Finite (1 # 2); Finite 0; Finite 0]] |}.
Proof. vm_compute. reflexivity. Qed.

(** A record below the last row of the grid meets the bounds check of
    numpy, which is an [IndexError]. *)
Example record_outside_the_grid :
  assign_cell ex_float media_columns (LStr "conc_mmol") (zeros 3 6)
    (3%Z, [Str "glucose"; num 1; num 4; num 1; Float (Finite (1 # 2))])
  = Raise IndexError.
Proof. reflexivity. Qed.

(** Queries of the small run that raise: a log that was not recorded, the
    metabolite lactate, the model Z, the reaction zz, the cycle 7. *)
Lemma unknown_queries_raise_witness :
  get_metabolite_image ex_float (ex_comets false) "glucose" 3
  = Raise (ValueError "media log was not recorded during simulation")
  /\ get_metabolite_image ex_float (ex_comets true) "lactate" 3
     = Raise (NameError "met lactate is not in layout.media.metabolite")
  /\ get_metabolite_image ex_float (ex_comets true) "glucose" 7
     = Raise (ValueError "media was not saved at the desired cycle. try another.")
  /\ get_biomass_image ex_float (ex_comets false) "A" 3
     = Raise (ValueError "biomass log was not recorded during simulation")
  /\ get_biomass_image ex_float (ex_comets true) "Z" 3
     = Raise (NameError "model Z is not one of the model ids")
  /\ get_biomass_image ex_float (ex_comets true) "A" 7
     = Raise (ValueError "biomass was not saved at the desired cycle. try another.")
  /\ get_flux_image ex_float (ex_comets false) "A" "a1" 3
     = Raise (ValueError "flux log was not recorded during simulation")
  /\ get_flux_image ex_float (ex_comets true) "Z" "a1" 3
     = Raise (NameError "model Z is not one of the model ids")
  /\ get_flux_image ex_float (ex_comets true) "A" "a1" 7
     = Raise (ValueError "flux was not saved at the desired cycle. try another.")
  /\ get_flux_image ex_float (ex_comets true) "A" "zz" 3
     = Raise (NameError "reaction_id zz is not a reaction in the desired model").
Proof.
  destruct (unknown_queries_raise ex_float (ex_comets false) 3)
    as (Hmet_off & Hbio_off & Hflux_off).
  destruct (unknown_queries_raise ex_float (ex_comets true) 3)
    as (Hmet3 & Hbio3 & Hflux3).
  destruct (unknown_queries_raise ex_float (ex_comets true) 7)
    as (Hmet7 & Hbio7 & Hflux7).
  split; [by apply (Hmet_off "glucose")|].
  split; [apply (Hmet3 "lactate"); [reflexivity|by_decide]|].
  split.
  { apply (Hmet7 "glucose") with (tbl := ex_media); try reflexivity.
    - by_decide.
    - repeat constructor. }
  split; [by apply (Hbio_off "A")|].
  split; [apply (Hbio3 "Z"); [reflexivity|by_decide]|].
  split.
  { apply (Hbio7 "A") with (tbl := ex_biomass); try reflexivity.
    - by_decide.
    - repeat constructor. }
  split; [by apply (Hflux_off "A" "a1")|].
  split; [apply (Hflux3 "Z" "a1"); [reflexivity|by_decide]|].
  split.
  { destruct (Hflux7 "A" "a1") as (_ & _ & Hknown).
    apply (Hknown [("A", ex_flux_A)] ex_flux_A 3%nat 6%nat); try reflexivity.
    - by_decide.
    - by_decide.
    - repeat constructor. }
  destruct (Hflux3 "A" "zz") as (_ & _ & Hknown).
  apply (Hknown [("A", ex_flux_A)] ex_flux_A 3%nat 6%nat); try reflexivity.
  - by_decide.
  - by_decide.
  - repeat constructor.
  - by_decide.
Defined.

(** C5 as it was claimed fails on the small run.  The id x is a reaction
    of no model of the layout, and [get_flux_image] returns an array for it,
    which holds the x of the record in its cell; the metabolite lactate,
    which the layout does not have, raises a [NameError] and not the
    [UnallocatedMetabolite] of the module, which nothing raises. *)
Lemma unknown_queries_raise_counterexample :
  Forall (fun m => "x" ∉ REACTION_NAMES m) (models (layout (ex_comets true)))
  /\ get_flux_image ex_float (ex_comets true) "A" "x" 3
     = Ok {| shape := (3, 6)%nat;
             data := [replicate 6 (Finite 0);
                      [Finite 0; Finite 0; Finite 0; Finite 0; Finite 2; Finite 0];
                      replicate 6 (Finite 0)] |}
  /\ get_metabolite_image ex_float (ex_comets true) "lactate" 3
     <> Raise UnallocatedMetabolite
  /\ "lactate" ∉ media_metabolite (layout (ex_comets true)).
Proof.
  split; [by_decide|]. split; [vm_compute; reflexivity|].
  split; [|by_decide]. vm_compute. discriminate.
Qed.

(** The working directory of the small run holds the flux log only. *)
Lemma missing_log_file_raises_witness :
  readlines_file ex_files "total_biomass_log_0x7f"
  = Raise (FileNotFoundError "total_biomass_log_0x7f")
  /\ run_read_output (fun _ => []) ex_float ex_csv_fields (fun _ => Raise CorruptLine)
       (ex_comets true) false ex_files true
     = Raise (FileNotFoundError "total_biomass_log_0x7f")
  /\ read_flux ex_csv_fields (ex_comets true) ∅ true
     = Raise (FileNotFoundError "flux_log_0x7f")
  /\ read_media ex_csv_fields (ex_comets true) ex_files true
     = Raise (FileNotFoundError "media_log_0x7f")
  /\ read_biomass ex_csv_fields (ex_comets true) ex_files true
     = Raise (FileNotFoundError "biomass_log_0x7f")
  /\ read_genotypes ex_csv_fields (ex_comets true) ex_files true
     = Raise (FileNotFoundError "GENOTYPES_biomass_log_0x7f")
  /\ read_specific_media (fun _ => Raise CorruptLine) (ex_comets true) ex_files true
     = Raise (FileNotFoundError "specific_media_log")
  /\ exists e,
       run_read_output (fun _ => []) ex_float ex_csv_fields (fun _ => Raise CorruptLine)
         (ex_comets true) false ex_files true = Raise e.
Proof.
  destruct (missing_log_file_raises (fun _ => []) ex_float ex_csv_fields
              (fun _ => Raise CorruptLine) (ex_comets true) ex_files true)
    as (Hlines & Htotal & _ & Hmedia & Hbiomass & Hgenotypes & Hspecific & Hrun).
  destruct (missing_log_file_raises (fun _ => []) ex_float ex_csv_fields
              (fun _ => Raise CorruptLine) (ex_comets true) ∅ true)
    as (_ & _ & Hflux & _).
  split; [apply Hlines; vm_compute; reflexivity|].
  split; [apply Htotal; [reflexivity|vm_compute; reflexivity]|].
  split; [apply Hflux; [reflexivity|discriminate|vm_compute; reflexivity]|].
  split; [apply Hmedia; [reflexivity|vm_compute; reflexivity]|].
  split; [apply Hbiomass; [reflexivity|vm_compute; reflexivity]|].
  split; [apply Hgenotypes; [reflexivity|vm_compute; reflexivity]|].
  split; [apply Hspecific; [reflexivity|vm_compute; reflexivity]|].
  apply (Hrun "media_log_0x7f"); [by_decide|vm_compute; reflexivity].
Defined.

(** * Further properties of the module *)

(** ** The dict of the flux tables, whatever the ids *)

Lemma dict_set_keys {V} (k : string) (v : V) (d : dict V) :
  map fst (dict_set k v d)
  = if bool_decide (k ∈ map fst d) then map fst d else map fst d ++ [k].
Proof.
  induction d as [|[k' v'] d IH]; simpl; [done|].
  destruct (String.eqb_spec k' k) as [->|Hne]; simpl.
  - by rewrite bool_decide_eq_true_2 by (by left).
  - rewrite IH. destruct (bool_decide (k ∈ map fst d)) eqn:Hk.
    + apply bool_decide_eq_true_1 in Hk.
      by rewrite bool_decide_eq_true_2 by (by right).
    + apply bool_decide_eq_false_1 in Hk.
      rewrite bool_decide_eq_false_2; [done|].
      intros [?|?]%elem_of_cons; [congruence|done].
Qed.

Lemma store_keys_NoDup {V} (d : dict V) (kvs : list (string * V)) :
  NoDup (map fst d) -> NoDup (map fst (store d kvs)).
Proof.
  revert d. induction kvs as [|[k v] kvs IH]; intros d Hnd; [done|].
  unfold store in *. simpl. apply IH. rewrite dict_set_keys.
  destruct (bool_decide (k ∈ map fst d)) eqn:Hk; [done|].
  apply bool_decide_eq_false_1 in Hk.
  apply NoDup_app. split; [done|]. split; [|apply NoDup_singleton].
  intros k' Hk' ->%list_elem_of_singleton. done.
Qed.

Lemma store_keys_elem {V} (d : dict V) (kvs : list (string * V)) (k : string) :
  k ∈ map fst (store d kvs) <-> k ∈ map fst d \/ k ∈ map fst kvs.
Proof.
  revert d. induction kvs as [|[k' v'] kvs IH]; intros d.
  - simpl. split; [auto|]. intros [?|?%elem_of_nil]; done.
  - unfold store in *. simpl. rewrite IH, dict_set_keys.
    destruct (bool_decide (k' ∈ map fst d)) eqn:Hk.
    + apply bool_decide_eq_true_1 in Hk. rewrite elem_of_cons.
      split; [tauto|]. intros [?|[->|?]]; auto.
    + rewrite elem_of_app, list_elem_of_singleton, elem_of_cons. tauto.
Qed.

Lemma dict_get_None {V} (k : string) (d : dict V) :
  dict_get k d = None <-> k ∉ map fst d.
Proof.
  induction d as [|[k' v'] d IH]; simpl.
  - split; [intros _ ?%elem_of_nil; done|done].
  - rewrite not_elem_of_cons. destruct (String.eqb_spec k' k) as [->|Hne].
    + split; [done|]. by intros [? _].
    + rewrite IH. split; [by split|]. by intros [_ ?].
Qed.

(** The last model that has the id of the model at position [i]. *)
Lemma last_model_of_id (ms : list model) (i : nat) (m : model) :
  ms !! i = Some m ->
  exists j m',
    (i <= j)%nat /\ ms !! j = Some m' /\ Model.id m' = Model.id m
    /\ Model.id m ∉ map Model.id (drop (S j) ms).
Proof.
  remember (length ms - i)%nat as n eqn:Hn. revert i m Hn.
  induction n as [n IH] using lt_wf_ind. intros i m Hn Hi.
  destruct (decide (Model.id m ∈ map Model.id (drop (S i) ms))) as [Hin|Hout].
  - apply list_elem_of_fmap in Hin as (m1 & Hid & Hin).
    apply list_elem_of_lookup in Hin as (p & Hp). rewrite lookup_drop in Hp.
    assert (length ms - (S i + p) < n)%nat as Hlt
      by (apply lookup_lt_Some in Hp; lia).
    destruct (IH (length ms - (S i + p))%nat Hlt (S i + p)%nat m1 eq_refl Hp)
      as (j & m' & Hj & Hm' & Hid' & Hlast).
    exists j, m'. split; [lia|]. split; [done|]. split; [congruence|].
    by rewrite Hid.
  - exists i, m. by repeat split.
Qed.

(** X1. Whatever the ids of the models are, [fluxes_by_species] has one
    key per id of a model and no other key; under an id that several models
    share it holds the table built for the last of them. *)
Theorem fluxes_by_species_keeps_last_model_of_an_id
    (raw : DataFrame) (ms : list model) (longest : nat) :
  py_max (reaction_counts ms) = Ok longest ->
  columns raw = range (4 + longest) ->
  exists by_species,
    build_readable_flux_object raw ms = Ok by_species
    /\ NoDup (map fst by_species)
    /\ (forall k, k ∈ map fst by_species <-> k ∈ map Model.id ms)
    /\ (forall k, k ∉ map Model.id ms -> dict_get k by_species = None)
    /\ (forall i m,
           ms !! i = Some m ->
           exists j m' tbl,
             (i <= j)%nat
             /\ ms !! j = Some m'
             /\ Model.id m' = Model.id m
             /\ (Model.id m ∉ map Model.id (drop (S j) ms))
             /\ flux_table raw (Z.of_nat (j + 1)) m' = Ok tbl
             /\ dict_get (Model.id m) by_species = Some tbl).
Proof.
  intros Hmax Hcols.
  exists (store [] (tables_from raw 0 ms)).
  split; [by eapply build_total|].
  split; [apply store_keys_NoDup; constructor|].
  assert (Hkeys : forall k, k ∈ map fst (store [] (tables_from raw 0 ms))
                            <-> k ∈ map Model.id ms).
  { intros k. rewrite store_keys_elem, tables_from_keys. simpl.
    split; [intros [?%elem_of_nil|?]; done|auto]. }
  split; [exact Hkeys|].
  split; [intros k Hk; apply dict_get_None; by rewrite Hkeys|].
  intros i m Hi.
  destruct (last_model_of_id ms i m Hi) as (j & m' & Hij & Hj & Hid & Hlast).
  exists j, m', (model_table raw (Z.of_nat (j + 1)) m').
  split; [done|]. split; [done|]. split; [done|]. split; [done|].
  split.
  - apply (flux_table_spec raw (4 + longest)); [done|].
    apply py_max_Ok in Hmax as ->.
    assert (length (REACTION_NAMES m') <= max_list (reaction_counts ms))%nat; [|lia].
    apply max_list_elem_of_le.
    apply (list_elem_of_fmap_2 (fun m => length (REACTION_NAMES m))).
    by eapply list_elem_of_lookup_2.
  - rewrite <- Hid. apply build_get; [done|]. by rewrite Hid.
Qed.

(** ** The rows of the flux tables *)

Lemma labels_of_filter_sublist {A B} (f : A * B -> bool) (l : list (A * B)) :
  map fst (List.filter f l) `sublist_of` map fst l.
Proof.
  induction l as [|a l IH]; simpl; [constructor|].
  destruct (f a); simpl; by constructor.
Qed.

Lemma NoDup_labels_eq {A B} (l : list (A * B)) (r r' : A * B) :
  NoDup (map fst l) -> r ∈ l -> r' ∈ l -> fst r = fst r' -> r = r'.
Proof.
  induction l as [|a l IH]; simpl; intros Hnd Hr Hr' Heq.
  - by apply elem_of_nil in Hr.
  - apply NoDup_cons in Hnd as [Ha Hnd].
    apply elem_of_cons in Hr as [->|Hr]; apply elem_of_cons in Hr' as [->|Hr'].
    + done.
    + exfalso. apply Ha. rewrite Heq. by apply (list_elem_of_fmap_2 fst).
    + exfalso. apply Ha. rewrite <- Heq. by apply (list_elem_of_fmap_2 fst).
    + by apply IH.
Qed.

Lemma model_table_labels (raw : DataFrame) (num : Z) (m : model) :
  map fst (rows (model_table raw num m))
  = map fst (List.filter (model_index_is num) (rows raw)).
Proof. simpl. rewrite map_map. by apply map_ext. Qed.

Lemma model_table_label_origin (raw : DataFrame) (num : Z) (m : model) (l : Z) :
  l ∈ map fst (rows (model_table raw num m)) ->
  exists r, r ∈ rows raw /\ fst r = l /\ model_index_is num r = true.
Proof.
  rewrite model_table_labels. intros (r & -> & Hr)%list_elem_of_fmap.
  apply list_elem_of_In, filter_In in Hr as [Hr Hidx].
  exists r. by rewrite list_elem_of_In.
Qed.

Lemma reaction_count_le (ms : list model) (i longest : nat) (m : model) :
  py_max (reaction_counts ms) = Ok longest ->
  ms !! i = Some m ->
  (length (REACTION_NAMES m) + 4 <= 4 + longest)%nat.
Proof.
  intros Hmax Hi. apply py_max_Ok in Hmax as ->.
  assert (length (REACTION_NAMES m) <= max_list (reaction_counts ms))%nat; [|lia].
  apply max_list_elem_of_le.
  apply (list_elem_of_fmap_2 (fun m => length (REACTION_NAMES m))).
  by eapply list_elem_of_lookup_2.
Qed.

(** X2. The loop splits the rows and loses their labels and order nowhere:
    with distinct row labels in the raw table, the tables built for two
    different positions share no row label; the labels of a table are
    labels of raw rows of that model index, in the order of the raw table.
    A raw row whose column 3 is no position of a model is in no table. *)
Theorem flux_tables_share_no_row
    (raw : DataFrame) (ms : list model) (longest i j : nat) (mi mj : model) :
  py_max (reaction_counts ms) = Ok longest ->
  columns raw = range (4 + longest) ->
  NoDup (map fst (rows raw)) ->
  ms !! i = Some mi ->
  ms !! j = Some mj ->
  i <> j ->
  exists ti tj,
    flux_table raw (Z.of_nat (i + 1)) mi = Ok ti
    /\ flux_table raw (Z.of_nat (j + 1)) mj = Ok tj
    /\ map fst (rows ti) `sublist_of` map fst (rows raw)
    /\ (forall l, l ∈ map fst (rows ti) ->
                  exists r, r ∈ rows raw /\ fst r = l
                            /\ model_index_is (Z.of_nat (i + 1)) r = true)
    /\ (forall l, l ∈ map fst (rows ti) -> l ∉ map fst (rows tj)).
Proof.
  intros Hmax Hcols Hnd Hi Hj Hij.
  exists (model_table raw (Z.of_nat (i + 1)) mi), (model_table raw (Z.of_nat (j + 1)) mj).
  split.
  { apply (flux_table_spec raw (4 + longest)); [done|]. by eapply reaction_count_le. }
  split.
  { apply (flux_table_spec raw (4 + longest)); [done|]. by eapply reaction_count_le. }
  split; [rewrite model_table_labels; apply labels_of_filter_sublist|].
  split; [apply model_table_label_origin|].
  intros l (r & Hr & Hl & Hidx)%model_table_label_origin
           (r' & Hr' & Hl' & Hidx')%model_table_label_origin.
  assert (r = r') as <- by (eapply NoDup_labels_eq; [done..|congruence]).
  unfold model_index_is in Hidx, Hidx'.
  pose proof (eq_num_inject_Z_inj _ _ _ Hidx Hidx'). lia.
Qed.

Lemma read_csv_names_rows (csv_fields : list string -> list (list value))
    (fs : files) (path : string) (names : list label) (lines : list string) :
  fs !! path = Some lines ->
  Forall (fun r => (length r <= length names)%nat) (csv_fields lines) ->
  read_csv_names csv_fields fs path names
  = Ok {| columns := names;
          rows := imap (fun i r =>
                          (Z.of_nat i,
                           r ++ replicate (length names - length r) (Float NaN)))
                       (csv_fields lines) |}.
Proof.
  intros Hfile Hwidth. unfold read_csv_names, readlines_file.
  rewrite Hfile. cbn [bind].
  rewrite existsb_all_false; [done|].
  eapply Forall_impl; [exact Hwidth|]. intros r Hr. by apply Nat.ltb_ge.
Qed.

Lemma dict_get_store_Some {V} (k : string) (v : V) (d : dict V)
    (kvs : list (string * V)) :
  dict_get k (store d kvs) = Some v ->
  (exists k', (k', v) ∈ kvs) \/ dict_get k d = Some v.
Proof.
  revert d. induction kvs as [|[k' v'] kvs IH]; intros d; [by right|].
  unfold store in *. simpl. intros [(k0 & Hin)|Hd]%IH.
  - left. exists k0. by right.
  - rewrite dict_get_set in Hd. destruct (String.eqb k' k); [|by right].
    injection Hd as ->. left. exists k'. by left.
Qed.

Lemma tables_from_elem (raw : DataFrame) (i : nat) (ms : list model)
    (k : string) (tbl : DataFrame) :
  (k, tbl) ∈ tables_from raw i ms ->
  exists j m, ms !! j = Some m /\ tbl = model_table raw (Z.of_nat (i + j + 1)) m.
Proof.
  revert i. induction ms as [|m ms IH]; intros i; simpl.
  - by intros ?%elem_of_nil.
  - intros [Heq|Hin]%elem_of_cons.
    + injection Heq as -> ->. exists 0%nat, m. split; [done|]. by rewrite Nat.add_0_r.
    + apply IH in Hin as (j & m' & Hj & ->). exists (S j), m'. split; [done|].
      do 2 f_equal. lia.
Qed.

(** X3. The tables that [run] builds from the flux log are rectangular:
    every row of the raw table has as many cells as the table has columns
    (short log lines are filled up), and every row of every table of
    [fluxes_by_species] has one cell for each of cycle, x, y and the
    reactions of its model. *)
Theorem flux_tables_rows_fill_columns
    (csv_fields : list string -> list (list value))
    (self : comets) (fs : files) (delete_files : bool)
    (lines : list string) (longest : nat) :
  writeFluxLog (parameters self) = true ->
  py_max (reaction_counts (models (layout self))) = Ok longest ->
  fs !! FluxLogName (parameters self) = Some lines ->
  Forall (fun r => (length r <= 4 + longest)%nat) (csv_fields lines) ->
  exists raw by_species fs',
    read_flux csv_fields self fs delete_files = Ok (Some raw, Some by_species, fs')
    /\ length (rows raw) = length (csv_fields lines)
    /\ Forall (fun r => length (snd r) = length (columns raw)) (rows raw)
    /\ forall k tbl,
         dict_get k by_species = Some tbl ->
         Forall (fun r => length (snd r) = length (columns tbl)) (rows tbl).
Proof.
  intros Hflag Hmax Hfile Hwidth.
  assert (Hread := read_csv_names_rows csv_fields fs _ (range (4 + longest))
                      lines Hfile).
  assert (Forall (fun r => (length r <= length (range (4 + longest)))%nat)
                 (csv_fields lines)) as Hwidth'.
  { eapply Forall_impl; [exact Hwidth|]. intros r Hr. by rewrite range_length. }
  specialize (Hread Hwidth').
  set (raw := {| columns := range (4 + longest);
                 rows := imap (fun i r =>
                                 (Z.of_nat i,
                                  r ++ replicate (length (range (4 + longest))
                                                  - length r) (Float NaN)))
                              (csv_fields lines) |}) in *.
  destruct (remove_if_Ok delete_files fs (FluxLogName (parameters self)))
    as (fs' & Hrm); [by eexists|].
  assert (Hraw : Forall (fun r => length (snd r) = (4 + longest)%nat) (rows raw)).
  { apply Forall_lookup. intros i r. unfold raw. cbn [rows].
    rewrite list_lookup_imap.
    destruct (csv_fields lines !! i) as [cells|] eqn:Hcells; [|done].
    injection 1 as <-. cbn [snd].
    rewrite length_app, length_replicate, ?range_length, ?length_map, ?length_seq.
    apply (proj1 (Forall_lookup _ _) Hwidth) in Hcells. lia. }
  exists raw, (store [] (tables_from raw 0 (models (layout self)))), fs'.
  split.
  { unfold read_flux. rewrite Hflag.
    unfold reaction_counts in Hmax. rewrite Hmax. cbn [bind].
    rewrite Hread. cbn [bind]. rewrite Hrm. cbn [bind].
    by rewrite (build_total raw _ longest Hmax eq_refl). }
  split; [simpl; apply length_imap|].
  split.
  { eapply Forall_impl; [exact Hraw|]. intros r Hr.
    unfold raw. cbn [columns]. by rewrite range_length. }
  intros k tbl [(k' & Hin)|Hnone]%dict_get_store_Some; [|done].
  apply tables_from_elem in Hin as (j & m & Hj & ->).
  pose proof (reaction_count_le _ _ _ _ Hmax Hj) as Hle.
  simpl. apply Forall_map. simpl.
  apply Forall_forall. intros r Hr.
  apply list_elem_of_In, filter_In in Hr as [Hr _]. apply list_elem_of_In in Hr.
  apply (proj1 (Forall_forall _ _) Hraw) in Hr.
  rewrite length_map, !length_app, !length_take, length_drop. cbn [length]. lia.
Qed.

(** ** The arrays that the image functions return *)

Lemma np_zeros_Ok (dims : Z * Z) (im : ndarray) :
  np_zeros dims = Ok im ->
  (0 <= fst dims)%Z /\ (0 <= snd dims)%Z
  /\ im = zeros (Z.to_nat (fst dims)) (Z.to_nat (snd dims)).
Proof.
  unfold np_zeros.
  destruct (Z.ltb_spec (fst dims) 0); [done|].
  destruct (Z.ltb_spec (snd dims) 0); [done|].
  simpl. by injection 1 as <-.
Qed.

Section ReturnedArrays.

Variable py_float : string -> option float.

Lemma fill_from_np_zeros (dims : Z * Z) (im0 im : ndarray) (cols : list label)
    (key : label) (rs : list (Z * list value)) :
  np_zeros dims = Ok im0 ->
  foldM (assign_cell py_float cols key) im0 rs = Ok im ->
  (0 <= fst dims)%Z /\ (0 <= snd dims)%Z
  /\ shape im = (Z.to_nat (fst dims), Z.to_nat (snd dims))
  /\ well_shaped im.
Proof.
  intros (H0 & H1 & ->)%np_zeros_Ok [Hshape Hwf]%fill_shape.
  split; [done|]. split; [done|]. split; [done|]. apply Hwf, zeros_well_shaped.
Qed.

(** X4. Whatever the tables hold, an array that one of the three image
    functions returns has the shape of the grid of the layout, which then
    has no negative dimension, and its data fill that shape. *)
Theorem images_have_the_shape_of_the_grid (self : comets) (cycle : Q) (im : ndarray) :
  (exists met, get_metabolite_image py_float self met cycle = Ok im)
  \/ (exists model_id, get_biomass_image py_float self model_id cycle = Ok im)
  \/ (exists model_id reaction_id,
         get_flux_image py_float self model_id reaction_id cycle = Ok im) ->
  (0 <= fst (grid (layout self)))%Z /\ (0 <= snd (grid (layout self)))%Z
  /\ shape im = (Z.to_nat (fst (grid (layout self))),
                 Z.to_nat (snd (grid (layout self))))
  /\ well_shaped im.
Proof.
  intros [(met & H)|[(mid & H)|(mid & rid & H)]].
  - unfold get_metabolite_image in H.
    do 5 (apply bind_Ok in H as (? & _ & H)).
    apply bind_Ok in H as (im0 & Hzeros & H).
    do 2 (apply bind_Ok in H as (? & _ & H)).
    by eapply fill_from_np_zeros.
  - unfold get_biomass_image in H.
    do 5 (apply bind_Ok in H as (? & _ & H)).
    apply bind_Ok in H as (im0 & Hzeros & H).
    apply bind_Ok in H as (? & _ & H).
    by eapply fill_from_np_zeros.
  - unfold get_flux_image in H.
    do 2 (apply bind_Ok in H as (? & _ & H)).
    apply bind_Ok in H as (im0 & Hzeros & H).
    do 6 (apply bind_Ok in H as (? & _ & H)).
    by eapply fill_from_np_zeros.
Qed.

End ReturnedArrays.

(** ** Records outside the grid *)

Lemma np_index_outside (n : nat) (i : Z) :
  (i < - Z.of_nat n \/ Z.of_nat n <= i)%Z -> np_index n i = Raise IndexError.
Proof.
  intros Hi. unfold np_index.
  destruct (Z.leb_spec 0 i), (Z.ltb_spec i (Z.of_nat n)),
           (Z.leb_spec (- Z.of_nat n) i), (Z.ltb_spec i 0); simpl; try done; lia.
Qed.

Lemma np_index_total (n : nat) (i : Z) :
  (exists r, np_index n i = Ok r) \/ np_index n i = Raise IndexError.
Proof. unfold np_index. repeat case_match; eauto. Qed.

Section OutsideTheGrid.

Variable py_float : string -> option float.
Variable cols : list label.
Variable key : label.
Variables px py pk : nat.
Hypothesis Hpx : positions (LStr "x") cols = [px].
Hypothesis Hpy : positions (LStr "y") cols = [py].
Hypothesis Hpk : positions key cols = [pk].

(** A record with integer coordinates of which one is outside the array:
    the statement raises the [IndexError] of numpy, whatever the value. *)
Lemma assign_cell_IndexError (im : ndarray) (row : Z * list value) (x y : Z) :
  at_xy px py x y row = true ->
  (x - 1 < - Z.of_nat (fst (shape im)) \/ Z.of_nat (fst (shape im)) <= x - 1
   \/ y - 1 < - Z.of_nat (snd (shape im)) \/ Z.of_nat (snd (shape im)) <= y - 1)%Z ->
  assign_cell py_float cols key im row = Raise IndexError.
Proof.
  intros [Hx Hy]%andb_prop Hout.
  unfold assign_cell, getitem. rewrite Hpk, Hpx, Hpy. cbn [bind].
  destruct (int_minus_one _ x Hx) as (x1 & Hx1 & Hi).
  destruct (int_minus_one _ y Hy) as (y1 & Hy1 & Hj).
  rewrite Hx1. cbn [bind]. rewrite Hi. cbn [bind].
  rewrite Hy1. cbn [bind]. rewrite Hj. cbn [bind].
  unfold np_setitem.
  destruct (np_index_total (fst (shape im)) (x - 1)) as [(r & Hr)|Hr];
    rewrite Hr; cbn [bind]; [|done].
  rewrite np_index_outside; [done|].
  destruct Hout as [?|[?|Hout]]; [| |done].
  - rewrite np_index_outside in Hr; [done|by left].
  - rewrite np_index_outside in Hr; [done|by right].
Qed.

Lemma fill_IndexError (good rest : list (Z * list value)) (bad : Z * list value)
    (n0 n1 : nat) (x y : Z) :
  records_in_grid px py pk n0 n1 good ->
  at_xy px py x y bad = true ->
  (x - 1 < - Z.of_nat n0 \/ Z.of_nat n0 <= x - 1
   \/ y - 1 < - Z.of_nat n1 \/ Z.of_nat n1 <= y - 1)%Z ->
  foldM (assign_cell py_float cols key) (zeros n0 n1) (good ++ bad :: rest)
  = Raise IndexError.
Proof.
  intros Hgood Hat Hout.
  destruct (fill_records py_float cols key px py pk Hpx Hpy Hpk good (zeros n0 n1)
              n0 n1 eq_refl (zeros_well_shaped _ _) Hgood)
    as (im & Hrun & Hshape & _).
  rewrite foldM_app, Hrun. cbn [bind foldM].
  rewrite (assign_cell_IndexError im bad x y); [done|done|].
  by rewrite Hshape.
Qed.

End OutsideTheGrid.

(** X5. A record outside the grid stops the image with numpy's
    [IndexError].  When the records of the asked cycle and metabolite that
    come before it lie inside the grid and its own coordinates are integers
    with [x - 1] outside [-rows .. rows - 1] or [y - 1] outside
    [-columns .. columns - 1], [get_metabolite_image] raises [IndexError]
    and returns no array, whatever the later records are. *)
Theorem metabolite_image_of_record_outside_raises_IndexError
    (py_float : string -> option float) (self : comets) (met : string)
    (cycle : Q) (tbl : DataFrame) (n0 n1 : nat)
    (good rest : list (Z * list value)) (bad : Z * list value) (x y : Z) :
  writeMediaLog (parameters self) = true ->
  met ∈ media_metabolite (layout self) ->
  media self = Some tbl ->
  columns tbl = media_columns ->
  grid (layout self) = (Z.of_nat n0, Z.of_nat n1) ->
  numeric_column 1 tbl ->
  cycle_recorded 1 cycle tbl = true ->
  media_records cycle met tbl = good ++ bad :: rest ->
  records_in_grid 2 3 4 n0 n1 good ->
  at_xy 2 3 x y bad = true ->
  (x - 1 < - Z.of_nat n0 \/ Z.of_nat n0 <= x - 1
   \/ y - 1 < - Z.of_nat n1 \/ Z.of_nat n1 <= y - 1)%Z ->
  get_metabolite_image py_float self met cycle = Raise IndexError.
Proof.
  intros Hflag Hmet Htbl Hcols Hgrid Hnum Hrec Hrecords Hgood Hat Hout.
  rewrite (get_metabolite_image_loop py_float self met cycle tbl n0 n1) by done.
  rewrite Hrecords.
  by apply (fill_IndexError py_float media_columns (LStr "conc_mmol") 2 3 4
              eq_refl eq_refl eq_refl good rest bad n0 n1 x y).
Qed.

(** X6. [get_flux_image] takes cycle, x and y for reaction ids, since it
    looks the id up among the columns of the table: for the name of the
    column at position 0, 1 or 2 no [NameError] is raised, and the array
    returned holds, in the cell of each record of the cycle, the cycle, the
    x or the y of the record instead of a flux. *)
Theorem flux_image_of_a_coordinate_column
    (py_float : string -> option float) (self : comets)
    (model_id name : string) (p : nat) (cycle : Q)
    (by_species : dict DataFrame) (tbl : DataFrame) (n0 n1 : nat) :
  map LStr ["cycle"; "x"; "y"] !! p = Some (LStr name) ->
  writeFluxLog (parameters self) = true ->
  model_id ∈ map Model.id (models (layout self)) ->
  grid (layout self) = (Z.of_nat n0, Z.of_nat n1) ->
  fluxes_by_species self = Some by_species ->
  dict_get model_id by_species = Some tbl ->
  NoDup (columns tbl) ->
  take 3 (columns tbl) = map LStr ["cycle"; "x"; "y"] ->
  numeric_column 0 tbl ->
  cycle_recorded 0 cycle tbl = true ->
  records_in_grid 1 2 p n0 n1 (cycle_records cycle tbl) ->
  exists im,
    get_flux_image py_float self model_id name cycle = Ok im
    /\ image_of 1 2 p (cycle_records cycle tbl) im
    /\ (p = 1%nat ->
        forall r c row,
          last (List.filter (at_xy 1 2 (Z.of_nat r + 1) (Z.of_nat c + 1))
                            (cycle_records cycle tbl)) = Some row ->
          exists q, cell im r c = Some (Finite q)
                    /\ (q == inject_Z (Z.of_nat r + 1))%Q).
Proof.
  intros Hp Hflag Hid Hgrid Hdict Htbl Hnd Hfirst Hnum Hrec Hrs.
  assert (Hlook : forall i l, map LStr ["cycle"; "x"; "y"] !! i = Some l ->
                              columns tbl !! i = Some l).
  { intros i l Hi. rewrite <- Hfirst in Hi.
    by apply lookup_take_Some in Hi as [Hi _]. }
  rewrite (get_flux_image_loop py_float self model_id name cycle by_species tbl n0 n1);
    try done.
  - destruct (fill_zeros py_float (columns tbl) (LStr name) 1 2 p
                (positions_NoDup _ _ _ Hnd (Hlook 1%nat _ eq_refl))
                (positions_NoDup _ _ _ Hnd (Hlook 2%nat _ eq_refl))
                (positions_NoDup _ _ _ Hnd (Hlook p _ Hp)) _ n0 n1 Hrs)
      as (im & Hrun & Hshape & _ & Him).
    exists im. split; [done|]. split; [done|].
    intros -> r c row Hlast.
    assert (Hin : row ∈ List.filter (at_xy 1 2 (Z.of_nat r + 1) (Z.of_nat c + 1))
                                    (cycle_records cycle tbl))
      by (by apply last_Some_elem_of).
    apply list_elem_of_In, filter_In in Hin as [_ Hat].
    pose proof Hat as [Hx _]%andb_prop.
    destruct (nth 1 (snd row) (Float NaN)) as [[q|]|s] eqn:Hcell; try done.
    exists q. split.
    + destruct Him as [Hlastcell _].
      pose proof (Hlastcell row _ _ (Finite q) Hlast Hcell) as Hc.
      by rewrite !Z.add_simpl_r, !Nat2Z.id in Hc.
    + simpl in Hx. by apply Qeq_bool_iff.
  - apply positions_NoDup; [done|]. by apply (Hlook 0%nat).
  - eapply list_elem_of_lookup_2. by apply (Hlook p).
Qed.

(** ** The files and the attributes after the reads *)

Lemma removes_spec (ps : list string) (fs fs' : files) :
  foldM os_remove fs ps = Ok fs' ->
  NoDup ps
  /\ (forall p, p ∈ ps -> is_Some (fs !! p))
  /\ (forall p, fs' !! p = if bool_decide (p ∈ ps) then None else fs !! p).
Proof.
  revert fs. induction ps as [|p0 ps IH]; intros fs.
  - injection 1 as <-. split; [constructor|]. split; [by intros p ?%elem_of_nil|].
    intros p. case_bool_decide as Hp; [by apply elem_of_nil in Hp|done].
  - cbn [foldM]. unfold os_remove at 1.
    destruct (fs !! p0) as [lines|] eqn:Hp0; [|done].
    cbn [bind]. intros (Hnd & Hin & Hout)%IH.
    assert (p0 ∉ ps) as Hfresh.
    { intros Hp. apply Hin in Hp as [? Hp]. by rewrite lookup_delete_eq in Hp. }
    split; [by constructor|]. split.
    + intros p [->|Hp]%elem_of_cons; [by eexists|].
      destruct (Hin p Hp) as [l Hl]. destruct (decide (p0 = p)) as [->|Hne]; [done|].
      rewrite lookup_delete_ne in Hl by done. by eexists.
    + intros p. rewrite Hout.
      case_bool_decide as Hp; case_bool_decide as Hp'; try done.
      * exfalso. apply Hp'. by right.
      * apply elem_of_cons in Hp' as [->|?]; [|done]. apply lookup_delete_eq.
      * apply lookup_delete_ne. intros ->. apply Hp'. by left.
Qed.

Lemma remove_if_removes (delete_files : bool) (fs fs' : files) (path : string) :
  remove_if delete_files fs path = Ok fs' ->
  foldM os_remove fs (if delete_files then [path] else []) = Ok fs'.
Proof.
  unfold remove_if. destruct delete_files; simpl; [|done].
  by destruct (os_remove fs path).
Qed.

Section ReadsExact.

Variable strip_split_tabs : string -> list string.
Variable py_float : string -> option float.
Variable csv_fields : list string -> list (list value).
Variable csv_with_header : list string -> result DataFrame.

Lemma read_total_biomass_exact (self : comets) (fs : files) (delete_files : bool) :
  read_exact (writeTotalBiomassLog (parameters self)) delete_files
             (TotalBiomassLogName (parameters self)) fs
             (read_total_biomass strip_split_tabs py_float self fs delete_files).
Proof.
  intros a fs'. unfold read_total_biomass.
  destruct (writeTotalBiomassLog _); simpl.
  - intros (lines & _ & H)%bind_Ok.
    apply bind_Ok in H as (df & _ & H). apply bind_Ok in H as (df' & _ & H).
    apply bind_Ok in H as (fs1 & Hrm & H). injection H as <- <-.
    by apply remove_if_removes.
  - by injection 1 as <- <-.
Qed.

Lemma read_csv_step_exact (asked : bool) (old : option DataFrame) (fs : files)
    (delete_files : bool) (path : string) (names : list label) :
  read_exact asked delete_files path fs
    (if asked then
       let/r df := read_csv_names csv_fields fs path names in
       let/r fs := remove_if delete_files fs path in
       Ok (Some df, fs)
     else Ok (old, fs)).
Proof.
  intros a fs'. destruct asked; simpl.
  - intros (df & _ & H)%bind_Ok.
    apply bind_Ok in H as (fs1 & Hrm & H). injection H as <- <-.
    by apply remove_if_removes.
  - by injection 1 as <- <-.
Qed.

Lemma read_flux_exact (self : comets) (fs : files) (delete_files : bool) :
  read_exact (writeFluxLog (parameters self)) delete_files
             (FluxLogName (parameters self)) fs
             (read_flux csv_fields self fs delete_files).
Proof.
  intros a fs'. unfold read_flux.
  destruct (writeFluxLog _); simpl.
  - intros (longest & _ & H)%bind_Ok.
    apply bind_Ok in H as (df & _ & H). apply bind_Ok in H as (fs1 & Hrm & H).
    apply bind_Ok in H as (by_species & _ & H). injection H as <- <-.
    by apply remove_if_removes.
  - by injection 1 as <- <-.
Qed.

Lemma read_specific_media_exact (self : comets) (fs : files) (delete_files : bool) :
  read_exact (writeSpecificMediaLog (parameters self)) delete_files
             (SpecificMediaLogName (parameters self)) fs
             (read_specific_media csv_with_header self fs delete_files).
Proof.
  intros a fs'. unfold read_specific_media.
  destruct (writeSpecificMediaLog _); simpl.
  - intros (df & _ & H)%bind_Ok.
    apply bind_Ok in H as (fs1 & Hrm & H). injection H as <- <-.
    by apply remove_if_removes.
  - by injection 1 as <- <-.
Qed.

Lemma removes_app (fs fs1 fs2 : files) (ps qs : list string) :
  foldM os_remove fs ps = Ok fs1 ->
  foldM os_remove fs1 qs = Ok fs2 ->
  foldM os_remove fs (ps ++ qs) = Ok fs2.
Proof. intros Hps Hqs. by rewrite foldM_app, Hps. Qed.

(** A run that returns has removed, one after the other, the files of the
    requested logs and the files of its workspace, if asked to delete, and
    nothing if not. *)
Lemma run_read_output_removes (self self' : comets) (fs fs' : files)
    (delete_files : bool) :
  run_read_output strip_split_tabs py_float csv_fields csv_with_header
    self false fs delete_files = Ok (self', fs') ->
  foldM os_remove fs
        (if delete_files then requested_logs self ++ workspace_files self else [])
  = Ok fs'.
Proof.
  intros Hrun. unfold run_read_output in Hrun.
  apply bind_Ok in Hrun as ([tb fs1] & H1 & Hrun).
  apply bind_Ok in Hrun as ([[fl bs] fs2] & H2 & Hrun).
  apply bind_Ok in Hrun as ([md fs3] & H3 & Hrun).
  apply bind_Ok in Hrun as ([bm fs4] & H4 & Hrun).
  apply bind_Ok in Hrun as ([gt fs5] & H5 & Hrun).
  apply bind_Ok in Hrun as ([sm fs6] & H6 & Hrun).
  apply bind_Ok in Hrun as (fs7 & H7%remove_if_removes & Hrun).
  apply bind_Ok in Hrun as (fs8 & H8%remove_if_removes & Hrun).
  apply bind_Ok in Hrun as (fs9 & H9%remove_if_removes & Hrun).
  apply bind_Ok in Hrun as (fs10 & H10%remove_if_removes & Hrun).
  apply bind_Ok in Hrun as (fs11 & H11%remove_if_removes & Hrun).
  injection Hrun as _ <-.
  apply read_total_biomass_exact in H1.
  apply (read_flux_exact self fs1 delete_files (fl, bs) fs2) in H2.
  apply read_csv_step_exact in H3.
  apply read_csv_step_exact in H4.
  apply read_csv_step_exact in H5.
  apply read_specific_media_exact in H6.
  destruct delete_files.
  - rewrite !andb_true_r in *. unfold requested_logs, workspace_files.
    cbv zeta. rewrite <- !app_assoc.
    repeat (eapply removes_app; [eassumption|]).
    eapply (removes_app _ _ _ [_]); [eassumption|].
    eapply (removes_app _ _ _ [_]); [eassumption|].
    eapply (removes_app _ _ _ [_]); [eassumption|].
    eapply (removes_app _ _ _ [_]); [eassumption|].
    eassumption.
  - rewrite !andb_false_r in *. simpl in *. congruence.
Qed.

End ReadsExact.

Section AfterTheReads.

Variable strip_split_tabs : string -> list string.
Variable py_float : string -> option float.
Variable csv_fields : list string -> list (list value).
Variable csv_with_header : list string -> result DataFrame.

(** X7. What a run that returns has done to the files: without
    [delete_files] nothing; with it, the files of the requested logs and
    the five files of the workspace are gone and every other file is as it
    was. *)
Theorem run_removes_exactly_its_files (self self' : comets) (fs fs' : files)
    (delete_files : bool) :
  run_read_output strip_split_tabs py_float csv_fields csv_with_header
    self false fs delete_files = Ok (self', fs') ->
  (delete_files = false -> fs' = fs)
  /\ (delete_files = true ->
      forall p,
        fs' !! p = if bool_decide (p ∈ requested_logs self ++ workspace_files self)
                   then None else fs !! p).
Proof.
  intros Hrun%run_read_output_removes. split; intros ->.
  - simpl in Hrun. by injection Hrun as <-.
  - by apply removes_spec in Hrun as (_ & _ & Hout).
Qed.

(** X8. A run with [delete_files] returns only if the paths of the
    requested logs and of the workspace files are pairwise different and
    each of them names a file when the reads start: a path that two of them
    share is removed after its first read and missing at the second. *)
Theorem run_with_delete_needs_distinct_paths (self self' : comets) (fs fs' : files) :
  run_read_output strip_split_tabs py_float csv_fields csv_with_header
    self false fs true = Ok (self', fs') ->
  NoDup (requested_logs self ++ workspace_files self)
  /\ forall p, p ∈ requested_logs self ++ workspace_files self -> is_Some (fs !! p).
Proof.
  intros Hrun%run_read_output_removes.
  by apply removes_spec in Hrun as (Hnd & Hin & _).
Qed.

Lemma read_total_biomass_attribute (self : comets) (fs fs' : files)
    (delete_files : bool) (a : option DataFrame) :
  read_total_biomass strip_split_tabs py_float self fs delete_files = Ok (a, fs') ->
  attribute_after (writeTotalBiomassLog (parameters self)) (total_biomass self) a.
Proof.
  unfold read_total_biomass, attribute_after.
  destruct (writeTotalBiomassLog _).
  - intros H. do 4 (apply bind_Ok in H as (? & _ & H)). injection H as <- _. by eexists.
  - by injection 1 as <- _.
Qed.

Lemma read_csv_step_attribute (asked : bool) (old a : option DataFrame)
    (fs fs' : files) (delete_files : bool) (path : string) (names : list label) :
  (if asked then
     let/r df := read_csv_names csv_fields fs path names in
     let/r fs := remove_if delete_files fs path in
     Ok (Some df, fs)
   else Ok (old, fs)) = Ok (a, fs') ->
  attribute_after asked old a.
Proof.
  unfold attribute_after. destruct asked.
  - intros H. do 2 (apply bind_Ok in H as (? & _ & H)). injection H as <- _. by eexists.
  - by injection 1 as <- _.
Qed.

Lemma read_flux_attribute (self : comets) (fs fs' : files) (delete_files : bool)
    (a : option DataFrame) (b : option (dict DataFrame)) :
  read_flux csv_fields self fs delete_files = Ok (a, b, fs') ->
  attribute_after (writeFluxLog (parameters self)) (fluxes self) a
  /\ attribute_after (writeFluxLog (parameters self)) (fluxes_by_species self) b.
Proof.
  unfold read_flux, attribute_after.
  destruct (writeFluxLog _).
  - intros H. do 4 (apply bind_Ok in H as (? & _ & H)). injection H as <- <- _.
    split; by eexists.
  - by injection 1 as <- <- _.
Qed.

Lemma read_specific_media_attribute (self : comets) (fs fs' : files)
    (delete_files : bool) (a : option DataFrame) :
  read_specific_media csv_with_header self fs delete_files = Ok (a, fs') ->
  attribute_after (writeSpecificMediaLog (parameters self)) (specific_media self) a.
Proof.
  unfold read_specific_media, attribute_after.
  destruct (writeSpecificMediaLog _).
  - intros H. do 2 (apply bind_Ok in H as (? & _ & H)). injection H as <- _. by eexists.
  - by injection 1 as <- _.
Qed.

(** A run that returns has made its six reads one after the other, each
    on the files that the one before has left. *)
Lemma run_read_output_reads (self self' : comets) (fs fs' : files)
    (delete_files : bool) :
  run_read_output strip_split_tabs py_float csv_fields csv_with_header
    self false fs delete_files = Ok (self', fs') ->
  layout self' = layout self
  /\ parameters self' = parameters self
  /\ exists fs1 fs2 fs3 fs4 fs5 fs6,
       read_total_biomass strip_split_tabs py_float self fs delete_files
       = Ok (total_biomass self', fs1)
       /\ read_flux csv_fields self fs1 delete_files
          = Ok (fluxes self', fluxes_by_species self', fs2)
       /\ read_media csv_fields self fs2 delete_files = Ok (media self', fs3)
       /\ read_biomass csv_fields self fs3 delete_files = Ok (biomass self', fs4)
       /\ read_genotypes csv_fields self fs4 delete_files = Ok (genotypes self', fs5)
       /\ read_specific_media csv_with_header self fs5 delete_files
          = Ok (specific_media self', fs6).
Proof.
  intros Hrun. unfold run_read_output in Hrun.
  apply bind_Ok in Hrun as ([tb fs1] & H1 & Hrun).
  apply bind_Ok in Hrun as ([[fl bs] fs2] & H2 & Hrun).
  apply bind_Ok in Hrun as ([md fs3] & H3 & Hrun).
  apply bind_Ok in Hrun as ([bm fs4] & H4 & Hrun).
  apply bind_Ok in Hrun as ([gt fs5] & H5 & Hrun).
  apply bind_Ok in Hrun as ([sm fs6] & H6 & Hrun).
  do 5 (apply bind_Ok in Hrun as (? & _ & Hrun)).
  injection Hrun as <- _. simpl. split; [done|]. split; [done|].
  by exists fs1, fs2, fs3, fs4, fs5, fs6.
Qed.

(** X9. What a run that returns has done to the attributes: the table of
    every requested log is set, and the table of a log that was not
    requested is the one the object had before, a table of an earlier run
    being kept; layout and parameters are not touched. *)
Theorem run_sets_the_requested_tables_only (self self' : comets) (fs fs' : files)
    (delete_files : bool) :
  run_read_output strip_split_tabs py_float csv_fields csv_with_header
    self false fs delete_files = Ok (self', fs') ->
  layout self' = layout self
  /\ parameters self' = parameters self
  /\ attribute_after (writeTotalBiomassLog (parameters self))
                     (total_biomass self) (total_biomass self')
  /\ attribute_after (writeFluxLog (parameters self)) (fluxes self) (fluxes self')
  /\ attribute_after (writeFluxLog (parameters self))
                     (fluxes_by_species self) (fluxes_by_species self')
  /\ attribute_after (writeMediaLog (parameters self)) (media self) (media self')
  /\ attribute_after (writeBiomassLog (parameters self)) (biomass self) (biomass self')
  /\ attribute_after (evolution (parameters self)) (genotypes self) (genotypes self')
  /\ attribute_after (writeSpecificMediaLog (parameters self))
                     (specific_media self) (specific_media self').
Proof.
  intros (Hlayout & Hparams & fs1 & fs2 & fs3 & fs4 & fs5 & fs6
          & H1%read_total_biomass_attribute & [H2 H2']%read_flux_attribute
          & H3%read_csv_step_attribute & H4%read_csv_step_attribute
          & H5%read_csv_step_attribute
          & H6%read_specific_media_attribute)%run_read_output_reads.
  by repeat split.
Qed.

(** X10. A layout without models and a requested flux log: [max] of no
    reaction count is a [ValueError], raised before the flux log is opened.
    When the total biomass log is not requested it is what [run] raises,
    whatever the files are. *)
Theorem run_flux_log_without_models_raises (self : comets) (fs : files)
    (delete_files : bool) :
  writeTotalBiomassLog (parameters self) = false ->
  writeFluxLog (parameters self) = true ->
  models (layout self) = [] ->
  read_flux csv_fields self fs delete_files
  = Raise (ValueError "max() arg is an empty sequence")
  /\ run_read_output strip_split_tabs py_float csv_fields csv_with_header
       self false fs delete_files
     = Raise (ValueError "max() arg is an empty sequence").
Proof.
  intros Htotal Hflux Hms.
  assert (read_flux csv_fields self fs delete_files
          = Raise (ValueError "max() arg is an empty sequence")) as Hread.
  { unfold read_flux. by rewrite Hflux, Hms. }
  split; [done|].
  unfold run_read_output, read_total_biomass. rewrite Htotal. cbn [bind].
  by rewrite Hread.
Qed.

End AfterTheReads.

(** ** The total biomass log *)

(** A loop that appends what a step returns, on steps that all return. *)
Lemma foldM_snoc_map {A B C} (step : A -> result B) (h : A -> B -> C)
    (g : A -> B) (acc : list C) (l : list A) :
  Forall (fun a => step a = Ok (g a)) l ->
  foldM (fun acc a => let/r b := step a in Ok (acc ++ [h a b])) acc l
  = Ok (acc ++ map (fun a => h a (g a)) l).
Proof.
  intros Hl. revert acc. induction Hl as [|a l Ha _ IH]; intros acc; simpl.
  - by rewrite app_nil_r.
  - rewrite Ha. cbn [bind]. rewrite IH. by rewrite <- app_assoc.
Qed.

(** The same loop when one step raises and the others return or raise the
    same exception. *)
Lemma foldM_snoc_raise {A B C} (step : A -> result B) (h : A -> B -> C)
    (e : exn) (acc : list C) (l : list A) :
  Forall (fun a => (exists b, step a = Ok b) \/ step a = Raise e) l ->
  Exists (fun a => step a = Raise e) l ->
  foldM (fun acc a => let/r b := step a in Ok (acc ++ [h a b])) acc l = Raise e.
Proof.
  intros Hall Hex. revert acc.
  induction Hall as [|a l Ha Hall IH]; intros acc; [by apply Exists_nil in Hex|].
  simpl. destruct Ha as [(b & Hb)|Ha]; [|by rewrite Ha].
  rewrite Hb. cbn [bind]. apply IH.
  apply Exists_cons in Hex as [Hex|Hex]; [congruence|done].
Qed.

Lemma foldM_snoc_total {A B C} (step : A -> result B) (h : A -> B -> C)
    (e : exn) (acc : list C) (l : list A) :
  Forall (fun a => (exists b, step a = Ok b) \/ step a = Raise e) l ->
  (exists bs, foldM (fun acc a => let/r b := step a in Ok (acc ++ [h a b])) acc l
              = Ok bs)
  \/ foldM (fun acc a => let/r b := step a in Ok (acc ++ [h a b])) acc l = Raise e.
Proof.
  intros Hall. revert acc.
  induction Hall as [|a l Ha Hall IH]; intros acc; simpl; [eauto|].
  destruct Ha as [(b & Hb)|Ha]; [|right; by rewrite Ha].
  rewrite Hb. cbn [bind]. apply IH.
Qed.

Lemma max_list_constant (n : nat) (l : list nat) :
  l <> [] -> Forall (fun k => k = n) l -> max_list l = n.
Proof.
  intros Hne Hl. induction Hl as [|k l -> Hl IH]; [done|]. simpl.
  destruct l as [|k' l]; [simpl; lia|]. rewrite IH by done. lia.
Qed.

Section TotalBiomass.

Variable strip_split_tabs : string -> list string.
Variable py_float : string -> option float.

Lemma as_float_total (v : value) :
  (exists f, as_float py_float v = Ok f)
  \/ as_float py_float v = Raise (ValueError "could not convert string to float").
Proof.
  destruct v as [f|s]; simpl; [eauto|]. destruct (py_float s); eauto.
Qed.

(** X11. The total biomass table has one row per line of the log.  When
    every line splits into one token for the cycle and one for each model
    and every token is a float for Python, the read returns the table with
    the columns cycle and then the model ids, whose rows are the lines in
    their order, numbered from 0, each token as its float. *)
Theorem total_biomass_rows_are_the_lines (self : comets) (fs : files)
    (delete_files : bool) (lines : list string) :
  writeTotalBiomassLog (parameters self) = true ->
  fs !! TotalBiomassLogName (parameters self) = Some lines ->
  Forall (fun line =>
            length (strip_split_tabs line) = S (length (models (layout self)))
            /\ Forall (fun t => is_Some (py_float t)) (strip_split_tabs line))
         lines ->
  exists df fs',
    read_total_biomass strip_split_tabs py_float self fs delete_files
    = Ok (Some df, fs')
    /\ columns df = map LStr ("cycle" :: map Model.id (models (layout self)))
    /\ rows df = imap (fun i line =>
                         (Z.of_nat i,
                          map (fun t => Float (default NaN (py_float t)))
                              (strip_split_tabs line)))
                      lines.
Proof.
  intros Hflag Hfile Hlines.
  destruct (remove_if_Ok delete_files fs (TotalBiomassLogName (parameters self)))
    as (fs' & Hrm); [by eexists|].
  eexists _, fs'. unfold read_total_biomass, readlines_file.
  rewrite Hflag, Hfile. cbn [bind].
  assert (Hwidth : lines <> [] ->
            max_list (map length (map strip_split_tabs lines))
            = S (length (models (layout self)))).
  { intros Hne. apply max_list_constant; [by destruct lines|].
    rewrite map_map. apply Forall_map.
    eapply Forall_impl; [exact Hlines|]. by intros line [? _]. }
  unfold pd_DataFrame.
  replace (bool_decide (map strip_split_tabs lines = [])
           || bool_decide (max_list (map length (map strip_split_tabs lines))
                           = length (map LStr (["cycle"] ++ get_model_ids (layout self)))))
    with true.
  2: { destruct lines as [|line lines']; [done|]. symmetry.
       rewrite (bool_decide_eq_true_2 (max_list _ = _)); [apply orb_true_r|].
       rewrite Hwidth by done. simpl. unfold get_model_ids.
       by rewrite !length_map. }
  cbn [bind]. unfold astype_float. cbn [rows columns].
  set (w := max_list (map length (map strip_split_tabs lines))) in *.
  set (conv := fun v : value =>
                 match v with
                 | Str t => default NaN (py_float t)
                 | Float f => f
                 end).
  rewrite (foldM_snoc_map
             (fun r : Z * list value =>
                foldM (fun cs v => let/r f := as_float py_float v in
                                   Ok (cs ++ [Float f])) [] (snd r))
             (fun r cells => (fst r, cells))
             (fun r => map (fun v => Float (conv v)) (snd r))).
  - cbn [bind]. rewrite Hrm. cbn [bind]. split; [reflexivity|]. split; [done|].
    cbn [rows app]. apply list_eq. intros i.
    change (map ?f ?l) with (f <$> l).
    rewrite list_lookup_fmap, !list_lookup_imap, list_lookup_fmap.
    destruct (lines !! i) as [line|] eqn:Hline; [|done]. simpl.
    do 2 f_equal.
    assert (lines <> []) as Hne by (intros ->; done).
    apply (proj1 (Forall_lookup _ _) Hlines) in Hline as [Hlen _].
    unfold w in Hwidth. rewrite Hlen, (Hwidth Hne), Nat.sub_diag. simpl.
    rewrite app_nil_r, map_map. done.
  - apply Forall_lookup. intros i r. rewrite list_lookup_imap.
    change (map ?f ?l) with (f <$> l). rewrite list_lookup_fmap.
    destruct (lines !! i) as [line|] eqn:Hline; [|done]. simpl.
    injection 1 as <-. cbn [snd].
    apply (proj1 (Forall_lookup _ _) Hlines) in Hline as [_ Htoks].
    apply (foldM_snoc_map (as_float py_float) (fun _ f => Float f) conv []).
    apply Forall_app. split.
    + apply Forall_fmap. eapply Forall_impl; [exact Htoks|].
      intros t [f Hf]. simpl. by rewrite Hf.
    + by apply Forall_replicate.
Qed.


(** X12. A malformed total biomass log raises ValueError.  When the log
    has a line and either its widest line has another number of tokens
    than one for the cycle and one for each model, or some token is no
    float for Python, the read raises ValueError and returns no table. *)
Theorem total_biomass_malformed_raises_ValueError (self : comets) (fs : files)
    (delete_files : bool) (lines : list string) :
  writeTotalBiomassLog (parameters self) = true ->
  fs !! TotalBiomassLogName (parameters self) = Some lines ->
  lines <> [] ->
  max_list (map length (map strip_split_tabs lines))
    <> S (length (models (layout self)))
  \/ Exists (fun line => Exists (fun t => py_float t = None) (strip_split_tabs line))
            lines ->
  exists msg,
    read_total_biomass strip_split_tabs py_float self fs delete_files
    = Raise (ValueError msg).
Proof.
  intros Hflag Hfile Hne Hbad.
  unfold read_total_biomass, readlines_file. rewrite Hflag, Hfile. cbn [bind].
  unfold pd_DataFrame.
  rewrite (bool_decide_eq_false_2 (map strip_split_tabs lines = []))
    by (by destruct lines).
  cbn [orb]. case_bool_decide as Hwidth; [|by eexists].
  destruct Hbad as [Hbad|Hbad].
  { exfalso. apply Hbad. rewrite Hwidth. simpl. unfold get_model_ids.
    by rewrite !length_map. }
  cbn [bind]. unfold astype_float. cbn [rows columns].
  eexists.
  rewrite (foldM_snoc_raise
             (fun r : Z * list value =>
                foldM (fun cs v => let/r f := as_float py_float v in
                                   Ok (cs ++ [Float f])) [] (snd r))
             (fun r cells => (fst r, cells))
             (ValueError "could not convert string to float")); [done| |].
  - apply Forall_forall. intros r _.
    apply (foldM_snoc_total (as_float py_float) (fun _ f => Float f)).
    apply Forall_forall. intros v _. apply as_float_total.
  - apply Exists_exists in Hbad as (line & Hline & Htok).
    apply list_elem_of_lookup in Hline as (i & Hline).
    apply Exists_exists. eexists. split.
    + apply list_elem_of_lookup. exists i. rewrite list_lookup_imap.
      change (map ?f ?l) with (f <$> l). rewrite list_lookup_fmap, Hline. done.
    + cbn [snd].
      apply (foldM_snoc_raise (as_float py_float) (fun _ f => Float f)).
      * apply Forall_forall. intros v _. apply as_float_total.
      * apply Exists_app. left.
        apply Exists_exists in Htok as (t & Ht & Hnone).
        apply Exists_exists. exists (Str t). split.
        -- by apply (list_elem_of_fmap_2 Str).
        -- simpl. by rewrite Hnone.
Qed.

End TotalBiomass.

(** ** The class path *)

Lemma broken_pieces_loop (fs : files) (l acc : dict string) :
  NoDup (map fst acc ++ map fst l) ->
  fold_left (fun broken_pieces kv =>
               if negb (os_path_isfile fs (snd kv))
               then dict_set (fst kv) (snd kv) broken_pieces
               else broken_pieces) l acc
  = acc ++ List.filter (fun kv => negb (os_path_isfile fs (snd kv))) l.
Proof.
  revert acc. induction l as [|[k v] l IH]; intros acc Hnd; simpl.
  - by rewrite app_nil_r.
  - simpl in Hnd. pose proof Hnd as Hnd'.
    apply NoDup_app in Hnd as (Hacc & Hdisj & Hl).
    apply NoDup_cons in Hl as [Hk Hl].
    destruct (negb (os_path_isfile fs v)).
    + rewrite dict_set_fresh.
      * rewrite IH; [by rewrite <- app_assoc|].
        rewrite map_app. simpl. by rewrite <- app_assoc.
      * intros Hin. apply (Hdisj k Hin). by left.
    + apply IH. apply NoDup_app. split; [done|]. split; [|done].
      intros k' Hk' Hin. apply (Hdisj k' Hk'). by right.
Qed.

Lemma no_piece_missing (fs : files) (l : dict string) :
  List.filter (fun kv => negb (os_path_isfile fs (snd kv))) l = []
  <-> Forall (fun kv => is_Some (fs !! snd kv)) l.
Proof.
  induction l as [|kv l IH]; simpl.
  - split; [constructor|done].
  - rewrite Forall_cons. unfold os_path_isfile at 1.
    case_bool_decide as Hfile; simpl.
    + rewrite IH. tauto.
    + split; [done|]. by intros [? _].
Qed.

(** X13. The broken pieces are the pieces without a file.  For a class
    path whose libraries have distinct names, as a dict has them,
    [get_broken_classpath_pieces] returns the pieces whose path names no
    file, with their paths and in their order; [test_classpath_pieces]
    prints nothing if and only if every piece names a file. *)
Theorem broken_pieces_are_the_pieces_without_a_file (self : launch) (fs : files) :
  NoDup (map fst (classpath_pieces self)) ->
  get_broken_classpath_pieces self fs
  = List.filter (fun kv => negb (os_path_isfile fs (snd kv))) (classpath_pieces self)
  /\ (test_classpath_pieces self fs = []
      <-> Forall (fun kv => is_Some (fs !! snd kv)) (classpath_pieces self)).
Proof.
  intros Hnd.
  assert (get_broken_classpath_pieces self fs
          = List.filter (fun kv => negb (os_path_isfile fs (snd kv)))
                        (classpath_pieces self)) as Hbroken.
  { unfold get_broken_classpath_pieces. by rewrite broken_pieces_loop. }
  split; [done|].
  unfold test_classpath_pieces. rewrite Hbroken.
  set (missing := List.filter _ _).
  assert (Hall := no_piece_missing fs (classpath_pieces self)). fold missing in Hall.
  rewrite <- Hall. case_bool_decide as Hlen.
  - split; [intros _|done]. by apply nil_length_inv.
  - split; [done|]. intros Hm. by rewrite Hm in Hlen.
Qed.

Lemma string_app_assoc (s1 s2 s3 : string) :
  ((s1 ++ s2) ++ s3 = s1 ++ s2 ++ s3)%string.
Proof.
  induction s1 as [|c s1 IH]; [done|].
  change (String c ((s1 ++ s2) ++ s3) = String c (s1 ++ s2 ++ s3))%string.
  by rewrite IH.
Qed.

Lemma concat_snoc (sep x : string) (l : list string) :
  l <> [] ->
  String.concat sep (l ++ [x]) = (String.concat sep l ++ sep ++ x)%string.
Proof.
  induction l as [|a l IH]; intros Hne; [done|].
  destruct l as [|b l]; [done|].
  change (String.concat sep ((a :: b :: l) ++ [x]))
    with (a ++ sep ++ String.concat sep ((b :: l) ++ [x]))%string.
  change (String.concat sep (a :: b :: l))
    with (a ++ sep ++ String.concat sep (b :: l))%string.
  rewrite IH by done. by rewrite !string_app_assoc.
Qed.

Lemma dict_set_at {V} (k : string) (v : V) (d : dict V) (i : nat) :
  NoDup (map fst d) ->
  map fst d !! i = Some k ->
  dict_set k v d = <[i := (k, v)]> d.
Proof.
  revert i. induction d as [|[k' v'] d IH]; intros i Hnd Hi; [done|].
  simpl in Hnd. apply NoDup_cons in Hnd as [Hk' Hnd]. simpl.
  destruct i as [|i]; simpl in Hi.
  - injection Hi as ->. by rewrite String.eqb_refl.
  - destruct (String.eqb_spec k' k) as [->|Hne].
    + exfalso. apply Hk'. by eapply list_elem_of_lookup_2.
    + simpl. f_equal. by apply IH.
Qed.

Lemma dict_set_keys_NoDup {V} (k : string) (v : V) (d : dict V) :
  NoDup (map fst d) -> NoDup (map fst (dict_set k v d)).
Proof. intros Hnd. by apply (store_keys_NoDup d [(k, v)]). Qed.

(** X14. [set_classpath] changes one piece and keeps the order.  For a
    class path whose libraries have distinct names, the new pieces have
    distinct names, hold the path under the name and every other piece as
    before; a name that was there keeps its place, a new name comes last;
    [JAVA_CLASSPATH] is rebuilt from the new pieces, and for a new name it
    is the joined old paths, a colon and the path. *)
Theorem set_classpath_keeps_the_order (self : launch) (libraryname path : string) :
  NoDup (map fst (classpath_pieces self)) ->
  let pieces := classpath_pieces self in
  let pieces' := classpath_pieces (set_classpath self libraryname path) in
  NoDup (map fst pieces')
  /\ dict_get libraryname pieces' = Some path
  /\ (forall k, k <> libraryname -> dict_get k pieces' = dict_get k pieces)
  /\ (forall i, map fst pieces !! i = Some libraryname ->
                pieces' = <[i := (libraryname, path)]> pieces)
  /\ (libraryname ∉ map fst pieces -> pieces' = pieces ++ [(libraryname, path)])
  /\ JAVA_CLASSPATH (set_classpath self libraryname path)
     = String.concat ":" (map snd pieces')
  /\ (libraryname ∉ map fst pieces -> pieces <> [] ->
      JAVA_CLASSPATH (set_classpath self libraryname path)
      = (String.concat ":" (map snd pieces) ++ ":" ++ path)%string).
Proof.
  intros Hnd pieces pieces'. subst pieces pieces'. simpl.
  split; [by apply dict_set_keys_NoDup|].
  split; [by rewrite dict_get_set, String.eqb_refl|].
  split.
  { intros k Hk. rewrite dict_get_set.
    by destruct (String.eqb_spec libraryname k); [congruence|]. }
  split; [intros i Hi; by apply dict_set_at|].
  split; [apply dict_set_fresh|].
  split; [done|].
  intros Hfresh Hne. rewrite dict_set_fresh by done.
  rewrite map_app. simpl. apply concat_snoc. by destruct (classpath_pieces self).
Qed.

Lemma default_pieces_keys (self : launch) :
  map fst (classpath_pieces (build_default_classpath_pieces self)) = default_libraries.
Proof. reflexivity. Qed.

(** X15. The default libraries stay in the class path.  On an object as
    [__init__] has left it, and after any calls of [set_classpath], the
    first fifteen pieces are the default libraries in their order, a call
    having changed their paths only and added its new names behind them;
    the names are distinct and [JAVA_CLASSPATH] is the paths of the pieces
    joined by colons. *)
Theorem configured_classpath_keeps_the_default_libraries (start self : launch) :
  configured start self ->
  take 15 (map fst (classpath_pieces self)) = default_libraries
  /\ NoDup (map fst (classpath_pieces self))
  /\ (forall name, name ∈ default_libraries ->
                   is_Some (dict_get name (classpath_pieces self)))
  /\ JAVA_CLASSPATH self = String.concat ":" (map snd (classpath_pieces self)).
Proof.
  intros Hconf.
  assert (take 15 (map fst (classpath_pieces self)) = default_libraries
          /\ NoDup (map fst (classpath_pieces self))
          /\ JAVA_CLASSPATH self = String.concat ":" (map snd (classpath_pieces self)))
    as (Htake & Hnd & Hjoin).
  { induction Hconf as [|self name path _ (Htake & Hnd & Hjoin)].
    - split; [reflexivity|]. split; [|reflexivity].
      change (map fst (classpath_pieces
                (build_and_set_classpath (build_default_classpath_pieces start))))
        with default_libraries.
      apply (bool_decide_unpack _). vm_compute. exact I.
    - split; [|split; [by apply dict_set_keys_NoDup|done]].
      simpl. rewrite dict_set_keys. case_bool_decide; [done|].
      rewrite take_app_le; [done|].
      apply (f_equal length) in Htake. rewrite length_take in Htake.
      change (length default_libraries) with 15%nat in Htake. lia. }
  split; [done|]. split; [done|]. split; [|done].
  intros name Hname.
  destruct (dict_get name (classpath_pieces self)) eqn:Hget; [by eexists|].
  apply dict_get_None in Hget. exfalso. apply Hget.
  rewrite <- Htake in Hname. by eapply subseteq_take.
Qed.

(** ** The files of a run of a new object *)

Lemma slash_free_app (s1 s2 : string) :
  slash_free (s1 ++ s2) = slash_free s1 && slash_free s2.
Proof.
  induction s1 as [|c s1 IH]; [done|].
  change (slash_free (String c (s1 ++ s2))
          = slash_free (String c s1) && slash_free s2).
  simpl. by rewrite IH, andb_assoc.
Qed.

Lemma hex_digits_slash_free (p : positive) (rest : string) :
  slash_free rest = true -> slash_free (HexString.Raw.of_pos p rest) = true.
Proof.
  revert p rest. fix IH 1. intros p rest Hrest.
  destruct p as [[[[p|p|]|[p|p|]|]|[[p|p|]|[p|p|]|]|]
                |[[[p|p|]|[p|p|]|]|[[p|p|]|[p|p|]|]|]|];
    simpl; try (apply IH); simpl; exact Hrest.
Qed.

Lemma hex_slash_free (n : N) : slash_free (hex n) = true.
Proof.
  destruct n as [|p]; [done|]. unfold hex. simpl.
  by apply hex_digits_slash_free.
Qed.

Lemma sublist_optional {A} (b : bool) (x : A) (l1 l2 : list A) :
  l1 `sublist_of` l2 -> (if b then [x] else []) ++ l1 `sublist_of` x :: l2.
Proof. destruct b; simpl; [apply sublist_skip|apply sublist_cons]. Qed.

Lemma requested_logs_sublist (self : comets) :
  requested_logs self
  `sublist_of` log_paths self
               ++ (if writeSpecificMediaLog (parameters self)
                   then [SpecificMediaLogName (parameters self)] else []).
Proof.
  unfold requested_logs, log_paths. cbv zeta.
  repeat apply sublist_optional. done.
Qed.

Ltac differ h w Hh Hw :=
  let H := fresh in
  intros H;
  first
    [ discriminate H
    | apply (inj (String.append w)) in H; discriminate H
    | apply (f_equal slash_free) in H;
      rewrite ?slash_free_app, ?Hh, ?Hw in H; discriminate H ].

Lemma paths_of_a_run_differ (h w : string) :
  slash_free h = true ->
  slash_free w = false ->
  NoDup [("total_biomass_log_" ++ h)%string;
         ("flux_log_" ++ h)%string;
         ("media_log_" ++ h)%string;
         ("biomass_log_" ++ h)%string;
         ("GENOTYPES_biomass_log_" ++ h)%string;
         (w ++ ".current_global")%string;
         (w ++ ".current_package")%string;
         (w ++ ".current_script")%string;
         ".current_layout";
         "COMETS_manifest.txt"].
Proof.
  intros Hh Hw.
  repeat (apply NoDup_cons; split;
          [rewrite ?not_elem_of_cons; repeat split;
           try (apply not_elem_of_nil); differ h w Hh Hw|]).
  constructor.
Qed.

Lemma named_by_init_apart (self : comets) :
  slash_free (hex_id self) = true ->
  slash_free (working_dir self) = false ->
  TotalBiomassLogName (parameters self) = ("total_biomass_log_" ++ hex_id self)%string ->
  FluxLogName (parameters self) = ("flux_log_" ++ hex_id self)%string ->
  MediaLogName (parameters self) = ("media_log_" ++ hex_id self)%string ->
  NoDup (log_paths self ++ workspace_files self)
  /\ ((writeSpecificMediaLog (parameters self) = true ->
       SpecificMediaLogName (parameters self)
       ∉ log_paths self ++ workspace_files self) ->
      NoDup (requested_logs self ++ workspace_files self)).
Proof.
  intros Hh Hw Htotal Hflux Hmedia.
  assert (NoDup (log_paths self ++ workspace_files self)) as Hnd.
  { unfold log_paths, workspace_files. rewrite Htotal, Hflux, Hmedia.
    by apply (paths_of_a_run_differ (hex_id self) (working_dir self)). }
  split; [exact Hnd|].
  intros Hspecific.
  eapply sublist_NoDup;
    [|apply sublist_app; [apply requested_logs_sublist|reflexivity]].
  rewrite <- app_assoc.
  destruct (writeSpecificMediaLog (parameters self)); [|exact Hnd].
  specialize (Hspecific eq_refl).
  apply NoDup_app in Hnd as (Hlogs & Hdisj & Hwork).
  rewrite elem_of_app in Hspecific.
  apply NoDup_app. split; [done|]. split.
  - intros p Hp [->|Hin]%elem_of_cons; [tauto|]. by apply (Hdisj p).
  - apply NoDup_cons. split; [tauto|done].
Qed.

(** X16. A new object names the files of its run apart.  Whatever the
    directory, the identity of the object and the parameters are, after
    [__init__] the five paths of the logs that [run] can read by the names
    set there or derived from the identity and the five files of the
    workspace are pairwise different; so are the paths that [run] reads and
    removes, unless the specific media log is requested under one of these
    names. *)
Theorem init_names_the_files_of_a_run_apart
    (cwd : string) (environ : gmap string string) (fs : files) (self_id : N)
    (lay : Layout) (parameters0 : Params) (dir : string)
    (self : comets) (java : launch) (printed : list string) :
  __init__ cwd environ fs self_id lay parameters0 dir
  = Ok (self, java, printed) ->
  NoDup (log_paths self ++ workspace_files self)
  /\ ((writeSpecificMediaLog (parameters self) = true ->
       SpecificMediaLogName (parameters self)
       ∉ log_paths self ++ workspace_files self) ->
      NoDup (requested_logs self ++ workspace_files self)).
Proof.
  intros Hinit. unfold __init__ in Hinit.
  apply bind_Ok in Hinit as (gurobi_home & _ & Hinit).
  apply bind_Ok in Hinit as (comets_home & _ & Hinit).
  injection Hinit as <- _ _.
  apply named_by_init_apart; try reflexivity.
  - apply hex_slash_free.
  - cbn [working_dir]. rewrite !slash_free_app. simpl. apply andb_false_r.
Qed.

(** ** An object before its first run *)

(** X17. A new object answers no image.  After [__init__] and before a
    run, every call of one of the three image functions raises; when the
    log is requested and the metabolite or the model is one of the layout,
    what it raises is the [AttributeError] of the table that no run has
    set. *)
Theorem new_object_answers_no_image
    (py_float : string -> option float)
    (cwd : string) (environ : gmap string string) (fs : files) (self_id : N)
    (lay : Layout) (parameters0 : Params) (dir : string)
    (self : comets) (java : launch) (printed : list string) (cycle : Q) :
  __init__ cwd environ fs self_id lay parameters0 dir = Ok (self, java, printed) ->
  (forall met,
      (exists e, get_metabolite_image py_float self met cycle = Raise e)
      /\ (writeMediaLog parameters0 = true -> met ∈ media_metabolite lay ->
          get_metabolite_image py_float self met cycle
          = Raise (AttributeError "media")))
  /\ (forall model_id,
         (exists e, get_biomass_image py_float self model_id cycle = Raise e)
         /\ (writeBiomassLog parameters0 = true ->
             model_id ∈ map Model.id (models lay) ->
             get_biomass_image py_float self model_id cycle
             = Raise (AttributeError "biomass")))
  /\ (forall model_id reaction_id,
         (exists e, get_flux_image py_float self model_id reaction_id cycle = Raise e)
         /\ (writeFluxLog parameters0 = true ->
             model_id ∈ map Model.id (models lay) ->
             (0 <= fst (grid lay))%Z -> (0 <= snd (grid lay))%Z ->
             get_flux_image py_float self model_id reaction_id cycle
             = Raise (AttributeError "fluxes_by_species"))).
Proof.
  intros Hinit. unfold __init__ in Hinit.
  apply bind_Ok in Hinit as (gurobi_home & _ & Hinit).
  apply bind_Ok in Hinit as (comets_home & _ & Hinit).
  injection Hinit as <- _ _.
  split; [|split].
  - intros met. unfold get_metabolite_image. simpl.
    destruct (writeMediaLog parameters0); simpl; [|split; [eauto|done]].
    case_bool_decide; simpl; [by eauto|]. split; [eauto|done].
  - intros model_id. unfold get_biomass_image. simpl.
    destruct (writeBiomassLog parameters0); simpl; [|split; [eauto|done]].
    case_bool_decide; simpl; [by eauto|]. split; [eauto|done].
  - intros model_id reaction_id. unfold get_flux_image. simpl.
    destruct (writeFluxLog parameters0); simpl; [|split; [eauto|done]].
    case_bool_decide; simpl; [|split; [eauto|done]].
    unfold np_zeros.
    destruct (Z.ltb_spec (fst (grid lay)) 0); simpl; [split; [eauto|lia]|].
    destruct (Z.ltb_spec (snd (grid lay)) 0); simpl; [split; [eauto|lia]|].
    by eauto.
Qed.

(** ** The whole of [run] *)


Section RunOfTheEngine.

Variable strip_split_tabs : string -> list string.
Variable py_float : string -> option float.
Variable csv_fields : list string -> list (list value).
Variable csv_with_header : list string -> result DataFrame.
Variable write_necessary_files : Layout -> string -> files -> result files.
Variable write_params : Params -> string -> string -> files -> result files.
Variable popen_communicate : string -> files -> string * option string * files.

Local Abbreviation run_of_the_engine :=
  (run strip_split_tabs py_float csv_fields csv_with_header
       write_necessary_files write_params popen_communicate).

(** The parameters as the first statement of [run] leaves them. *)
Lemma run_reads_spec (self self' : comets) (java java' : launch) (fs fs' : files)
    (delete_files : bool) (printed : list string) :
  run_of_the_engine self java fs delete_files = Ok (self', java', fs', printed) ->
  exists (self1 : comets) (fs0 fs1 : files) (out : string) (err : option string),
    working_dir self1 = working_dir self
    /\ hex_id self1 = hex_id self
    /\ layout self1 = layout self
    /\ total_biomass self1 = total_biomass self
    /\ fluxes self1 = fluxes self
    /\ fluxes_by_species self1 = fluxes_by_species self
    /\ media self1 = media self
    /\ biomass self1 = biomass self
    /\ genotypes self1 = genotypes self
    /\ specific_media self1 = specific_media self
    /\ (if evolution (parameters self)
        then writeTotalBiomassLog (parameters self1) = false
             /\ writeBiomassLog (parameters self1) = true
             /\ evolution (parameters self1) = true
        else parameters self1 = parameters self)
    /\ fs0 !! (working_dir self ++ ".current_script")%string
       = Some [("load_comets_parameters " ++ (working_dir self ++ ".current_global")
                ++ nl)%string;
               ("load_package_parameters " ++ (working_dir self ++ ".current_package")
                ++ nl)%string;
               ("load_layout " ++ working_dir self ++ ".current_layout")%string]
    /\ cmd java' = Some ("java -classpath " ++ JAVA_CLASSPATH java
                         ++ " edu.bu.segrelab.comets.Comets -loader"
                         ++ " edu.bu.segrelab.comets.fba.FBACometsLoader"
                         ++ " -script " ++ working_dir self ++ ".current_script")%string
    /\ (forall c, cmd java' = Some c -> popen_communicate c fs0 = (out, err, fs1))
    /\ run_output java' = Some out
    /\ run_errors java' = Some (default "STDERR empty." err)
    /\ classpath_pieces java' = classpath_pieces java
    /\ JAVA_CLASSPATH java' = JAVA_CLASSPATH java
    /\ (if py_in "Error" out
        then self' = self1 /\ fs' = fs1
             /\ printed = [(nl ++ "Running COMETS simulation ...")%string; out]
        else run_read_output strip_split_tabs py_float csv_fields csv_with_header
               self1 false fs1 delete_files = Ok (self', fs')
             /\ printed = [(nl ++ "Running COMETS simulation ...")%string; "Done!"]).
Proof.
  unfold run. cbv zeta. cbn [working_dir layout parameters].
  intros Hrun.
  apply bind_Ok in Hrun as (fsa & _ & Hrun).
  apply bind_Ok in Hrun as (fsb & _ & Hrun).
  apply bind_Ok in Hrun as (fsc & Hscript & Hrun).
  match type of Hrun with
  | context [popen_communicate ?c ?f] =>
      destruct (popen_communicate c f) as [[out err] fs1] eqn:Hengine
  end.
  match type of Hengine with
  | popen_communicate _ ?f = _ => set (fs0 := f) in *
  end.
  assert (fsc !! (working_dir self ++ ".current_script")%string = None) as Hgone.
  { unfold os_path_isfile in Hscript. case_bool_decide as Hfile.
    - unfold os_remove in Hscript. destruct Hfile as [? Hfile].
      rewrite Hfile in Hscript. injection Hscript as <-. apply lookup_delete_eq.
    - injection Hscript as <-. by apply eq_None_not_Some. }
  match type of Hrun with
  | (if _ then _ else bind (run_read_output _ _ _ _ ?s _ _ _) _) = _ =>
      exists s, fs0, fs1, out, err
  end.
  cbn [working_dir hex_id layout parameters total_biomass fluxes fluxes_by_species
       media biomass genotypes specific_media].
  do 10 (split; [reflexivity|]).
  split; [destruct (evolution (parameters self)); [by repeat split|done]|].
  split.
  { unfold fs0, open_a_write. by rewrite lookup_insert_eq, Hgone. }
  destruct (py_in "Error" out).
  - injection Hrun as <- <- <- <-. cbn [cmd run_output run_errors classpath_pieces
                                     JAVA_CLASSPATH].
    split; [reflexivity|]. split; [by intros c [= <-]|].
    split; [reflexivity|]. split; [by destruct err|]. by repeat split.
  - apply bind_Ok in Hrun as ([self2 fs2] & Hreads & Hrun).
    injection Hrun as <- <- <- <-. cbn [cmd run_output run_errors classpath_pieces
                                     JAVA_CLASSPATH].
    split; [reflexivity|]. split; [by intros c [= <-]|].
    split; [reflexivity|]. split; [by destruct err|]. by repeat split.
Qed.

(** X18. Evolution switches the total biomass log off.  With [evolution]
    set, a run that returns leaves the parameters with
    [writeTotalBiomassLog] false and [writeBiomassLog] true, whatever they
    were, and the total biomass table as it was before the run; when the
    output of the engine holds no Error, the biomass table and the
    genotypes are set. *)
Theorem run_with_evolution_reads_no_total_biomass
    (self self' : comets) (java java' : launch) (fs fs' : files)
    (delete_files : bool) (printed : list string) :
  evolution (parameters self) = true ->
  run_of_the_engine self java fs delete_files = Ok (self', java', fs', printed) ->
  writeTotalBiomassLog (parameters self') = false
  /\ writeBiomassLog (parameters self') = true
  /\ total_biomass self' = total_biomass self
  /\ (forall out, run_output java' = Some out -> py_in "Error" out = false ->
                  is_Some (biomass self') /\ is_Some (genotypes self')).
Proof.
  intros Hevo Hrun.
  apply run_reads_spec in Hrun
    as (self1 & fs0 & fs1 & out & err & _ & _ & _ & Htotal & _ & _ & _ & _ & _ & _
        & Hparams & _ & _ & _ & Hout & _ & _ & _ & Hreads).
  rewrite Hevo in Hparams. destruct Hparams as (Hwt & Hwb & Hev).
  destruct (py_in "Error" out) eqn:Herror.
  - destruct Hreads as (-> & _ & _). do 3 (split; [done|]).
    intros out' Hout' Hno. congruence.
  - destruct Hreads as [Hreads _].
    apply run_read_output_reads in Hreads
      as (_ & Hsame & fs2 & fs3 & fs4 & fs5 & fs6 & fs7
          & Htb%read_total_biomass_attribute & _ & _
          & Hbm%read_csv_step_attribute & Hgt%read_csv_step_attribute & _).
    rewrite Hwt in Htb. rewrite Hwb in Hbm. rewrite Hev in Hgt. simpl in *.
    rewrite Hsame. do 2 (split; [done|]). split; [congruence|]. by intros.
Qed.

(** X19. A run whose output holds Error reads and removes nothing.  When
    the output of the engine holds the word Error, [run] raises nothing and
    returns with every table as it was before, a table of an earlier run
    included; it prints the output, and the files are as the engine left
    them, whatever [delete_files] is. *)
Theorem run_with_Error_in_output_reads_nothing
    (self self' : comets) (java java' : launch) (fs fs' : files)
    (delete_files : bool) (printed : list string) (out : string) :
  run_of_the_engine self java fs delete_files = Ok (self', java', fs', printed) ->
  run_output java' = Some out ->
  py_in "Error" out = true ->
  total_biomass self' = total_biomass self
  /\ fluxes self' = fluxes self
  /\ fluxes_by_species self' = fluxes_by_species self
  /\ media self' = media self
  /\ biomass self' = biomass self
  /\ genotypes self' = genotypes self
  /\ specific_media self' = specific_media self
  /\ last printed = Some out
  /\ exists c fs0 err, cmd java' = Some c /\ popen_communicate c fs0 = (out, err, fs').
Proof.
  intros Hrun Hout Herror.
  apply run_reads_spec in Hrun
    as (self1 & fs0 & fs1 & out' & err & _ & _ & _ & Htb & Hfl & Hbs & Hmd & Hbm
        & Hgt & Hsm & _ & _ & Hcmd & Hengine & Hout' & _ & _ & _ & Hreads).
  assert (out' = out) as -> by congruence.
  rewrite Herror in Hreads. destruct Hreads as (-> & -> & ->).
  do 7 (split; [done|]). split; [done|].
  eexists _, fs0, err. split; [exact Hcmd|]. by apply Hengine.
Qed.

(** X20. The engine is started on a new script.  Whatever the script file
    held before the run, the engine is started by the command of the class
    path of the object on files in which the script holds the three lines
    that [run] writes and nothing else, although [run] opens the file for
    appending; the outputs of the engine are kept on the object. *)
Theorem run_starts_the_engine_on_a_new_script
    (self self' : comets) (java java' : launch) (fs fs' : files)
    (delete_files : bool) (printed : list string) :
  run_of_the_engine self java fs delete_files = Ok (self', java', fs', printed) ->
  exists (c : string) (fs0 fs1 : files) (out : string) (err : option string),
    c = ("java -classpath " ++ JAVA_CLASSPATH java
         ++ " edu.bu.segrelab.comets.Comets -loader"
         ++ " edu.bu.segrelab.comets.fba.FBACometsLoader"
         ++ " -script " ++ working_dir self ++ ".current_script")%string
    /\ fs0 !! (working_dir self ++ ".current_script")%string
       = Some [("load_comets_parameters " ++ (working_dir self ++ ".current_global")
                ++ nl)%string;
               ("load_package_parameters " ++ (working_dir self ++ ".current_package")
                ++ nl)%string;
               ("load_layout " ++ working_dir self ++ ".current_layout")%string]
    /\ popen_communicate c fs0 = (out, err, fs1)
    /\ cmd java' = Some c
    /\ run_output java' = Some out
    /\ run_errors java' = Some (default "STDERR empty." err)
    /\ JAVA_CLASSPATH java' = JAVA_CLASSPATH java.
Proof.
  intros Hrun.
  apply run_reads_spec in Hrun
    as (self1 & fs0 & fs1 & out & err & _ & _ & _ & _ & _ & _ & _ & _ & _ & _
        & _ & Hscript & Hcmd & Hengine & Hout & Herr & _ & Hjava & _).
  eexists _, fs0, fs1, out, err. split; [reflexivity|].
  split; [exact Hscript|]. split; [by apply Hengine|]. by repeat split.
Qed.

End RunOfTheEngine.

(** * The further statements on small runs *)

(** Three models, the third with the id of the first: the table under A
    is the one of the third. *)
Lemma fluxes_by_species_keeps_last_model_of_an_id_witness :
  exists by_species tbl,
    build_readable_flux_object ex_raw_flux [model_A; model_B; model_A2] = Ok by_species
    /\ NoDup (map fst by_species)
    /\ dict_get "A" by_species = Some tbl
    /\ flux_table ex_raw_flux 3 model_A2 = Ok tbl.
Proof.
  destruct (fluxes_by_species_keeps_last_model_of_an_id
              ex_raw_flux [model_A; model_B; model_A2] 5 eq_refl eq_refl)
    as (by_species & Hrun & Hnd & _ & _ & Hlast).
  destruct (Hlast 0%nat model_A eq_refl)
    as (j & m' & tbl & _ & Hj & Hid & Hout & Htbl & Hget).
  exists by_species, tbl. split; [exact Hrun|]. split; [exact Hnd|].
  split; [exact Hget|].
  destruct j as [|[|[|j]]]; simpl in Hj.
  - exfalso. apply Hout. by_decide.
  - injection Hj as <-. discriminate Hid.
  - injection Hj as <-. exact Htbl.
  - discriminate Hj.
Defined.

(** The tables of A and B of the small run share no row. *)
Lemma flux_tables_share_no_row_witness :
  exists ti tj,
    flux_table ex_raw_flux 1 model_A = Ok ti
    /\ flux_table ex_raw_flux 2 model_B = Ok tj
    /\ map fst (rows ti) `sublist_of` map fst (rows ex_raw_flux)
    /\ (forall l, l ∈ map fst (rows ti) ->
                  exists r, r ∈ rows ex_raw_flux /\ fst r = l
                            /\ model_index_is 1 r = true)
    /\ (forall l, l ∈ map fst (rows ti) -> l ∉ map fst (rows tj)).
Proof.
  apply (flux_tables_share_no_row ex_raw_flux [model_A; model_B] 5 0 1
           model_A model_B).
  - reflexivity.
  - reflexivity.
  - by_decide.
  - reflexivity.
  - reflexivity.
  - lia.
Defined.

(** The flux log of the small run: two rows of nine cells, and tables of
    six and eight. *)
Lemma flux_tables_rows_fill_columns_witness :
  exists raw by_species fs',
    read_flux ex_csv_fields (ex_comets true) ex_files false
    = Ok (Some raw, Some by_species, fs')
    /\ length (rows raw) = length (ex_csv_fields ex_flux_lines)
    /\ Forall (fun r => length (snd r) = length (columns raw)) (rows raw)
    /\ forall k tbl,
         dict_get k by_species = Some tbl ->
         Forall (fun r => length (snd r) = length (columns tbl)) (rows tbl).
Proof.
  apply (flux_tables_rows_fill_columns
           ex_csv_fields (ex_comets true) ex_files false ex_flux_lines 5).
  - reflexivity.
  - reflexivity.
  - vm_compute. reflexivity.
  - simpl. repeat (apply Forall_cons; split; [simpl; lia|]). constructor.
Defined.

(** The image of glucose at cycle 3 has three rows and six columns. *)
Lemma images_have_the_shape_of_the_grid_witness :
  exists im,
    get_metabolite_image ex_float (ex_comets true) "glucose" 3 = Ok im
    /\ shape im = (3, 6)%nat
    /\ well_shaped im.
Proof.
  destruct (get_metabolite_image ex_float (ex_comets true) "glucose" 3)
    as [im|e] eqn:Hrun; [|by vm_compute in Hrun].
  exists im. split; [reflexivity|].
  apply (images_have_the_shape_of_the_grid ex_float (ex_comets true) 3 im).
  left. by exists "glucose".
Defined.

(** The second record of glucose at cycle 3 has [x = 4] on a grid of three
    rows. *)
Lemma metabolite_image_of_record_outside_raises_IndexError_witness :
  get_metabolite_image ex_float ex_comets_outside "glucose" 3 = Raise IndexError.
Proof.
  apply (metabolite_image_of_record_outside_raises_IndexError
           ex_float ex_comets_outside "glucose" 3 ex_media_outside 3 6
           [(0%Z, [Str "glucose"; num 3; num 2; num 5; Float (Finite (15 # 2))])]
           []
           (1%Z, [Str "glucose"; num 3; num 4; num 1; Float (Finite (1 # 2))])
           4 1).
  - reflexivity.
  - by_decide.
  - reflexivity.
  - reflexivity.
  - reflexivity.
  - repeat constructor.
  - reflexivity.
  - reflexivity.
  - apply Forall_cons. split; [|constructor].
    exists 2%Z, 5%Z, (Finite (15 # 2)).
    split; [reflexivity|]. split; [reflexivity|]. lia.
  - reflexivity.
  - lia.
Defined.

(** The reaction id x on the table of A: the cell of the record at
    [(2, 5)] holds 2. *)
Lemma flux_image_of_a_coordinate_column_witness :
  exists im q,
    get_flux_image ex_float (ex_comets true) "A" "x" 3 = Ok im
    /\ cell im 1 4 = Some (Finite q)
    /\ (q == 2)%Q.
Proof.
  destruct (flux_image_of_a_coordinate_column
              ex_float (ex_comets true) "A" "x" 1 3 [("A", ex_flux_A)] ex_flux_A 3 6)
    as (im & Hrun & _ & Hx).
  - reflexivity.
  - reflexivity.
  - by_decide.
  - reflexivity.
  - reflexivity.
  - reflexivity.
  - by_decide.
  - reflexivity.
  - repeat constructor.
  - reflexivity.
  - apply Forall_cons. split; [|constructor].
    exists 2%Z, 5%Z, (Finite (inject_Z 2)).
    split; [reflexivity|]. split; [reflexivity|]. lia.
  - destruct (Hx eq_refl 1%nat 4%nat
                (0%Z, [num 3; num 2; num 5; num 10; Float (Finite (15 # 2)); num 12])
                eq_refl) as (q & Hcell & Hq).
    exists im, q. split; [exact Hrun|]. split; [exact Hcell|]. exact Hq.
Defined.

(** The reads with [delete_files]: the flux log and the script are gone,
    the notes are kept. *)
Lemma run_removes_exactly_its_files_witness :
  exists self' fs',
    ex_reads true = Ok (self', fs')
    /\ fs' !! "flux_log_0x7f" = None
    /\ fs' !! "/tmp/.current_script" = None
    /\ fs' !! "notes.txt" = Some ["keep"].
Proof.
  destruct (ex_reads true) as [[self' fs']|e] eqn:Hrun; [|by vm_compute in Hrun].
  exists self', fs'. split; [reflexivity|].
  destruct (run_removes_exactly_its_files _ _ _ _ _ _ _ _ true Hrun) as [_ Hdel].
  rewrite !(Hdel eq_refl). by vm_compute.
Defined.

(** The same reads: the six paths are different files. *)
Lemma run_with_delete_needs_distinct_paths_witness :
  exists self' fs',
    ex_reads true = Ok (self', fs')
    /\ NoDup ["flux_log_0x7f"; "/tmp/.current_global"; "/tmp/.current_package";
              "/tmp/.current_script"; ".current_layout"; "COMETS_manifest.txt"]
    /\ is_Some (ex_run_files !! "flux_log_0x7f").
Proof.
  destruct (ex_reads true) as [[self' fs']|e] eqn:Hrun; [|by vm_compute in Hrun].
  exists self', fs'. split; [reflexivity|].
  destruct (run_with_delete_needs_distinct_paths _ _ _ _ _ _ _ _ Hrun) as [Hnd Hin].
  split; [exact Hnd|]. apply Hin. by_decide.
Defined.

(** The same reads without [delete_files]: the flux tables are set, the
    media table is not. *)
Lemma run_sets_the_requested_tables_only_witness :
  exists self' fs',
    ex_reads false = Ok (self', fs')
    /\ is_Some (fluxes self')
    /\ is_Some (fluxes_by_species self')
    /\ media self' = None.
Proof.
  destruct (ex_reads false) as [[self' fs']|e] eqn:Hrun; [|by vm_compute in Hrun].
  exists self', fs'. split; [reflexivity|].
  destruct (run_sets_the_requested_tables_only _ _ _ _ _ _ _ _ _ Hrun)
    as (_ & _ & _ & Hfluxes & Hby_species & Hmedia & _).
  split; [exact Hfluxes|]. split; [exact Hby_species|exact Hmedia].
Defined.

(** A layout without models, no file at all. *)
Lemma run_flux_log_without_models_raises_witness :
  read_flux ex_csv_fields (ex_new_comets (ex_layout []) (ex_one_log false true false))
    ∅ true
  = Raise (ValueError "max() arg is an empty sequence")
  /\ run_read_output (fun _ => []) ex_float ex_csv_fields (fun _ => Raise CorruptLine)
       (ex_new_comets (ex_layout []) (ex_one_log false true false)) false ∅ true
     = Raise (ValueError "max() arg is an empty sequence").
Proof.
  apply (run_flux_log_without_models_raises
           (fun _ => []) ex_float ex_csv_fields (fun _ => Raise CorruptLine)
           (ex_new_comets (ex_layout []) (ex_one_log false true false)) ∅ true).
  - reflexivity.
  - reflexivity.
  - reflexivity.
Defined.

(** A total biomass log of two cycles for the models A and B. *)
Lemma total_biomass_rows_are_the_lines_witness :
  exists df fs',
    read_total_biomass ex_strip_split_tabs ex_py_float
      (ex_new_comets (ex_layout [model_A; model_B]) (ex_one_log true false false))
      (ex_total_files ex_total_lines) false
    = Ok (Some df, fs')
    /\ columns df = map LStr ["cycle"; "A"; "B"]
    /\ rows df = [(0%Z, [Float (Finite 0); Float (Finite (1 # 2)); Float (Finite (1 # 4))]);
                  (1%Z, [Float (Finite 1); Float (Finite 1); Float (Finite (1 # 2))])].
Proof.
  apply (total_biomass_rows_are_the_lines ex_strip_split_tabs ex_py_float
           (ex_new_comets (ex_layout [model_A; model_B]) (ex_one_log true false false))
           (ex_total_files ex_total_lines) false ex_total_lines).
  - reflexivity.
  - vm_compute. reflexivity.
  - repeat (apply Forall_cons; split;
            [split; [reflexivity|];
             repeat (apply Forall_cons; split; [by eexists|]); constructor|]).
    constructor.
Defined.

(** The same log with the token oops. *)
Lemma total_biomass_malformed_raises_ValueError_witness :
  exists msg,
    read_total_biomass ex_strip_split_tabs ex_py_float
      (ex_new_comets (ex_layout [model_A; model_B]) (ex_one_log true false false))
      (ex_total_files ex_total_lines_bad) false
    = Raise (ValueError msg).
Proof.
  apply (total_biomass_malformed_raises_ValueError ex_strip_split_tabs ex_py_float
           (ex_new_comets (ex_layout [model_A; model_B]) (ex_one_log true false false))
           (ex_total_files ex_total_lines_bad) false ex_total_lines_bad).
  - reflexivity.
  - vm_compute. reflexivity.
  - discriminate.
  - right. apply Exists_cons. right. apply Exists_cons. left.
    apply Exists_cons. right. apply Exists_cons. left. reflexivity.
Defined.

(** A machine with the jar of Gurobi only: fourteen pieces are broken, and
    the warning is printed. *)
Lemma broken_pieces_are_the_pieces_without_a_file_witness :
  map fst (get_broken_classpath_pieces ex_java ex_jars) = tail default_libraries
  /\ (test_classpath_pieces ex_java ex_jars = []
      <-> Forall (fun kv => is_Some (ex_jars !! snd kv)) (classpath_pieces ex_java)).
Proof.
  destruct (broken_pieces_are_the_pieces_without_a_file ex_java ex_jars)
    as [Hbroken Hprinted].
  - by_decide.
  - split; [|exact Hprinted]. rewrite Hbroken. by vm_compute.
Defined.

(** Another jar of hamcrest: the piece keeps its place, the third. *)
Lemma set_classpath_keeps_the_order_witness :
  dict_get "hamcrest"
    (classpath_pieces (set_classpath ex_java "hamcrest" "/home/me/hamcrest.jar"))
  = Some "/home/me/hamcrest.jar"
  /\ map fst (classpath_pieces (set_classpath ex_java "hamcrest" "/home/me/hamcrest.jar"))
     = default_libraries.
Proof.
  destruct (set_classpath_keeps_the_order ex_java "hamcrest" "/home/me/hamcrest.jar")
    as (_ & Hget & _ & Hat & _).
  - by_decide.
  - split; [exact Hget|]. rewrite (Hat 2%nat eq_refl). reflexivity.
Defined.

(** A library of the user after the defaults. *)
Lemma configured_classpath_keeps_the_default_libraries_witness :
  take 15 (map fst (classpath_pieces
                      (set_classpath ex_java "user_lib" "/home/me/lib.jar")))
  = default_libraries
  /\ NoDup (map fst (classpath_pieces
                       (set_classpath ex_java "user_lib" "/home/me/lib.jar")))
  /\ (forall name, name ∈ default_libraries ->
                   is_Some (dict_get name
                              (classpath_pieces
                                 (set_classpath ex_java "user_lib" "/home/me/lib.jar"))))
  /\ JAVA_CLASSPATH (set_classpath ex_java "user_lib" "/home/me/lib.jar")
     = String.concat ":" (map snd (classpath_pieces
                                     (set_classpath ex_java "user_lib"
                                        "/home/me/lib.jar"))).
Proof.
  apply (configured_classpath_keeps_the_default_libraries ex_start).
  apply configured_set_classpath, configured_default.
Defined.

(** The object of identity 127 in the directory run1 of /home/me. *)
Lemma init_names_the_files_of_a_run_apart_witness :
  exists self java printed,
    ex_init = Ok (self, java, printed)
    /\ hex_id self = "0x7f"
    /\ NoDup (log_paths self ++ workspace_files self)
    /\ NoDup (requested_logs self ++ workspace_files self).
Proof.
  destruct ex_init as [[[self java] printed]|e] eqn:Hinit; [|by vm_compute in Hinit].
  exists self, java, printed. split; [reflexivity|].
  destruct (init_names_the_files_of_a_run_apart _ _ _ _ _ _ _ _ _ _ Hinit)
    as [Hnd Hrequested].
  vm_compute in Hinit. injection Hinit as <- _ _.
  split; [reflexivity|]. split; [exact Hnd|].
  apply Hrequested. intros _. by_decide.
Defined.

(** The same object, asked for the image of glucose. *)
Lemma new_object_answers_no_image_witness :
  exists self java printed,
    ex_init = Ok (self, java, printed)
    /\ get_metabolite_image ex_float self "glucose" 3 = Raise (AttributeError "media").
Proof.
  destruct ex_init as [[[self java] printed]|e] eqn:Hinit; [|by vm_compute in Hinit].
  exists self, java, printed. split; [reflexivity|].
  destruct (new_object_answers_no_image ex_float _ _ _ _ _ _ _ _ _ _ 3 Hinit)
    as (Hmedia & _ & _).
  apply (Hmedia "glucose"); [reflexivity|by_decide].
Defined.

(** A run with evolution and the total biomass log requested. *)
Lemma run_with_evolution_reads_no_total_biomass_witness :
  exists self' java' fs' printed,
    ex_run_of_evolution = Ok (self', java', fs', printed)
    /\ writeTotalBiomassLog (parameters self') = false
    /\ total_biomass self' = None
    /\ is_Some (biomass self')
    /\ is_Some (genotypes self').
Proof.
  destruct ex_run_of_evolution as [[[[self' java'] fs'] printed]|e] eqn:Hrun;
    [|by vm_compute in Hrun].
  unfold ex_run_of_evolution in Hrun.
  exists self', java', fs', printed. split; [reflexivity|].
  destruct (run_with_evolution_reads_no_total_biomass _ _ _ _ _ _ _
              (ex_new_comets (ex_layout [model_A; model_B]) (ex_one_log true false true))
              _ _ _ _ _ _ _ eq_refl Hrun) as (Hflag & _ & Htotal & Hlogs).
  split; [exact Hflag|]. split; [exact Htotal|].
  apply (Hlogs "cycle 1"); [|reflexivity].
  vm_compute in Hrun. by injection Hrun as _ <- _ _.
Defined.

(** A run whose engine fails, on the object of the small run. *)
Lemma run_with_Error_in_output_reads_nothing_witness :
  exists self' java' fs' printed,
    ex_run_failed = Ok (self', java', fs', printed)
    /\ media self' = Some ex_media
    /\ genotypes self' = None
    /\ last printed = Some "Error: Could not find or load main class".
Proof.
  destruct ex_run_failed as [[[[self' java'] fs'] printed]|e] eqn:Hrun;
    [|by vm_compute in Hrun].
  unfold ex_run_failed in Hrun.
  exists self', java', fs', printed. split; [reflexivity|].
  destruct (run_with_Error_in_output_reads_nothing _ _ _ _ _ _ _ _ _ _ _ _ _ _ _
              "Error: Could not find or load main class" Hrun)
    as (_ & _ & _ & Hmedia & _ & Hgenotypes & _ & Hprinted & _).
  - vm_compute in Hrun. by injection Hrun as _ <- _ _.
  - reflexivity.
  - split; [exact Hmedia|]. split; [exact Hgenotypes|exact Hprinted].
Defined.

(** The same run: the script that the engine finds. *)
Lemma run_starts_the_engine_on_a_new_script_witness :
  exists self' java' fs' printed (fs0 : files),
    ex_run_failed = Ok (self', java', fs', printed)
    /\ length <$> fs0 !! "/tmp/.current_script" = Some 3%nat
    /\ run_errors java' = Some "STDERR empty.".
Proof.
  destruct ex_run_failed as [[[[self' java'] fs'] printed]|e] eqn:Hrun;
    [|by vm_compute in Hrun].
  unfold ex_run_failed in Hrun.
  destruct (run_starts_the_engine_on_a_new_script _ _ _ _ _ _ _ _ _ _ _ _ _ _ _ Hrun)
    as (c & fs0 & fs1 & out & err & _ & Hscript & Hengine & _ & _ & Herr & _).
  exists self', java', fs', printed, fs0. split; [reflexivity|].
  split.
  { change (fs0 !! "/tmp/.current_script")
      with (fs0 !! (working_dir (ex_comets true) ++ ".current_script")%string).
    by rewrite Hscript. }
  rewrite Herr. unfold ex_engine_failed in Hengine. by injection Hengine as _ <- _.
Defined.
